(** * WebHDFS client (webhdfs/webhdfs.py): a shallow embedding

    The Python 2 module is embedded function by function.  A Python [str]
    is a byte string and is modelled by [string] (a list of 8-bit
    characters); Python integers are [Z]; a raised exception is the
    [Raise] case of [result].

    The library functions whose behaviour the client depends on are
    modelled next to it: [urlparse.urlparse], the one pattern given to
    [re.match], and [zlib.decompressobj(wbits).decompress].  The HTTP
    servers, the local file system, [json.loads] and the range of the C
    integer of the interpreter are the environment
    of a call: every operation is a function of the environment and of
    the world before the call, and returns its result (or the exception
    it raises) with the world after it, which holds the log of the
    requests sent and of the connections closed. *)

From Stdlib Require Import ZArith NArith List String Ascii Bool Lia DecimalString.
From stdpp Require Import base option list strings gmap.
Import ListNotations.

Local Open Scope string_scope.

(** ** Exceptions and results *)

Inductive exn : Type :=
  | KeyError (key : string)
  | TypeError
  | AttributeError
  | ValueError (msg : string)
  | IOError (path : string)
  | SocketError
  | ZlibError (msg : string)
  | OverflowError
  | UnicodeEncodeError
  (* [raise Exception('Invalid host and/or port: %s' % netloc)] *)
  | InvalidHostPort (netloc : string).

Inductive result (A : Type) : Type :=
  | Ok (a : A)
  | Raise (e : exn).

Arguments Ok {A} a.
Arguments Raise {A} e.

(** ** Python string operations used by the module *)

Module Py.

Definition code (c : ascii) : N := N_of_ascii c.

Definition is_digit (c : ascii) : bool :=
  (48 <=? code c)%N && (code c <=? 57)%N.

Definition is_upper (c : ascii) : bool :=
  (65 <=? code c)%N && (code c <=? 90)%N.

Definition is_lower (c : ascii) : bool :=
  (97 <=? code c)%N && (code c <=? 122)%N.

Definition is_alpha (c : ascii) : bool := is_upper c || is_lower c.

Definition ascii_eqb (a b : ascii) : bool := Ascii.eqb a b.

(** [c in s] for a one-character [c]. *)
Fixpoint contains (c : ascii) (s : string) : bool :=
  match s with
  | EmptyString => false
  | String x s' => ascii_eqb x c || contains c s'
  end.

Fixpoint forall_chars (p : ascii -> bool) (s : string) : bool :=
  match s with
  | EmptyString => true
  | String x s' => p x && forall_chars p s'
  end.

(** The text can be encoded in ASCII: every character has a code below
    128. *)
Definition is_ascii (s : string) : bool :=
  forall_chars (fun c => (code c <? 128)%N) s.

(** The longest prefix whose characters satisfy [p], and the rest. *)
Fixpoint span(p : ascii -> bool) (s : string) : string * string :=
  match s with
  | EmptyString => (EmptyString, EmptyString)
  | String x s' =>
      if p x then let '(a, b) := span p s' in (String x a, b)
      else (EmptyString, s)
  end.

(** What stops [span]: the end of the text or a character outside [p]. *)
Definition stops (p : ascii -> bool) (rest : string) : Prop :=
  match rest with
  | EmptyString => True
  | String c _ => p c = false
  end.

(** [s.split(c, 1)] when [c in s]: the parts before and after the first
    occurrence; [None] when [c] does not occur. *)
Fixpoint split_once (c : ascii) (s : string) : option (string * string) :=
  match s with
  | EmptyString => None
  | String x s' =>
      if ascii_eqb x c then Some (EmptyString, s')
      else match split_once c s' with
           | Some (a, b) => Some (String x a, b)
           | None => None
           end
  end.

(** The parts before and after the last occurrence of [c]. *)
Fixpoint rsplit_once (c : ascii) (s : string) : option (string * string) :=
  match s with
  | EmptyString => None
  | String x s' =>
      match rsplit_once c s' with
      | Some (a, b) => Some (String x a, b)
      | None => if ascii_eqb x c then Some (EmptyString, s') else None
      end
  end.

(** [s[:n]] and [s[n:]]. *)
Fixpoint take (n : nat) (s : string) : string :=
  match n, s with
  | S n', String x s' => String x (take n' s')
  | _, _ => EmptyString
  end.

Fixpoint drop (n : nat) (s : string) : string :=
  match n, s with
  | S n', String _ s' => drop n' s'
  | _, _ => s
  end.

Definition lower_char (c : ascii) : ascii :=
  if is_upper c then ascii_of_N (code c + 32) else c.

Fixpoint lower (s : string) : string :=
  match s with
  | EmptyString => EmptyString
  | String x s' => String (lower_char x) (lower s')
  end.

Fixpoint lstrip (c : ascii) (s : string) : string :=
  match s with
  | String x s' => if ascii_eqb x c then lstrip c s' else s
  | EmptyString => EmptyString
  end.

(** [rstrip] keeps a character when it differs from [c] or when
    something remains after it. *)
Fixpoint rstrip (c : ascii) (s : string) : string :=
  match s with
  | EmptyString => EmptyString
  | String x s' =>
      match rstrip c s' with
      | EmptyString => if ascii_eqb x c then EmptyString else String x EmptyString
      | r => String x r
      end
  end.

(** [s.strip(c)] for a one-character [c]. *)
Definition strip (c : ascii) (s : string) : string := rstrip c (lstrip c s).

Definition rev (s : string) : string :=
  string_of_list_ascii (List.rev (list_ascii_of_string s)).

(** [s.endswith(suffix)]. *)
Definition endswith (s suffix : string) : bool :=
  String.prefix (rev suffix) (rev s).

(** [str(n)] for an integer. *)
Definition str (n : Z) : string := NilZero.string_of_int (Z.to_int n).

Definition digit_value (c : ascii) : Z := Z.of_N (code c) - 48.

(** [int(s)] for a string of decimal digits. *)
Definition int_of_digits (s : string) : Z :=
  fold_left (fun acc c => 10 * acc + digit_value c)%Z (list_ascii_of_string s) 0%Z.

End Py.

(** ** The standard library's [urlparse.urlparse] (Python 2) *)

Module Urlparse.
Import Py.

Definition uses_params : list string :=
  ["ftp"; "hdl"; "prospero"; "http"; "imap"; "https"; "shttp"; "rtsp";
   "rtspu"; "sip"; "sips"; "mms"; ""; "sftp"; "tel"].

(** [scheme_chars]: letters, digits and ["+-."]. *)
Definition scheme_char (c : ascii) : bool :=
  is_alpha c || is_digit c || contains c "+-.".

(** [_splitnetloc(url, 2)]: the text after the two slashes up to the
    first of ['/'], ['?'], ['#']. *)
Definition splitnetloc (url : string) : string * string :=
  span (fun c => negb (contains c "/?#")) (drop 2 url).

(** The scheme step of [urlsplit]: the scheme and the remaining text. *)
Definition split_scheme (url : string) : string * string :=
  match split_once ":" url with
  | Some (pre, rest) =>
      if String.eqb pre "" then ("", url)
      else if String.eqb pre "http" then ("http", rest)
      else if forall_chars scheme_char pre then
        if String.eqb rest "" || negb (forall_chars is_digit rest)
        then (lower pre, rest)
        else ("", url)
      else ("", url)
  | None => ("", url)
  end.

Definition or_whole (url : string) (o : option (string * string)) : string * string :=
  match o with
  | Some p => p
  | None => (url, "")
  end.

(** [urlsplit(url)]: (scheme, netloc, path, query, fragment). *)
Definition urlsplit (url : string)
  : result (string * string * string * string * string) :=
  let '(scheme, url) := split_scheme url in
  let '(netloc, url) :=
    if String.eqb (take 2 url) "//" then splitnetloc url else ("", url) in
  if (contains "[" netloc && negb (contains "]" netloc))
     || (contains "]" netloc && negb (contains "[" netloc))
  then Raise (ValueError "Invalid IPv6 URL")
  else
    let '(url, fragment) := or_whole url (split_once "#" url) in
    let '(url, query) := or_whole url (split_once "?" url) in
    Ok (scheme, netloc, url, query, fragment).

(** [_splitparams(url)], called when [';' in url]. *)
Definition splitparams (url : string) : string * string :=
  match rsplit_once "/" url with
  | Some (dir, last) =>
      match split_once ";" last with
      | Some (name, params) => (dir ++ "/" ++ name, params)
      | None => (url, "")
      end
  | None => or_whole url (split_once ";" url)
  end.

(** [urlparse(url)]: (scheme, netloc, path, params, query, fragment). *)
Definition urlparse (url : string)
  : result (string * string * string * string * string * string) :=
  match urlsplit url with
  | Raise e => Raise e
  | Ok (scheme, netloc, url, query, fragment) =>
      let '(url, params) :=
        if existsb (String.eqb scheme) uses_params && contains ";" url
        then splitparams url else (url, "") in
      Ok (scheme, netloc, url, params, query, fragment)
  end.

End Urlparse.


(** ** The pattern of [parse_url]

    [re.match('([a-zA-Z0-9\-\.]+):?([0-9]{2,5})?', netloc)] is anchored at
    the start of [netloc] only.  Group 1 is greedy and everything after it
    is optional, so the first alternative the matcher tries succeeds:
    group 1 is the longest non-empty prefix of host characters, an
    immediately following colon is consumed, and group 2 takes up to five
    of the digits that follow when there are at least two of them, and
    does not take part in the match otherwise. *)

Module Re.
Import Py.

(** The class [[a-zA-Z0-9\-\.]]. *)
Definition host_char (c : ascii) : bool :=
  is_alpha c || is_digit c || contains c "-.".

(** [match.groups()], or [None] when there is no match. *)
Definition match_netloc (netloc : string) : option (string * option string) :=
  let '(host, rest) := span host_char netloc in
  if String.eqb host "" then None
  else
    let rest :=
      match rest with
      | String ":" r => r
      | _ => rest
      end in
    let '(digits, _) := span is_digit rest in
    if (2 <=? String.length digits)%nat
    then Some (host, Some (take 5 digits))
    else Some (host, None).

End Re.

(** ** The zlib library behind [zlib.decompressobj(wbits).decompress]

    The inflate engine (RFC 1951) with the zlib (RFC 1950) and gzip
    (RFC 1952) wrappers, as zlib 1.2.4 and later decode them, and the
    Python 2 wrapper around it.  The engine reports the whole output it
    can produce from the data together with how it stopped; the Python
    wrapper cuts that output at [max_length]. *)

Module Zlib.

(** How the engine stops.  [FarBack] is the data error ["invalid
    distance too far back"]: it is found in the [MATCH] state, which the
    engine enters only when there is room for output; every other data
    error is found while reading. *)
Inductive status : Type :=
  | StreamEnd
  | NeedInput
  | DataError (msg : string)
  | FarBack.

(** *** Bit input, least significant bit of each byte first *)

Inductive rd (A : Type) : Type :=
  | Got (a : A) (rest : list bool)
  | Short
  | Bad (msg : string).

Arguments Got {A} a rest.
Arguments Short {A}.
Arguments Bad {A} msg.

Definition reader (A : Type) : Type := list bool -> rd A.

Definition ret {A} (a : A) : reader A := fun bs => Got a bs.

Definition bind {A B} (m : reader A) (k : A -> reader B) : reader B :=
  fun bs =>
    match m bs with
    | Got a rest => k a rest
    | Short => Short
    | Bad msg => Bad msg
    end.

Definition fail {A} (msg : string) : reader A := fun _ => Bad msg.

Declare Scope reader_scope.
Delimit Scope reader_scope with reader.
Notation "'let*' x ':=' m 'in' k" := (bind m (fun x => k))
  (at level 10, x name, m at level 100, k at level 200) : reader_scope.
Local Open Scope reader_scope.

Definition bits_of_byte (c : ascii) : list bool :=
  let 'Ascii b0 b1 b2 b3 b4 b5 b6 b7 := c in [b0; b1; b2; b3; b4; b5; b6; b7].

Definition bits_of (data : list ascii) : list bool := flat_map bits_of_byte data.

(** [NEEDBITS(n)] and [BITS(n)]: an [n]-bit number, low bit first. *)
Fixpoint bits (n : nat) : reader N :=
  match n with
  | O => ret 0%N
  | S n' => fun bs =>
      match bs with
      | [] => Short
      | b :: bs' =>
          match bits n' bs' with
          | Got v rest => Got (N.b2n b + 2 * v)%N rest
          | Short => Short
          | Bad msg => Bad msg
          end
      end
  end.

Definition small (n : nat) : reader nat :=
  let* v := bits n in ret (N.to_nat v).

(** [BYTEBITS()]: drop the rest of the current byte. *)
Definition align : reader unit :=
  fun bs => Got tt (skipn (List.length bs mod 8) bs).

Definition byte : reader ascii :=
  fun bs =>
    match bs with
    | b0 :: b1 :: b2 :: b3 :: b4 :: b5 :: b6 :: b7 :: rest =>
        Got (Ascii b0 b1 b2 b3 b4 b5 b6 b7) rest
    | _ => Short
    end.

(** *** Check values *)

Definition crc_step (crc : N) : N :=
  if N.odd crc then N.lxor (N.shiftr crc 1) 0xEDB88320%N else N.shiftr crc 1.

Definition crc_byte (crc : N) (c : ascii) : N :=
  Nat.iter 8 crc_step (N.lxor crc (N_of_ascii c)).

Definition crc32 (data : list ascii) : N :=
  N.lxor (fold_left crc_byte data 0xFFFFFFFF%N) 0xFFFFFFFF%N.

Definition adler_byte (ab : N * N) (c : ascii) : N * N :=
  let a := ((fst ab + N_of_ascii c) mod 65521)%N in
  (a, ((snd ab + a) mod 65521)%N).

Definition adler32 (data : list ascii) : N :=
  let '(a, b) := fold_left adler_byte data (1, 0)%N in
  (b * 65536 + a)%N.

(** *** Canonical Huffman codes *)

(** [count_len lens l]: how many symbols have code length [l]. *)
Definition count_len (lens : list nat) (l : nat) : nat :=
  List.length (filter (Nat.eqb l) lens).

(** The symbols whose code length is [l], in increasing order. *)
Fixpoint symbols_of (lens : list nat) (l : nat) (sym : nat) : list nat :=
  match lens with
  | [] => []
  | x :: lens' =>
      if Nat.eqb x l then sym :: symbols_of lens' l (S sym)
      else symbols_of lens' l (S sym)
  end.

Definition max_len (lens : list nat) : nat := fold_right Nat.max O lens.

Record huffman : Type := {
  counts : list nat;   (* for the lengths 1, 2, ..., at least one entry *)
  symbols : list nat   (* ordered by code length, then by value *)
}.

Definition construct (lens : list nat) : huffman :=
  let ls := seq 1 (Nat.max 1 (max_len lens)) in
  {| counts := map (count_len lens) ls;
     symbols := flat_map (fun l => symbols_of lens l O) ls |}.

(** What is left of the code space after the lengths 1, 2, ...;
    [None] when the lengths are over-subscribed. *)
Fixpoint code_space (cnts : list nat) (room : Z) : option Z :=
  match cnts with
  | [] => Some room
  | c :: cnts' =>
      let room := (2 * room - Z.of_nat c)%Z in
      if (room <? 0)%Z then None else code_space cnts' room
  end.

(** [inflate_table] accepts a set of lengths that is complete, or
    empty, or (for the literal/length and distance codes only) has a
    single code of length one. *)
Definition table_ok (for_codes : bool) (lens : list nat) : bool :=
  if Nat.eqb (max_len lens) 0 then true
  else
    match code_space (counts (construct lens)) 1 with
    | None => false
    | Some room =>
        negb ((0 <? room)%Z && (for_codes || negb (Nat.eqb (max_len lens) 1)))
    end.

(** Decoding one symbol, one bit at a time. *)
Fixpoint decode_from (cnts syms : list nat) (code first index : nat)
  : reader nat :=
  match cnts with
  | [] => fail "invalid code"
  | count :: cnts' => fun bs =>
      match bs with
      | [] => Short
      | b :: bs' =>
          let code := (code + Nat.b2n b)%nat in
          if (code <? first + count)%nat
          then Got (nth (index + (code - first)) syms O) bs'
          else decode_from cnts' syms (2 * code) (2 * (first + count))
                           (index + count) bs'
      end
  end.

Definition decode (h : huffman) : reader nat :=
  decode_from (counts h) (symbols h) O O O.

(** *** Blocks *)

Definition lbase : list (nat * nat) :=
  [(3, 0); (4, 0); (5, 0); (6, 0); (7, 0); (8, 0); (9, 0); (10, 0);
   (11, 1); (13, 1); (15, 1); (17, 1); (19, 2); (23, 2); (27, 2); (31, 2);
   (35, 3); (43, 3); (51, 3); (59, 3); (67, 4); (83, 4); (99, 4); (115, 4);
   (131, 5); (163, 5); (195, 5); (227, 5); (258, 0)]%nat.

Definition dbase : list (N * nat) :=
  [(1%N, 0%nat); (2%N, 0%nat); (3%N, 0%nat); (4%N, 0%nat);
   (5%N, 1%nat); (7%N, 1%nat); (9%N, 2%nat); (13%N, 2%nat);
   (17%N, 3%nat); (25%N, 3%nat); (33%N, 4%nat); (49%N, 4%nat);
   (65%N, 5%nat); (97%N, 5%nat); (129%N, 6%nat); (193%N, 6%nat);
   (257%N, 7%nat); (385%N, 7%nat); (513%N, 8%nat); (769%N, 8%nat);
   (1025%N, 9%nat); (1537%N, 9%nat); (2049%N, 10%nat); (3073%N, 10%nat);
   (4097%N, 11%nat); (6145%N, 11%nat); (8193%N, 12%nat); (12289%N, 12%nat);
   (16385%N, 13%nat); (24577%N, 13%nat)].

Definition fixed_lens : list nat :=
  (repeat 8 144 ++ repeat 9 112 ++ repeat 7 24 ++ repeat 8 8)%list%nat.

Definition fixed_lencode : huffman := construct fixed_lens.
Definition fixed_distcode : huffman := construct (repeat 5%nat 32%nat).

(** The output is kept newest byte first while it is produced. *)
Fixpoint copy (len dist : nat) (out : list ascii) : list ascii :=
  match len with
  | O => out
  | S len' => copy len' dist (nth (dist - 1) out zero :: out)
  end.

(** The result of a block: the output so far, and the rest of the input
    or why the engine stopped inside the block. *)
Inductive ended : Type :=
  | Next (rest : list bool)
  | Stop (st : status).

Definition block : Type := list ascii * ended.

Definition stop {A} (r : rd A) : ended :=
  match r with
  | Got _ rest => Next rest
  | Short => Stop NeedInput
  | Bad msg => Stop (DataError msg)
  end.

(** The [LEN] ... [MATCH] states: literals and matches up to the
    end-of-block code.  Every round consumes at least one bit. *)
Fixpoint codes (fuel : nat) (lc dc : huffman) (out : list ascii)
  (bs : list bool) : block :=
  match fuel with
  | O => (out, Stop NeedInput)
  | S fuel' =>
      match decode lc bs with
      | Short => (out, Stop NeedInput)
      | Bad _ => (out, Stop (DataError "invalid literal/length code"))
      | Got sym bs1 =>
          if (sym <? 256)%nat then codes fuel' lc dc (ascii_of_nat sym :: out) bs1
          else if (sym =? 256)%nat then (out, Next bs1)
          else
            match nth_error lbase (sym - 257) with
            | None => (out, Stop (DataError "invalid literal/length code"))
            | Some (lb, le) =>
                match small le bs1 with
                | Got lx bs2 =>
                    match decode dc bs2 with
                    | Short => (out, Stop NeedInput)
                    | Bad _ => (out, Stop (DataError "invalid distance code"))
                    | Got dsym bs3 =>
                        match nth_error dbase dsym with
                        | None => (out, Stop (DataError "invalid distance code"))
                        | Some (db, de) =>
                            match small de bs3 with
                            | Got dx bs4 =>
                                let dist := (N.to_nat db + dx)%nat in
                                if (List.length out <? dist)%nat
                                then (out, Stop FarBack)
                                else codes fuel' lc dc
                                       (copy (lb + lx) dist out) bs4
                            | r => (out, stop r)
                            end
                        end
                    end
                | r => (out, stop r)
                end
            end
      end
  end.

(** The [COPY] state: as many of the [n] stored bytes as the input has. *)
Fixpoint copy_stored (n : nat) (out : list ascii) (bs : list bool) : block :=
  match n with
  | O => (out, Next bs)
  | S n' =>
      match byte bs with
      | Got c rest => copy_stored n' (c :: out) rest
      | r => (out, stop r)
      end
  end.

Definition stored (out : list ascii) (bs : list bool) : block :=
  match (let* _ := align in
         let* len := bits 16 in
         let* nlen := bits 16 in
         if N.eqb len (N.lxor nlen 0xFFFF)
         then ret len else fail "invalid stored block lengths") bs with
  | Got len rest => copy_stored (N.to_nat len) out rest
  | r => (out, stop r)
  end.

(** The order in which the code length code lengths are sent. *)
Definition order : list nat :=
  [16; 17; 18; 0; 8; 7; 9; 6; 10; 5; 11; 4; 12; 3; 13; 2; 14; 1; 15]%nat.

Fixpoint read_lenlens (n : nat) : reader (list nat) :=
  match n with
  | O => ret []
  | S n' => let* l := small 3 in let* ls := read_lenlens n' in ret (l :: ls)
  end.

(** The length that position [sym] of the code length alphabet got. *)
Definition lenlen_of (sent : list nat) (sym : nat) : nat :=
  match list_find (Nat.eqb sym) order with
  | Some (i, _) => nth i sent O
  | None => O
  end.

(** A symbol of the code length code.  When that code has no symbol at
    all, the table holds only invalid entries of one bit and value 0,
    and the [CODELENS] state reads their value without looking at the
    invalid mark. *)
Definition decode_lenlen (lens19 : list nat) : reader nat :=
  if Nat.eqb (max_len lens19) 0 then (let* _ := bits 1 in ret O)
  else decode (construct lens19).

(** The [CODELENS] state: [total] code lengths, [lens] newest first. *)
Fixpoint read_lens (fuel : nat) (lens19 : list nat) (total : nat)
  (lens : list nat) : reader (list nat) :=
  match fuel with
  | O => fun _ => Short
  | S fuel' =>
      if (total <=? List.length lens)%nat then ret (List.rev lens)
      else
        (let* sym := decode_lenlen lens19 in
         if (sym <? 16)%nat then read_lens fuel' lens19 total (sym :: lens)
         else
           let* rep :=
             (if (sym =? 16)%nat then
                let* n := small 2 in
                match lens with
                | [] => fail "invalid bit length repeat"
                | prev :: _ => ret (prev, 3 + n)%nat
                end
              else if (sym =? 17)%nat then
                let* n := small 3 in ret (O, 3 + n)%nat
              else
                let* n := small 7 in ret (O, 11 + n)%nat) in
           if (total <? List.length lens + snd rep)%nat
           then fail "invalid bit length repeat"
           else read_lens fuel' lens19 total
                  (repeat (fst rep) (snd rep) ++ lens)%list)
  end.

(** The [TABLE] ... [CODELENS] states of a dynamic block. *)
Definition dynamic_tables : reader (huffman * huffman) :=
  (let* hdr := bits 14 in
   let nlen := (N.to_nat (hdr mod 32) + 257)%nat in
   let ndist := (N.to_nat ((hdr / 32) mod 32) + 1)%nat in
   let ncode := (N.to_nat (hdr / 1024) + 4)%nat in
   if (286 <? nlen)%nat || (30 <? ndist)%nat
   then fail "too many length or distance symbols"
   else
     let* sent := read_lenlens ncode in
     let lens19 := map (lenlen_of sent) (seq 0 19) in
     if negb (table_ok true lens19) then fail "invalid code lengths set"
     else
       fun bs =>
         (let* lens := read_lens (S (List.length bs)) lens19 (nlen + ndist) [] in
          if Nat.eqb (nth 256 lens O) 0
          then fail "invalid code -- missing end-of-block"
          else if negb (table_ok false (firstn nlen lens))
          then fail "invalid literal/lengths set"
          else if negb (table_ok false (skipn nlen lens))
          then fail "invalid distances set"
          else ret (construct (firstn nlen lens), construct (skipn nlen lens)))
         bs).

Definition dynamic (out : list ascii) (bs : list bool) : block :=
  match dynamic_tables bs with
  | Got (lc, dc) rest => codes (S (List.length rest)) lc dc out rest
  | r => (out, stop r)
  end.

(** The [TYPE] state and the blocks up to the last one.  Every block
    consumes at least its three header bits. *)
Fixpoint blocks (fuel : nat) (out : list ascii) (bs : list bool) : block :=
  match fuel with
  | O => (out, Stop NeedInput)
  | S fuel' =>
      match bits 3 bs with
      | Got hdr bs1 =>
          let '(out', e) :=
            match N.to_nat (hdr / 2) with
            | 0 => stored out bs1
            | 1 => codes (S (List.length bs1)) fixed_lencode fixed_distcode out bs1
            | 2 => dynamic out bs1
            | _ => (out, Stop (DataError "invalid block type"))
            end%nat in
          match e with
          | Next bs2 =>
              if N.odd hdr then (out', stop (align bs2)) else blocks fuel' out' bs2
          | Stop _ => (out', e)
          end
      | r => (out, stop r)
      end
  end.

(** *** Stream headers and trailers *)

Inductive wrap : Type := Raw | ZlibWrap | Gzip | Auto.

(** [inflateInit2]: the wrapper and the window bits that [windowBits]
    asks for, [None] for [Z_STREAM_ERROR]. *)
Definition inflateInit2 (windowBits : Z) : option (wrap * Z) :=
  let '(w, wb) :=
    if (windowBits <? 0)%Z then (Some Raw, (- windowBits)%Z)
    else if (windowBits <? 48)%Z then
      (Some (if (windowBits <? 16)%Z then ZlibWrap
             else if (windowBits <? 32)%Z then Gzip else Auto),
       (windowBits mod 16)%Z)
    else (None, windowBits) in
  match w with
  | Some w =>
      if (wb =? 0)%Z || ((8 <=? wb)%Z && (wb <=? 15)%Z) then Some (w, wb) else None
  | None => None
  end.

Fixpoint skip_bytes (n : nat) : reader unit :=
  match n with
  | O => ret tt
  | S n' => let* _ := byte in skip_bytes n'
  end.

(** Skip a zero-terminated field. *)
Fixpoint skip_zstring (bs : list bool) : rd unit :=
  match bs with
  | b0 :: b1 :: b2 :: b3 :: b4 :: b5 :: b6 :: b7 :: rest =>
      if b0 || b1 || b2 || b3 || b4 || b5 || b6 || b7
      then skip_zstring rest else Got tt rest
  | _ => Short
  end.

Definition when (b : bool) (m : reader unit) : reader unit :=
  if b then m else ret tt.

(** The gzip header after its two magic bytes; [data] is the whole
    input, for the header check value. *)
Definition gzip_header (data : list ascii) : reader unit :=
  let* hold := bits 16 in
  let flg := (hold / 256)%N in
  if negb (hold mod 256 =? 8)%N then fail "unknown compression method"
  else if negb (N.land flg 0xe0 =? 0)%N then fail "unknown header flags set"
  else
    let* _ := bits 32 in
    let* _ := bits 16 in
    let* _ := when (N.testbit flg 2)
                (let* xlen := bits 16 in skip_bytes (N.to_nat xlen)) in
    let* _ := when (N.testbit flg 3) skip_zstring in
    let* _ := when (N.testbit flg 4) skip_zstring in
    when (N.testbit flg 1)
      (fun bs =>
         (let* hcrc := bits 16 in
          let seen := firstn (List.length data - List.length bs / 8) data in
          if (hcrc =? crc32 seen mod 65536)%N then ret tt
          else fail "header crc mismatch") bs).

Definition zlib_header (wbits : Z) : reader unit :=
  let* hold := bits 16 in
  let cmf := (hold mod 256)%N in
  let flg := (hold / 256)%N in
  if negb ((cmf * 256 + flg) mod 31 =? 0)%N then fail "incorrect header check"
  else if negb (cmf mod 16 =? 8)%N then fail "unknown compression method"
  else
    let len := Z.of_N (cmf / 16 + 8) in
    if ((15 <? len) || ((if wbits =? 0 then len else wbits) <? len))%Z
    then fail "invalid window size"
    else if N.testbit flg 5 then (let* _ := bits 32 in fail "need dictionary")
    else ret tt.

Inductive check : Type := NoCheck | Adler | Crc.

Definition gzip_magic : N := 0x8b1f.

Definition header (w : wrap) (wbits : Z) (data : list ascii) : reader check :=
  match w with
  | Raw => ret NoCheck
  | ZlibWrap => let* _ := zlib_header wbits in ret Adler
  | Gzip =>
      let* magic := bits 16 in
      if (magic =? gzip_magic)%N then (let* _ := gzip_header data in ret Crc)
      else fail "incorrect header check"
  | Auto => fun bs =>
      (let* magic := bits 16 in
       if (magic =? gzip_magic)%N then (let* _ := gzip_header data in ret Crc)
       else fun _ => (let* _ := zlib_header wbits in ret Adler) bs) bs
  end.

(** Four bytes, most significant first. *)
Definition be32 : reader N :=
  let* a := bits 8 in
  let* b := bits 8 in
  let* c := bits 8 in
  let* d := bits 8 in
  ret (((a * 256 + b) * 256 + c) * 256 + d)%N.

Definition trailer (c : check) (out : list ascii) : reader unit :=
  match c with
  | NoCheck => ret tt
  | Adler =>
      let* v := be32 in
      if (v =? adler32 out)%N then ret tt else fail "incorrect data check"
  | Crc =>
      let* v := bits 32 in
      if negb (v =? crc32 out)%N then fail "incorrect data check"
      else
        let* n := bits 32 in
        if (n =? N.of_nat (List.length out) mod 2 ^ 32)%N then ret tt
        else fail "incorrect length check"
  end.

(** [inflate] run on the whole of [data] with unlimited room for the
    output: all the output, oldest byte first, and how it stopped. *)
Definition inflate (w : wrap) (wbits : Z) (data : list ascii)
  : list ascii * status :=
  match header w wbits data (bits_of data) with
  | Got c bs1 =>
      let '(out, e) := blocks (S (List.length bs1)) [] bs1 in
      let out := List.rev out in
      match e with
      | Next bs2 =>
          match trailer c out bs2 with
          | Got _ _ => (out, StreamEnd)
          | Short => (out, NeedInput)
          | Bad msg => (out, DataError msg)
          end
      | Stop st => (out, st)
      end
  | Short => ([], NeedInput)
  | Bad msg => ([], DataError msg)
  end.

(** *** The Python 2 wrapper

    [zlib.decompressobj(wbits).decompress(data, max_length)].  With a
    non-zero [max_length] the engine is given room for [max_length]
    bytes and stops when it needs more: it then returns what it has and
    never meets what lies further in the data.  [max_length = 0] means
    no limit.

    The method first parses [max_length] into a C integer, whose largest
    value is [int_max]: [INT_MAX] up to CPython 2.7.12 (format ["i"]),
    [PY_SSIZE_T_MAX] from 2.7.13 on (format ["n"]).  A value outside
    [-int_max - 1 .. int_max] raises [OverflowError] before anything
    else is looked at. *)
Definition needs_room (produced : nat) (st : status) (max_length : Z) : bool :=
  ((0 <? max_length)
   && ((max_length <? Z.of_nat produced)
       || ((max_length =? Z.of_nat produced)
           && match st with FarBack => true | _ => false end)))%Z.

Definition decompress (int_max : Z) (wbits : Z) (data : string) (max_length : Z)
  : result string :=
  match inflateInit2 wbits with
  | None => Raise (ValueError "Invalid initialization option")
  | Some (w, wb) =>
      if ((max_length <? - int_max - 1) || (int_max <? max_length))%Z
      then Raise OverflowError
      else if (max_length <? 0)%Z
      then Raise (ValueError "max_length must be greater than zero")
      else
        let '(out, st) := inflate w wb (list_ascii_of_string data) in
        if needs_room (List.length out) st max_length
        then Ok (string_of_list_ascii (firstn (Z.to_nat max_length) out))
        else
          match st with
          | DataError msg => Raise (ZlibError msg)
          | FarBack => Raise (ZlibError "invalid distance too far back")
          | StreamEnd | NeedInput => Ok (string_of_list_ascii out)
          end
  end.

End Zlib.

(** ** JSON values, as [json.loads] returns them

    A [dict] is kept as an association list and looked up by its first
    matching key.  A string is a [unicode] object, one character of the
    model for each of its characters. *)

#[local] Unset Elimination Schemes.

Inductive json : Type :=
  | JNull
  | JBool (b : bool)
  | JInt (n : Z)
  | JStr (s : string)
  | JList (items : list json)
  | JDict (fields : list (string * json)).

#[local] Set Elimination Schemes.

Module Json.

Fixpoint lookup (key : string) (fields : list (string * json)) : option json :=
  match fields with
  | [] => None
  | (k, v) :: fields' => if String.eqb k key then Some v else lookup key fields'
  end.

(** [v[key]] for a string [key]. *)
Definition getitem (v : json) (key : string) : result json :=
  match v with
  | JDict fields =>
      match lookup key fields with
      | Some x => Ok x
      | None => Raise (KeyError key)
      end
  | _ => Raise TypeError
  end.

(** [v.get(key)]. *)
Definition get (v : json) (key : string) : result json :=
  match v with
  | JDict fields =>
      match lookup key fields with
      | Some x => Ok x
      | None => Ok JNull
      end
  | _ => Raise AttributeError
  end.

(** The values that [for i in v] visits. *)
Definition iter (v : json) : result (list json) :=
  match v with
  | JList items => Ok items
  | JDict fields => Ok (map (fun kv => JStr (fst kv)) fields)
  | JStr s => Ok (map (fun c => JStr (String c EmptyString)) (list_ascii_of_string s))
  | _ => Raise TypeError
  end.

(** [a + b], where one of the two is always a string in the module. *)
Definition add (a b : json) : result json :=
  match a, b with
  | JStr x, JStr y => Ok (JStr (x ++ y))
  | _, _ => Raise TypeError
  end.

(** [str(v)], of which the module only logs the text: what is kept is
    whether it raises.  [str] of a [unicode] object encodes it in ASCII
    and raises [UnicodeEncodeError] at a character beyond ASCII; [str] of
    a [dict] or [list] writes the strings in it with escapes, and [str]
    of a number, [True], [False] or [None] has nothing to encode. *)
Definition str (v : json) : result unit :=
  match v with
  | JStr s => if Py.is_ascii s then Ok tt else Raise UnicodeEncodeError
  | _ => Ok tt
  end.

End Json.

(** ** The transport and the local file system *)

Module HTTPResponse.

(** What the client reads of an [httplib.HTTPResponse]: [msg] is the
    header dictionary, keyed by lower-cased names; [length] is [None]
    when the response announces no body length; [body] is what [read()]
    returns; [will_close] tells that the response has taken the socket
    over from its connection (an answer with [Connection: close] or
    without a body length), where a response of a connection that is
    kept alive stays attached to it. *)
Record t : Type := mk {
  status : Z;
  reason : string;
  msg : gmap string string;
  length : option Z;
  body : string;
  will_close : bool
}.

(** [msg[name]]: the dictionary is asked for the lower-cased name. *)
Definition getheader (r : t) (name : string) : result string :=
  match msg r !! Py.lower name with
  | Some v => Ok v
  | None => Raise (KeyError (Py.lower name))
  end.

(** The truth value of [msg]: it has at least one header. *)
Definition has_headers (r : t) : bool := bool_decide (msg r ≠ ∅).

Definition read (r : t) : string := body r.

(** The response [r] of a connection after [close()] of that connection.
    [HTTPConnection.close()] also closes the response that the connection
    still holds, the one of a connection kept alive: its [fp] becomes
    [None] and [read()] gives the empty string from then on.  A response
    that has taken the socket over is not touched. *)
Definition after_close (r : t) : t :=
  if will_close r then r
  else {| status := status r; reason := reason r; msg := msg r;
          length := length r; body := ""; will_close := will_close r |}.

End HTTPResponse.

Record request : Type := {
  req_host : string;
  req_port : Z;
  req_method : string;
  req_url : string;
  req_body : option string
}.

(** What happens to a request: the connection is refused, or the request
    is sent and then either no response arrives or [r] does. *)
Inductive outcome : Type :=
  | Refused
  | NoResponse
  | Reply (r : HTTPResponse.t).

(** The environment of a call: the servers, the JSON decoder ([None] when
    [json.loads] raises [ValueError]), which local paths can be opened
    for writing, and the largest value of the C integer that the
    interpreter parses the [max_length] of [decompress] into. *)
Record env : Type := {
  server : request -> outcome;
  json_loads : string -> option json;
  writable : string -> bool;
  int_max : Z
}.

(** [Sent c rq]: connection [c] was opened and [rq] sent over it;
    [Closed c]: the client called [close()] on connection [c].  (httplib
    closes a connection by itself when the response announces its end;
    the log is of what the client does.) *)
Inductive event : Type :=
  | Sent (conn : nat) (rq : request)
  | Closed (conn : nat).

Record world : Type := {
  trace : list event;             (* oldest event first *)
  files : gmap string string;     (* the local files and their contents *)
  conns : nat                     (* [HTTPConnection] objects made so far *)
}.

Definition initial (fs : gmap string string) : world :=
  {| trace := []; files := fs; conns := 0 |}.

(** The requests sent over connections, in order. *)
Definition requests (w : world) : list request :=
  omap (fun e => match e with Sent _ rq => Some rq | Closed _ => None end) (trace w).

Definition is_closed (c : nat) (t : list event) : bool :=
  existsb (fun e => match e with Closed c' => Nat.eqb c c' | Sent _ _ => false end) t.

(** The connections that were opened and never closed. *)
Definition open_conns (w : world) : list nat :=
  omap (fun e => match e with
                 | Sent c _ => if is_closed c (trace w) then None else Some c
                 | Closed _ => None
                 end) (trace w).

(** ** Computations: a result and the world after it *)

Definition M (A : Type) : Type := world -> result A * world.

Definition ret {A} (a : A) : M A := fun w => (Ok a, w).

Definition bind {A B} (m : M A) (k : A -> M B) : M B :=
  fun w =>
    match m w with
    | (Ok a, w') => k a w'
    | (Raise e, w') => (Raise e, w')
    end.

Definition lift {A} (r : result A) : M A := fun w => (r, w).

Declare Scope io_scope.
Delimit Scope io_scope with io.
Notation "x <- m ;; k" := (bind m (fun x => k))
  (at level 100, m at next level, right associativity) : io_scope.
Local Open Scope io_scope.

(** The world after one more event. *)
Definition record (e : event) (w : world) : world :=
  {| trace := (trace w ++ [e])%list; files := files w; conns := conns w |}.

Definition emit (e : event) : M unit := fun w => (Ok tt, record e w).

(** The world in which the body of a [with] block starts: a new
    connection was made and [rq] sent over it. *)
Definition entered (rq : request) (w : world) : world :=
  record (Sent (conns w) rq)
    {| trace := trace w; files := files w; conns := S (conns w) |}.

Record connection : Type := {
  conn_id : nat;
  conn_host : string;
  conn_port : Z
}.

Section Client.

Variable E : env.

(** *** [httplib.HTTPConnection] *)

(** [HTTPConnection(host, port, timeout=600)]: no network traffic yet. *)
Definition HTTPConnection (host : string) (port : Z) : M connection :=
  fun w =>
    (Ok {| conn_id := conns w; conn_host := host; conn_port := port |},
     {| trace := trace w; files := files w; conns := S (conns w) |}).

(** [c.request(method, url, body, headers={})]: connects and sends. *)
Definition request_ (c : connection) (method url : string) (body : option string)
  : M unit :=
  let rq := {| req_host := conn_host c; req_port := conn_port c;
               req_method := method; req_url := url; req_body := body |} in
  match server E rq with
  | Refused => lift (Raise SocketError)
  | _ => emit (Sent (conn_id c) rq)
  end.

Definition sent_on (c : nat) (t : list event) : option request :=
  last (omap (fun e => match e with
                       | Sent c' rq => if Nat.eqb c c' then Some rq else None
                       | Closed _ => None
                       end) t).

(** [c.getresponse()]. *)
Definition getresponse (c : connection) : M HTTPResponse.t :=
  fun w =>
    match sent_on (conn_id c) (trace w) with
    | Some rq =>
        match server E rq with
        | Reply r => (Ok r, w)
        | _ => (Raise SocketError, w)
        end
    | None => (Raise SocketError, w)
    end.

(** [c.close()]. *)
Definition close (c : connection) : M unit := emit (Closed (conn_id c)).

(** *** Local files *)

(** [open(path, "r").read()]. *)
Definition read_file (path : string) : M string :=
  fun w =>
    match files w !! path with
    | Some data => (Ok data, w)
    | None => (Raise (IOError path), w)
    end.

(** [with open(path, "w") as f: f.write(data)]. *)
Definition write_file (path data : string) : M unit :=
  fun w =>
    if writable E path
    then (Ok tt, {| trace := trace w; files := <[path := data]> (files w);
                    conns := conns w |})
    else (Raise (IOError path), w).

(** [json.loads(s)]. *)
Definition loads (s : string) : M json :=
  lift match json_loads E s with
       | Some v => Ok v
       | None => Raise (ValueError "No JSON object could be decoded")
       end.

(** *** [_NameNodeHTTPClient]

    [__init__] sends the request, [__enter__] waits for the response
    and [__exit__] closes the connection. *)

Definition NameNodeHTTPClient (http_method url_path namenode_host : string)
  (namenode_port : Z) (hdfs_username : string) : M connection :=
  let url_path := url_path ++ "&user.name=" ++ hdfs_username in
  httpclient <- HTTPConnection namenode_host namenode_port ;;
  _ <- request_ httpclient http_method url_path None ;;
  ret httpclient.

Definition enter (self : connection) : M HTTPResponse.t := getresponse self.

Definition exit (self : connection) : M unit := close self.

(** [with mgr as response: body].  [__exit__] runs when the body was
    entered, however it ends; it returns [None], so an exception of the
    body propagates.  It does not run when [__init__] or [__enter__]
    raises. *)
Definition with_ {A} (mgr : M connection) (body : HTTPResponse.t -> M A) : M A :=
  fun w =>
    match mgr w with
    | (Raise e, w1) => (Raise e, w1)
    | (Ok self, w1) =>
        match enter self w1 with
        | (Raise e, w2) => (Raise e, w2)
        | (Ok response, w2) =>
            let '(r, w3) := body response w2 in
            (r, snd (exit self w3))
        end
    end.

(** *** [WebHDFS] *)

Record WebHDFS : Type := {
  namenode_host : string;
  namenode_port : Z;
  username : string
}.

Definition WEBHDFS_CONTEXT_ROOT : string := "/webhdfs/v1".
Definition ZLIB_WBITS : Z := 16.

Definition parse_url (url : string) : result (string * Z * string * string) :=
  match Urlparse.urlparse url with
  | Raise e => Raise e
  | Ok (scheme, netloc, path, params, query, frag) =>
      match Re.match_netloc netloc with
      | Some (host, port) =>
          match port with
          | Some digits => Ok (host, Py.int_of_digits digits, Py.strip "/" path, query)
          | None => Raise TypeError   (* [int(None)] *)
          end
      | None => Raise (InvalidHostPort netloc)
      end
  end.

Definition namenode (self : WebHDFS) (http_method url_path : string) : M connection :=
  NameNodeHTTPClient http_method url_path (namenode_host self)
    (namenode_port self) (username self).

(** The request that [namenode self http_method url_path] sends. *)
Definition control (self : WebHDFS) (http_method url_path : string) : request :=
  {| req_host := namenode_host self; req_port := namenode_port self;
     req_method := http_method;
     req_url := url_path ++ "&user.name=" ++ username self;
     req_body := None |}.

Definition mkdir (self : WebHDFS) (path : string) : M json :=
  let url_path := WEBHDFS_CONTEXT_ROOT ++ path ++ "?op=MKDIRS" in
  with_ (namenode self "PUT" url_path)
    (fun response => loads (HTTPResponse.read response)).

Definition rmdir (self : WebHDFS) (path : string) : M json :=
  let url_path := WEBHDFS_CONTEXT_ROOT ++ path ++ "?op=DELETE&recursive=true" in
  with_ (namenode self "DELETE" url_path)
    (fun response => loads (HTTPResponse.read response)).

(** [url_path] of [copyfromlocal].  The conditional expression binds
    less tightly than [+]: the whole concatenation is its first branch. *)
Definition copyfromlocal_url (target_path : string) (overwrite : bool) : string :=
  if overwrite
  then WEBHDFS_CONTEXT_ROOT ++ target_path ++ "?op=CREATE&overwrite=" ++ "true"
  else "false".

Definition copyfromlocal (self : WebHDFS) (source_path target_path : string)
  (replication : Z) (overwrite : bool) : M json :=
  let url_path := copyfromlocal_url target_path overwrite in
  with_ (namenode self "PUT" url_path)
    (fun response =>
       redirect_location <- lift (HTTPResponse.getheader response "location") ;;
       parsed <- lift (parse_url redirect_location) ;;
       let '(redirect_host, redirect_port, redirect_path, query) := parsed in
       let redirect_path :=
         redirect_path ++ "?" ++ query ++ "&replication=" ++ Py.str replication in
       fileUploadClient <- HTTPConnection redirect_host redirect_port ;;
       data <- read_file source_path ;;
       _ <- request_ fileUploadClient "PUT" redirect_path (Some data) ;;
       response <- getresponse fileUploadClient ;;
       _ <- close fileUploadClient ;;
       (* the body is read after the connection was closed *)
       let response := HTTPResponse.after_close response in
       loads (HTTPResponse.read response)).

(** The test [response.length is not None and response.msg]. *)
Definition redirected (response : HTTPResponse.t) : bool :=
  match HTTPResponse.length response with
  | Some _ => HTTPResponse.has_headers response
  | None => false
  end.

Definition copytolocal_url (source_path : string) : string :=
  WEBHDFS_CONTEXT_ROOT ++ source_path ++ "?op=OPEN&overwrite=true".

Definition copytolocal (self : WebHDFS) (source_path target_path : string) : M Z :=
  let url_path := copytolocal_url source_path in
  with_ (namenode self "GET" url_path)
    (fun response =>
       response <-
         (if redirected response then
            redirect_location <- lift (HTTPResponse.getheader response "location") ;;
            parsed <- lift (parse_url redirect_location) ;;
            let '(redirect_host, redirect_port, redirect_path, query) := parsed in
            let redirect_path := redirect_path ++ "?" ++ query in
            fileDownloadClient <- HTTPConnection redirect_host redirect_port ;;
            _ <- request_ fileDownloadClient "GET" redirect_path None ;;
            response <- getresponse fileDownloadClient ;;
            _ <- write_file target_path (HTTPResponse.read response) ;;
            _ <- close fileDownloadClient ;;
            ret response
          else
            _ <- write_file target_path "" ;;
            ret response) ;;
       ret (HTTPResponse.status response)).

Definition readfile_url (source_path : string) (offset length buffersize : Z)
  : string :=
  WEBHDFS_CONTEXT_ROOT ++ source_path ++ "?op=OPEN&offset=" ++ Py.str offset
    ++ "&length=" ++ Py.str length ++ "&buffersize=" ++ Py.str buffersize.

(** [None] is Python's [None], which a call returns when it runs off the
    end of the function. *)
Definition readfile (self : WebHDFS) (source_path : string)
  (offset length buffersize : Z) : M (option string) :=
  let url_path := readfile_url source_path offset length buffersize in
  with_ (namenode self "GET" url_path)
    (fun response =>
       if redirected response then
         redirect_location <- lift (HTTPResponse.getheader response "location") ;;
         parsed <- lift (parse_url redirect_location) ;;
         let '(redirect_host, redirect_port, redirect_path, query) := parsed in
         let redirect_path := redirect_path ++ "?" ++ query in
         with_ (NameNodeHTTPClient "GET" url_path redirect_host redirect_port
                  (username self))
           (fun redirect_response =>
              if Py.endswith source_path ".gz" then
                let data := HTTPResponse.read redirect_response in
                plain <- lift (Zlib.decompress (int_max E) ZLIB_WBITS data length) ;;
                ret (Some plain)
              else ret (Some (HTTPResponse.read redirect_response)))
       else ret None).

(** One round of the loop of [listdir]; the first line is the argument
    of the logging call. *)
Definition listdir_entry (i : json) : result (json * json * json) :=
  match Json.getitem i "type" with
  | Raise e => Raise e
  | Ok type_ =>
      match Json.add type_ (JStr ": ") with
      | Raise e => Raise e
      | Ok tmp =>
          match Json.getitem i "pathSuffix" with
          | Raise e => Raise e
          | Ok suffix =>
              match Json.add tmp suffix with
              | Raise e => Raise e
              | Ok _ =>
                  match Json.getitem i "length" with
                  | Raise e => Raise e
                  | Ok len => Ok (suffix, len, type_)
                  end
              end
          end
      end
  end.

Fixpoint listdir_loop (items : list json) (files : list (json * json * json))
  : result (list (json * json * json)) :=
  match items with
  | [] => Ok files
  | i :: items' =>
      match listdir_entry i with
      | Ok entry => listdir_loop items' (files ++ [entry])%list
      | Raise e => Raise e
      end
  end.

Definition listdir_url (path : string) : string :=
  WEBHDFS_CONTEXT_ROOT ++ path ++ "?op=LISTSTATUS".

Definition listdir (self : WebHDFS) (path : string) : M (list (json * json * json)) :=
  let url_path := listdir_url path in
  with_ (namenode self "GET" url_path)
    (fun response =>
       data_dict <- loads (HTTPResponse.read response) ;;
       (* the argument of the logging call *)
       _ <- lift (Json.str data_dict) ;;
       statuses <- lift (Json.getitem data_dict "FileStatuses") ;;
       status <- lift (Json.getitem statuses "FileStatus") ;;
       items <- lift (Json.iter status) ;;
       lift (listdir_loop items [])).

Definition getfilestatus (self : WebHDFS) (path : string) : M json :=
  let url_path := WEBHDFS_CONTEXT_ROOT ++ path ++ "?op=GETFILESTATUS" in
  data_dict <- with_ (namenode self "GET" url_path)
                 (fun response =>
                    data_dict <- loads (HTTPResponse.read response) ;;
                    (* the argument of the logging call *)
                    _ <- lift (Json.str data_dict) ;;
                    ret data_dict) ;;
  lift (Json.get data_dict "FileStatus").

End Client.

(** ** Vocabulary of the statements *)

(** [e] is a [FileStatus] object of a listing: a dictionary with the
    string [name] as its [pathSuffix], [len] as its [length] and the
    string [type_] as its [type], and possibly more fields. *)
Definition file_status (e : json) (name : string) (len : json) (type_ : string)
  : Prop :=
  exists fields,
    e = JDict fields
    /\ Json.lookup "pathSuffix" fields = Some (JStr name)
    /\ Json.lookup "length" fields = Some len
    /\ Json.lookup "type" fields = Some (JStr type_).

(** A reader never gives back more input than it got, and some readers
    always use at least one bit. *)
Definition shrinks {A} (m : Zlib.reader A) : Prop :=
  forall bs a rest, m bs = Zlib.Got a rest -> List.length rest <= List.length bs.

Definition consumes {A} (m : Zlib.reader A) : Prop :=
  forall bs a rest, m bs = Zlib.Got a rest -> List.length rest < List.length bs.

(** A computation only adds to the log of events. *)
Definition grows {A} (m : M A) : Prop :=
  forall w, exists t, trace (snd (m w)) = (trace w ++ t)%list.

(** A computation leaves the local files as they are. *)
Definition keeps_files {A} (m : M A) : Prop :=
  forall w, files (snd (m w)) = files w.

(** The requests of the operations that end at the NameNode. *)
Definition mkdir_request (self : WebHDFS) (path : string) : request :=
  control self "PUT" (WEBHDFS_CONTEXT_ROOT ++ path ++ "?op=MKDIRS").

Definition rmdir_request (self : WebHDFS) (path : string) : request :=
  control self "DELETE" (WEBHDFS_CONTEXT_ROOT ++ path ++ "?op=DELETE&recursive=true").

Definition listdir_request (self : WebHDFS) (path : string) : request :=
  control self "GET" (listdir_url path).

Definition getfilestatus_request (self : WebHDFS) (path : string) : request :=
  control self "GET" (WEBHDFS_CONTEXT_ROOT ++ path ++ "?op=GETFILESTATUS").

(** What [json.loads] gives in the environment, as a result. *)
Definition decoded (E : env) (s : string) : result json :=
  match json_loads E s with
  | Some v => Ok v
  | None => Raise (ValueError "No JSON object could be decoded")
  end.

(** A call that was refused at once: it raised [SocketError], nothing was
    sent and the local files are [fs]. *)
Definition refused_at_once {A} (x : result A * world) (fs : gmap string string)
  : Prop :=
  fst x = Raise SocketError /\ trace (snd x) = [] /\ files (snd x) = fs.


(** The requests of a call are at most [n], and the first of them, if
    any, goes to the NameNode of [self]. *)
Definition starts_at_namenode (self : WebHDFS) (n : nat) (w : world) : Prop :=
  match requests w with
  | [] => True
  | rq :: rest =>
      req_host rq = namenode_host self
      /\ req_port rq = namenode_port self
      /\ S (List.length rest) <= n
  end.

(** A call that returned left no connection open. *)
Definition closed_on_return {A} (x : result A * world) : Prop :=
  match fst x with
  | Ok _ => open_conns (snd x) = []
  | Raise _ => True
  end.

(** The characters of [host:port] in a redirect. *)
Definition netloc_char (c : ascii) : bool := Re.host_char c || Py.ascii_eqb c ":".

(** The triple that [listdir] makes of such an object. *)
Definition triple (t : string * json * string) : json * json * json :=
  let '(name, len, type_) := t in (JStr name, len, JStr type_).

(** ** A NameNode and a DataNode to run the client against *)

Module Demo.

(** The client of the module's [__main__] block. *)
Definition hdfs : WebHDFS :=
  {| namenode_host := "namenode.hadoop.staging.corp";
     namenode_port := 50070;
     username := "hadoop_user" |}.

Definition of_bytes (l : list N) : string :=
  string_of_list_ascii (map ascii_of_N l).

(** [zlib.compressobj(9, 8, -15)] applied to ["hello world"]: a raw
    deflate stream. *)
Definition hello_deflate : string :=
  of_bytes [0xcb; 0x48; 0xcd; 0xc9; 0xc9; 0x57; 0x28; 0xcf; 0x2f; 0xca;
            0x49; 0x01; 0x00]%N.

(** The same stream in a gzip member. *)
Definition hello_gzip : string :=
  of_bytes [0x1f; 0x8b; 0x08; 0x00; 0x00; 0x00; 0x00; 0x00; 0x02; 0x03]%N
  ++ hello_deflate
  ++ of_bytes [0x85; 0x11; 0x4a; 0x0d; 0x0b; 0x00; 0x00; 0x00]%N.

(** A 307 answer of the NameNode that names [location]. *)
Definition redirect (location : string) : HTTPResponse.t :=
  HTTPResponse.mk 307 "TEMPORARY_REDIRECT"
    {[ "location" := location; "content-length" := "0" ]} (Some 0%Z) "" false.

(** The answer of the NameNode for an empty file: no body length, no
    header. *)
Definition empty_file : HTTPResponse.t :=
  HTTPResponse.mk 200 "OK" ∅ None "" true.

(** An answer with a body length and headers, none of them [location]. *)
Definition not_found : HTTPResponse.t :=
  HTTPResponse.mk 404 "Not Found"
    {[ "content-type" := "application/json"; "content-length" := "2" ]}
    (Some 2%Z) "{}" false.

Definition ok (body : string) : HTTPResponse.t :=
  HTTPResponse.mk 200 "OK"
    {[ "content-type" := "application/octet-stream" ]}
    (Some (Z.of_nat (String.length body))) body false.

Definition listing_text : string :=
  "{'FileStatuses':{'FileStatus':[{'pathSuffix':'a.txt','length':10,'type':'FILE','owner':'hdfs'},{'pathSuffix':'sub','length':0,'type':'DIRECTORY','owner':'hdfs'}]}}".

Definition listing : json :=
  JDict [("FileStatuses",
          JDict [("FileStatus",
                  JList [JDict [("pathSuffix", JStr "a.txt"); ("length", JInt 10);
                                ("type", JStr "FILE"); ("owner", JStr "hdfs")];
                         JDict [("pathSuffix", JStr "sub"); ("length", JInt 0);
                                ("type", JStr "DIRECTORY"); ("owner", JStr "hdfs")]])])].

(** The decoder knows the one text above (written here with single
    quotes for the double quotes of JSON) and [{}]. *)
Definition decoder (s : string) : option json :=
  if String.eqb s listing_text then Some listing
  else if String.eqb s "{}" then Some (JDict [])
  else None.

(** The largest C [int], the bound on [max_length] up to CPython 2.7.12. *)
Definition INT_MAX : Z := 2147483647.

(** The NameNode gives [control]; every other host is a DataNode whose
    behaviour is [data].  Local files can be written below ["/tmp/"]. *)
Definition cluster (control : HTTPResponse.t) (data : outcome) : env :=
  {| server := fun rq =>
       if String.eqb (req_host rq) (namenode_host hdfs) then Reply control else data;
     json_loads := decoder;
     writable := String.prefix "/tmp/";
     int_max := INT_MAX |}.

(** Three more gzip members made by zlib: ["stored"] at level 0 (a stored
    block), a sentence compressed with Huffman codes only (a dynamic
    block), and [hello_gzip] with one bit of its check value flipped. *)
Definition stored_gzip : string :=
  of_bytes [0x1f; 0x8b; 0x08; 0x00; 0x00; 0x00; 0x00; 0x00; 0x04; 0x03; 0x01; 0x06;
            0x00; 0xf9; 0xff; 0x73; 0x74; 0x6f; 0x72; 0x65; 0x64; 0x0b; 0xf9; 0x43;
            0x56; 0x06; 0x00; 0x00; 0x00]%N.

Definition rose : string :=
  "a rose is a rose is a rose, and a nose is a nose is a nose".

Definition rose_gzip : string :=
  of_bytes [0x1f; 0x8b; 0x08; 0x00; 0x00; 0x00; 0x00; 0x00; 0x02; 0x03; 0x05; 0xc1;
            0xb1; 0x09; 0x00; 0x41; 0x0c; 0x03; 0xc1; 0x56; 0xb6; 0x80; 0x6f; 0x4a;
            0x70; 0x0a; 0x9c; 0x58; 0x60; 0xf5; 0x0f; 0x3f; 0x23; 0x2e; 0x35; 0x53;
            0xc4; 0xa5; 0x66; 0x8a; 0xb8; 0xd4; 0x1f; 0xda; 0x87; 0xd8; 0xd4; 0x4c;
            0x11; 0x9b; 0x9a; 0x29; 0x62; 0x53; 0xff; 0x48; 0xa8; 0x2b; 0x44; 0x3a;
            0x00; 0x00; 0x00]%N.

Definition damaged_gzip : string :=
  of_bytes [0x1f; 0x8b; 0x08; 0x00; 0x00; 0x00; 0x00; 0x00; 0x02; 0x03; 0xcb; 0x48;
            0xcd; 0xc9; 0xc9; 0x57; 0x28; 0xcf; 0x2f; 0xca; 0x49; 0x01; 0x00; 0x84;
            0x11; 0x4a; 0x0d; 0x0b; 0x00; 0x00; 0x00]%N.

Definition location : string :=
  "http://datanode1.hadoop.staging.corp:50075/webhdfs/v1/data/product/file.log?op=OPEN&offset=0".

(** The NameNode redirects to [location], where the DataNode answers with
    [payload]. *)
Definition datanode (payload : string) : env :=
  cluster (redirect location) (Reply (ok payload)).

(** A NameNode that answers every request with [r], whose body decodes
    to [v]; there is no DataNode. *)
Definition answering (r : HTTPResponse.t) (v : option json) : env :=
  {| server := fun rq =>
       if String.eqb (req_host rq) (namenode_host hdfs) then Reply r else Refused;
     json_loads := fun s => if String.eqb s (HTTPResponse.body r) then v else None;
     writable := String.prefix "/tmp/";
     int_max := INT_MAX |}.

(** The body of an error answer of the service, decoded. *)
Definition remote_exception : json :=
  JDict [("RemoteException",
          JDict [("exception", JStr "FileNotFoundException");
                 ("message", JStr "File /data/none does not exist.")])].

(** An answer with status 404 and some body. *)
Definition failed (body : string) : HTTPResponse.t :=
  HTTPResponse.mk 404 "Not Found" {[ "content-type" := "application/json" ]}
    (Some (Z.of_nat (String.length body))) body false.

Definition local_files : gmap string string := {[ "/tmp/upload.txt" := "payload" ]}.

(** An answer that ends its connection. *)
Definition last_answer (body : string) : HTTPResponse.t :=
  HTTPResponse.mk 201 "Created"
    {[ "content-type" := "application/json"; "connection" := "close" ]}
    (Some (Z.of_nat (String.length body))) body true.

End Demo.

(** * Properties *)

(** ** The inflate engine never runs out of fuel

    The loops of the engine are written with a bound on their number of
    rounds, one more than the number of bits of input.  Every round uses
    at least one bit, so the bound is never met: a larger bound gives the
    same result. *)

Section Fuel.

Lemma shrinks_ret {A} (a : A) : shrinks (Zlib.ret a).
Proof. intros bs a' rest [= _ <-]. lia. Qed.

Lemma shrinks_fail {A} (msg : string) : shrinks (@Zlib.fail A msg).
Proof. intros bs a rest [=]. Qed.

Lemma shrinks_bind {A B} (m : Zlib.reader A) (k : A -> Zlib.reader B) :
  shrinks m -> (forall a, shrinks (k a)) -> shrinks (Zlib.bind m k).
Proof.
  intros Hm Hk bs b rest. unfold Zlib.bind.
  destruct (m bs) as [a r| |] eqn:Hma; try discriminate.
  intros H. apply Hm in Hma. apply Hk in H. lia.
Qed.

Lemma consumes_shrinks {A} (m : Zlib.reader A) : consumes m -> shrinks m.
Proof. intros H bs a rest Hm. apply H in Hm. lia. Qed.

Lemma consumes_bind {A B} (m : Zlib.reader A) (k : A -> Zlib.reader B) :
  consumes m -> (forall a, shrinks (k a)) -> consumes (Zlib.bind m k).
Proof.
  intros Hm Hk bs b rest. unfold Zlib.bind.
  destruct (m bs) as [a r| |] eqn:Hma; try discriminate.
  intros H. apply Hm in Hma. apply Hk in H. lia.
Qed.

Lemma bits_length (n : nat) (bs : list bool) (v : N) (rest : list bool) :
  Zlib.bits n bs = Zlib.Got v rest -> List.length bs = n + List.length rest.
Proof.
  revert bs v rest. induction n as [|n IH]; intros bs v rest; simpl.
  - intros [= _ <-]. reflexivity.
  - destruct bs as [|b bs]; [discriminate|].
    destruct (Zlib.bits n bs) as [v' r| |] eqn:Hb; try discriminate.
    intros [= _ <-]. apply IH in Hb. simpl. lia.
Qed.

Lemma shrinks_bits (n : nat) : shrinks (Zlib.bits n).
Proof. intros bs v rest H. apply bits_length in H. lia. Qed.

Lemma consumes_bits (n : nat) : consumes (Zlib.bits (S n)).
Proof. intros bs v rest H. apply bits_length in H. lia. Qed.

Lemma shrinks_small (n : nat) : shrinks (Zlib.small n).
Proof.
  unfold Zlib.small. apply shrinks_bind; [apply shrinks_bits|].
  intros v. apply shrinks_ret.
Qed.

Lemma consumes_byte : consumes Zlib.byte.
Proof.
  intros bs c rest. unfold Zlib.byte.
  do 8 (destruct bs as [|? bs]; [discriminate|]).
  intros [= _ <-]. simpl. lia.
Qed.

Lemma shrinks_align : shrinks Zlib.align.
Proof.
  intros bs u rest. unfold Zlib.align. intros [= _ <-].
  rewrite length_skipn. lia.
Qed.

Lemma consumes_decode_from (cnts syms : list nat) (code first index : nat) :
  consumes (Zlib.decode_from cnts syms code first index).
Proof.
  revert code first index.
  induction cnts as [|count cnts IH]; intros code first index bs sym rest; simpl.
  - discriminate.
  - destruct bs as [|b bs]; [discriminate|].
    destruct (_ <? _)%nat.
    + intros [= _ <-]. simpl. lia.
    + intros H. apply IH in H. simpl. lia.
Qed.

Lemma consumes_decode (h : Zlib.huffman) : consumes (Zlib.decode h).
Proof. apply consumes_decode_from. Qed.

Lemma consumes_decode_lenlen (lens19 : list nat) :
  consumes (Zlib.decode_lenlen lens19).
Proof.
  unfold Zlib.decode_lenlen. destruct (Nat.eqb _ _).
  - apply consumes_bind; [apply consumes_bits | intros v; apply shrinks_ret].
  - apply consumes_decode.
Qed.

(** Breaks a step of the engine into the readers it is made of. *)
Ltac reader_case :=
  match goal with
  | |- context [match ?m ?bs with Zlib.Got _ _ => _ | Zlib.Short => _ | Zlib.Bad _ => _ end] =>
      let H := fresh "Hrd" in
      destruct (m bs) eqn:H; try reflexivity; try discriminate
  | |- context [match ?o with Some _ => _ | None => _ end] =>
      destruct o as [[? ?]|]; try reflexivity; try discriminate
  | |- context [if ?b then _ else _] =>
      destruct b; try reflexivity; try discriminate
  end.

Ltac reader_lengths :=
  repeat match goal with
         | H : Zlib.decode _ _ = Zlib.Got _ _ |- _ => apply consumes_decode in H
         | H : Zlib.small _ _ = Zlib.Got _ _ |- _ => apply shrinks_small in H
         | H : Zlib.bits _ _ = Zlib.Got _ _ |- _ => apply bits_length in H
         | H : Zlib.byte _ = Zlib.Got _ _ |- _ => apply consumes_byte in H
         | H : Zlib.decode_lenlen _ _ = Zlib.Got _ _ |- _ =>
             apply consumes_decode_lenlen in H
         end.

(** A block of codes that ends has used at least one bit. *)
Lemma codes_next (fuel : nat) (lc dc : Zlib.huffman) :
  forall out bs out' rest,
    Zlib.codes fuel lc dc out bs = (out', Zlib.Next rest) ->
    List.length rest < List.length bs.
Proof.
  induction fuel as [|fuel IH]; intros out bs out' rest; cbn [Zlib.codes];
    [discriminate|].
  repeat reader_case; reader_lengths;
    try (intros [= _ <-]; lia);
    try (intros H; apply IH in H; lia);
    try (destruct Hrd0; discriminate);
    try (destruct Hrd2; discriminate).
Qed.

Lemma codes_fuel (fuel1 : nat) (lc dc : Zlib.huffman) :
  forall fuel2 out bs,
    List.length bs < fuel1 -> List.length bs < fuel2 ->
    Zlib.codes fuel1 lc dc out bs = Zlib.codes fuel2 lc dc out bs.
Proof.
  induction fuel1 as [|fuel1 IH]; intros [|fuel2] out bs H1 H2; try lia.
  cbn [Zlib.codes].
  repeat reader_case; reader_lengths; apply IH; lia.
Qed.

Lemma copy_stored_next (n : nat) :
  forall out bs out' rest,
    Zlib.copy_stored n out bs = (out', Zlib.Next rest) ->
    List.length rest <= List.length bs.
Proof.
  induction n as [|n IH]; intros out bs out' rest; cbn [Zlib.copy_stored].
  - intros [= _ <-]. lia.
  - destruct (Zlib.byte bs) eqn:Hb; try discriminate.
    intros H. apply IH in H. apply consumes_byte in Hb. lia.
Qed.

Lemma stored_next (out : list ascii) (bs : list bool) (out' : list ascii)
  (rest : list bool) :
  Zlib.stored out bs = (out', Zlib.Next rest) -> List.length rest <= List.length bs.
Proof.
  unfold Zlib.stored.
  match goal with
  | |- context [match ?m bs with _ => _ end] =>
      assert (Hm : shrinks m);
      [| destruct (m bs) eqn:Hrd; try discriminate ]
  end.
  - apply shrinks_bind; [apply shrinks_align | intros _].
    apply shrinks_bind; [apply shrinks_bits | intros len].
    apply shrinks_bind; [apply shrinks_bits | intros nlen].
    destruct (N.eqb _ _); [apply shrinks_ret | apply shrinks_fail].
  - intros H. apply copy_stored_next in H. apply Hm in Hrd. lia.
Qed.

Lemma shrinks_read_lenlens (n : nat) : shrinks (Zlib.read_lenlens n).
Proof.
  induction n as [|n IH]; cbn [Zlib.read_lenlens]; [apply shrinks_ret|].
  apply shrinks_bind; [apply shrinks_small | intros l].
  apply shrinks_bind; [exact IH | intros ls; apply shrinks_ret].
Qed.

(** What follows a repeat code: its extra bits, and the length to repeat. *)
Lemma shrinks_repeat (sym : nat) (lens : list nat) :
  shrinks
    (if (sym =? 16)%nat then
       Zlib.bind (Zlib.small 2)
         (fun n => match lens with
                   | [] => Zlib.fail "invalid bit length repeat"
                   | prev :: _ => Zlib.ret (prev, 3 + n)%nat
                   end)
     else if (sym =? 17)%nat then
       Zlib.bind (Zlib.small 3) (fun n => Zlib.ret (O, 3 + n)%nat)
     else
       Zlib.bind (Zlib.small 7) (fun n => Zlib.ret (O, 11 + n)%nat)).
Proof.
  destruct (sym =? 16)%nat; [|destruct (sym =? 17)%nat];
    (apply shrinks_bind; [apply shrinks_small | intros n]);
    try apply shrinks_ret.
  destruct lens; [apply shrinks_fail | apply shrinks_ret].
Qed.

Lemma shrinks_read_lens (fuel : nat) (lens19 : list nat) (total : nat) :
  forall lens, shrinks (Zlib.read_lens fuel lens19 total lens).
Proof.
  induction fuel as [|fuel IH]; intros lens; cbn [Zlib.read_lens].
  - intros bs a rest [=].
  - destruct (_ <=? _)%nat; [apply shrinks_ret|].
    apply shrinks_bind; [apply consumes_shrinks, consumes_decode_lenlen | intros sym].
    destruct (sym <? 16)%nat; [apply IH|].
    apply shrinks_bind; [apply shrinks_repeat | intros rep].
    destruct (_ <? _)%nat; [apply shrinks_fail | apply IH].
Qed.

Lemma bind_ext {A B} (m : Zlib.reader A) (k1 k2 : A -> Zlib.reader B)
  (bs : list bool) :
  (forall a rest, m bs = Zlib.Got a rest -> k1 a rest = k2 a rest) ->
  Zlib.bind m k1 bs = Zlib.bind m k2 bs.
Proof.
  intros H. unfold Zlib.bind. destruct (m bs) as [a rest| |]; auto.
Qed.

Lemma read_lens_fuel (fuel1 : nat) (lens19 : list nat) (total : nat) :
  forall fuel2 lens bs,
    List.length bs < fuel1 -> List.length bs < fuel2 ->
    Zlib.read_lens fuel1 lens19 total lens bs
    = Zlib.read_lens fuel2 lens19 total lens bs.
Proof.
  induction fuel1 as [|fuel1 IH]; intros [|fuel2] lens bs H1 H2; try lia.
  cbn [Zlib.read_lens].
  destruct (_ <=? _)%nat; [reflexivity|].
  apply bind_ext. intros sym bs1 Hd. apply consumes_decode_lenlen in Hd.
  destruct (sym <? 16)%nat; [apply IH; lia|].
  apply bind_ext. intros rep bs2 Hr. apply shrinks_repeat in Hr.
  destruct (_ <? _)%nat; [reflexivity|]. apply IH; lia.
Qed.

Lemma shrinks_dynamic_tables : shrinks Zlib.dynamic_tables.
Proof.
  unfold Zlib.dynamic_tables.
  apply shrinks_bind; [apply shrinks_bits | intros hdr]. cbv zeta.
  destruct (_ || _); [apply shrinks_fail|].
  apply shrinks_bind; [apply shrinks_read_lenlens | intros sent].
  destruct (negb _); [apply shrinks_fail|].
  intros bs. apply shrinks_bind; [apply shrinks_read_lens | intros lens].
  destruct (Nat.eqb _ _); [apply shrinks_fail|].
  destruct (negb _); [apply shrinks_fail|].
  destruct (negb _); [apply shrinks_fail | apply shrinks_ret].
Qed.

Lemma dynamic_next (out : list ascii) (bs : list bool) (out' : list ascii)
  (rest : list bool) :
  Zlib.dynamic out bs = (out', Zlib.Next rest) -> List.length rest < List.length bs.
Proof.
  unfold Zlib.dynamic.
  destruct (Zlib.dynamic_tables bs) as [[lc dc] bs1| |] eqn:Ht; try discriminate.
  intros H. apply codes_next in H. apply shrinks_dynamic_tables in Ht. lia.
Qed.

(** The bound on the number of blocks is never met either. *)
Lemma blocks_fuel (fuel1 : nat) :
  forall fuel2 out bs,
    List.length bs < fuel1 -> List.length bs < fuel2 ->
    Zlib.blocks fuel1 out bs = Zlib.blocks fuel2 out bs.
Proof.
  induction fuel1 as [|fuel1 IH]; intros [|fuel2] out bs H1 H2; try lia.
  cbn [Zlib.blocks].
  destruct (Zlib.bits 3 bs) as [hdr bs1| |] eqn:Hb; try reflexivity.
  apply bits_length in Hb.
  match goal with
  | |- (let '(_, _) := ?blk in _) = _ => destruct blk as [out' e] eqn:Hblk
  end.
  destruct e as [bs2|st]; [|reflexivity].
  destruct (N.odd hdr); [reflexivity|].
  apply IH;
    destruct (N.to_nat (hdr / 2)) as [|[|[|k]]];
    first [ apply stored_next in Hblk | apply codes_next in Hblk
          | apply dynamic_next in Hblk | discriminate ];
    lia.
Qed.

(** The bounds used by [inflate] and by the blocks of codes give what any
    larger bound gives. *)
Theorem inflate_fuel_suffices (fuel : nat) (lc dc : Zlib.huffman)
  (out : list ascii) (bs : list bool) :
  List.length bs < fuel ->
  Zlib.blocks fuel out bs = Zlib.blocks (S (List.length bs)) out bs
  /\ Zlib.codes fuel lc dc out bs = Zlib.codes (S (List.length bs)) lc dc out bs.
Proof.
  intros H. split; [apply blocks_fuel | apply codes_fuel]; lia.
Qed.

End Fuel.

(** ** Strings *)

Section Strings.
Import Py.

Lemma span_all (p : ascii -> bool) (s : string) :
  forall_chars p s = true -> span p s = (s, "").
Proof.
  induction s as [|c s IH]; simpl; [reflexivity|].
  intros H. apply andb_true_iff in H as [Hc Hs].
  rewrite Hc, (IH Hs). reflexivity.
Qed.

Lemma span_app (p : ascii -> bool) (s rest : string) :
  forall_chars p s = true -> stops p rest -> span p (s ++ rest) = (s, rest).
Proof.
  intros Hs Hr. induction s as [|c s IH]; simpl in *.
  - destruct rest as [|c r]; simpl in *; [reflexivity|]. rewrite Hr. reflexivity.
  - apply andb_true_iff in Hs as [Hc Hs]. rewrite Hc, (IH Hs). reflexivity.
Qed.

Lemma take_all (n : nat) (s : string) :
  String.length s <= n -> take n s = s.
Proof.
  revert n. induction s as [|c s IH]; intros [|n] H; simpl in *;
    try reflexivity; try lia.
  rewrite IH by lia. reflexivity.
Qed.

End Strings.

(** ** The pattern of [parse_url] *)

Section Pattern.
Import Py.

(** A bare host name matches, and the port group is [None]. *)
Lemma match_netloc_host (host : string) :
  host <> "" -> forall_chars Re.host_char host = true ->
  Re.match_netloc host = Some (host, None).
Proof.
  intros Hne Hh. unfold Re.match_netloc.
  rewrite (span_all _ _ Hh).
  destruct host as [|c host]; [congruence|]. reflexivity.
Qed.

(** [host:port] followed by anything that does not start with a digit
    matches as [host] and [port]: what follows is not looked at. *)
Lemma match_netloc_host_port (host port rest : string) :
  host <> "" -> forall_chars Re.host_char host = true ->
  forall_chars is_digit port = true ->
  2 <= String.length port <= 5 ->
  stops is_digit rest ->
  Re.match_netloc (host ++ ":" ++ port ++ rest) = Some (host, Some port).
Proof.
  intros Hne Hh Hp Hlen Hr. unfold Re.match_netloc.
  rewrite (span_app Re.host_char host (":" ++ port ++ rest) Hh) by reflexivity.
  destruct host as [|c host]; [congruence|].
  cbn [String.eqb]. replace (String.eqb (String c host) "") with false by reflexivity.
  change (":" ++ port ++ rest) with (String ":" (port ++ rest)).
  cbv iota beta.
  rewrite (span_app is_digit port rest Hp Hr).
  destruct (Nat.leb_spec 2 (String.length port)); [|lia].
  rewrite take_all by lia. reflexivity.
Qed.

(** Without a leading host character there is no match. *)
Lemma match_netloc_none (netloc : string) :
  stops Re.host_char netloc -> Re.match_netloc netloc = None.
Proof.
  intros H. unfold Re.match_netloc.
  destruct netloc as [|c r]; simpl in *; [reflexivity|].
  rewrite H. reflexivity.
Qed.

End Pattern.

(** ** [parse_url] *)

Section ParseUrl.
Import Py.

Variables (url scheme path params query frag : string).

(** A redirect to [host:port]: the host, the port as a number, the path
    without its outer slashes and the query as it is. *)
Lemma parse_url_host_port (host port : string) :
  Urlparse.urlparse url = Ok (scheme, host ++ ":" ++ port, path, params, query, frag) ->
  host <> "" -> forall_chars Re.host_char host = true ->
  forall_chars is_digit port = true ->
  2 <= String.length port <= 5 ->
  parse_url url = Ok (host, int_of_digits port, strip "/" path, query).
Proof.
  intros Hu Hne Hh Hp Hlen. unfold parse_url. rewrite Hu.
  pose proof (match_netloc_host_port host port "" Hne Hh Hp Hlen I) as Hm.
  replace (port ++ "") with port in Hm.
  - rewrite Hm. reflexivity.
  - clear. induction port as [|c s IH]; [reflexivity|].
    change (String c s = String c (s ++ "")). f_equal. exact IH.
Qed.

(** Text after [host:port] is accepted and dropped. *)
Lemma parse_url_trailing (host port rest : string) :
  Urlparse.urlparse url
    = Ok (scheme, host ++ ":" ++ port ++ rest, path, params, query, frag) ->
  host <> "" -> forall_chars Re.host_char host = true ->
  forall_chars is_digit port = true ->
  2 <= String.length port <= 5 ->
  stops is_digit rest ->
  parse_url url = Ok (host, int_of_digits port, strip "/" path, query).
Proof.
  intros Hu Hne Hh Hp Hlen Hr. unfold parse_url. rewrite Hu.
  rewrite (match_netloc_host_port host port rest Hne Hh Hp Hlen Hr).
  reflexivity.
Qed.

(** A redirect that names a host and no port: [int(None)]. *)
Lemma parse_url_no_port (host : string) :
  Urlparse.urlparse url = Ok (scheme, host, path, params, query, frag) ->
  host <> "" -> forall_chars Re.host_char host = true ->
  parse_url url = Raise TypeError.
Proof.
  intros Hu Hne Hh. unfold parse_url. rewrite Hu.
  rewrite (match_netloc_host host Hne Hh). reflexivity.
Qed.

(** The one case that raises the module's own exception: the location
    does not begin with a host character. *)
Lemma parse_url_invalid (netloc : string) :
  Urlparse.urlparse url = Ok (scheme, netloc, path, params, query, frag) ->
  stops Re.host_char netloc ->
  parse_url url = Raise (InvalidHostPort netloc).
Proof.
  intros Hu Hs. unfold parse_url. rewrite Hu.
  rewrite (match_netloc_none netloc Hs). reflexivity.
Qed.

End ParseUrl.

Example urlparse_location :
  Urlparse.urlparse Demo.location
  = Ok ("http", "datanode1.hadoop.staging.corp:50075",
        "/webhdfs/v1/data/product/file.log", "", "op=OPEN&offset=0", "").
Proof. vm_compute. reflexivity. Qed.

Example parse_url_location :
  parse_url Demo.location
  = Ok ("datanode1.hadoop.staging.corp", 50075%Z,
        "webhdfs/v1/data/product/file.log", "op=OPEN&offset=0").
Proof.
  apply (parse_url_host_port _ _ _ _ _ _ "datanode1.hadoop.staging.corp" "50075"
           urlparse_location); try reflexivity; [discriminate | simpl; lia].
Qed.

Example parse_url_leading_space :
  parse_url "http:// dn1:50075/webhdfs/v1/f?op=OPEN" = Raise (InvalidHostPort " dn1:50075").
Proof. vm_compute. reflexivity. Qed.

(** C3 (the code departs from the claim).  A network location that is
    not of the form host[:port] is not always refused: with a space and
    more text after the port, [parse_url] returns host and port as if the
    rest were not there; with a space inside the host name it raises
    [TypeError], not the module's "Invalid host and/or port" exception;
    a port of six digits is cut to its first five.  With the first of
    these locations as the redirect, [copytolocal] goes on to send its
    request to the DataNode [dn1]. *)
Theorem parse_url_accepts_malformed_netloc :
  parse_url "http://dn1:50075 x/webhdfs/v1/f?op=OPEN"
    = Ok ("dn1", 50075%Z, "webhdfs/v1/f", "op=OPEN")
  /\ parse_url "http://bad host:50075/webhdfs/v1/f?op=OPEN" = Raise TypeError
  /\ parse_url "http://dn1:500751/webhdfs/v1/f?op=OPEN"
    = Ok ("dn1", 50075%Z, "webhdfs/v1/f", "op=OPEN")
  /\ requests
       (snd (copytolocal
               (Demo.cluster (Demo.redirect "http://dn1:50075 x/webhdfs/v1/f?op=OPEN")
                             (Reply (Demo.ok "abc")))
               Demo.hdfs "/f" "/tmp/out" (initial ∅)))
     = [ {| req_host := "namenode.hadoop.staging.corp"; req_port := 50070;
            req_method := "GET";
            req_url := "/webhdfs/v1/f?op=OPEN&overwrite=true&user.name=hadoop_user";
            req_body := None |};
         {| req_host := "dn1"; req_port := 50075; req_method := "GET";
            req_url := "webhdfs/v1/f?op=OPEN"; req_body := None |} ].
Proof. repeat split; vm_compute; reflexivity. Qed.

(** C4 (the code departs from the claim).  A redirect whose location
    names a valid host and no port does not give a "no port" result:
    [int(port)] is applied to [None] and [parse_url] raises [TypeError].
    With the port present, host and port come out as written. *)
Theorem parse_url_missing_port_raises :
  parse_url "http://datanode1.hadoop.staging.corp/webhdfs/v1/f?op=OPEN" = Raise TypeError
  /\ parse_url "http://datanode1.hadoop.staging.corp:50075/webhdfs/v1/f?op=OPEN"
     = Ok ("datanode1.hadoop.staging.corp", 50075%Z, "webhdfs/v1/f", "op=OPEN").
Proof. split; vm_compute; reflexivity. Qed.

(** ** Running the client *)

Section Execution.

Variable E : env.

Lemma sent_on_last (c : nat) (t : list event) (rq : request) :
  sent_on c (t ++ [Sent c rq]) = Some rq.
Proof.
  unfold sent_on. rewrite omap_app. simpl. rewrite Nat.eqb_refl.
  apply last_snoc.
Qed.

Lemma requests_sent (c : nat) (rq : request) (w : world) :
  requests (record (Sent c rq) w) = (requests w ++ [rq])%list.
Proof. unfold requests, record. simpl. rewrite omap_app. reflexivity. Qed.

Lemma requests_closed (c : nat) (w : world) :
  requests (record (Closed c) w) = requests w.
Proof.
  unfold requests, record. simpl. rewrite omap_app. simpl.
  apply app_nil_r.
Qed.

(** A request that is not refused goes out on a new connection. *)
Lemma request_sent (c : connection) (method url : string) (body : option string)
  (w : world) :
  let rq := {| req_host := conn_host c; req_port := conn_port c;
               req_method := method; req_url := url; req_body := body |} in
  server E rq <> Refused ->
  request_ E c method url body w = (Ok tt, record (Sent (conn_id c) rq) w).
Proof.
  intros rq H. unfold request_. fold rq.
  destruct (server E rq); [congruence | reflexivity | reflexivity].
Qed.

Lemma getresponse_reply (c : connection) (rq : request) (w : world)
  (r : HTTPResponse.t) :
  server E rq = Reply r ->
  getresponse E c (record (Sent (conn_id c) rq) w)
  = (Ok r, record (Sent (conn_id c) rq) w).
Proof.
  intros H. unfold getresponse, record. simpl.
  rewrite sent_on_last, H. reflexivity.
Qed.

Lemma getresponse_none (c : connection) (rq : request) (w : world) :
  server E rq = NoResponse ->
  getresponse E c (record (Sent (conn_id c) rq) w)
  = (Raise SocketError, record (Sent (conn_id c) rq) w).
Proof.
  intros H. unfold getresponse, record. simpl.
  rewrite sent_on_last, H. reflexivity.
Qed.

(** A [with] block whose request is answered: the body runs on the
    response, then the connection is closed. *)
Lemma with_reply {A} (http_method url_path host : string) (port : Z)
  (user : string) (body : HTTPResponse.t -> M A) (w : world)
  (r : HTTPResponse.t) :
  let rq := {| req_host := host; req_port := port; req_method := http_method;
               req_url := url_path ++ "&user.name=" ++ user; req_body := None |} in
  server E rq = Reply r ->
  with_ E (NameNodeHTTPClient E http_method url_path host port user) body w
  = (fst (body r (entered rq w)),
     record (Closed (conns w)) (snd (body r (entered rq w)))).
Proof.
  intros rq H.
  unfold with_, NameNodeHTTPClient, bind, HTTPConnection, ret, enter, exit, close, emit.
  set (c := {| conn_id := conns w; conn_host := host; conn_port := port |}).
  set (w0 := {| trace := trace w; files := files w; conns := S (conns w) |}).
  assert (Hs : request_ E c http_method (url_path ++ "&user.name=" ++ user) None w0
               = (Ok tt, entered rq w)).
  { apply request_sent. cbn [conn_host conn_port c]. fold rq. rewrite H. discriminate. }
  rewrite Hs.
  assert (Hg : getresponse E c (entered rq w) = (Ok r, entered rq w)).
  { apply (getresponse_reply c rq w0 r H). }
  rewrite Hg.
  destruct (body r (entered rq w)) as [res w']. reflexivity.
Qed.

End Execution.

(** ** The answer of the NameNode *)

Section Answer.

Variable r : HTTPResponse.t.

Lemma getheader_location (location : string) :
  HTTPResponse.msg r !! "location" = Some location ->
  HTTPResponse.getheader r "location" = Ok location.
Proof.
  intros H. unfold HTTPResponse.getheader.
  change (Py.lower "location") with "location". rewrite H. reflexivity.
Qed.

Lemma getheader_missing :
  HTTPResponse.msg r !! "location" = None ->
  HTTPResponse.getheader r "location" = Raise (KeyError "location").
Proof.
  intros H. unfold HTTPResponse.getheader.
  change (Py.lower "location") with "location". rewrite H. reflexivity.
Qed.

(** The redirect branch is taken exactly when there is a body length
    and at least one header, whatever the headers are. *)
Lemma redirected_true :
  is_Some (HTTPResponse.length r) -> HTTPResponse.msg r ≠ ∅ ->
  redirected r = true.
Proof.
  intros [n Hn] Hm. unfold redirected, HTTPResponse.has_headers.
  rewrite Hn. apply bool_decide_eq_true. exact Hm.
Qed.

Lemma redirected_no_length :
  HTTPResponse.length r = None -> redirected r = false.
Proof. intros H. unfold redirected. rewrite H. reflexivity. Qed.

End Answer.

(** ** Answers without a [location] header *)

Section MissingLocation.

Variables (E : env) (self : WebHDFS) (r : HTTPResponse.t).
Hypothesis no_location : HTTPResponse.msg r !! "location" = None.

(** [copyfromlocal] looks the header up whatever the answer is. *)
Lemma copyfromlocal_key_error (source_path target_path : string)
  (replication : Z) (overwrite : bool) (w : world) :
  server E (control self "PUT" (copyfromlocal_url target_path overwrite)) = Reply r ->
  fst (copyfromlocal E self source_path target_path replication overwrite w)
  = Raise (KeyError "location").
Proof.
  intros H. unfold copyfromlocal, namenode.
  rewrite (with_reply E _ _ _ _ _ _ w r H). cbn [fst].
  unfold bind, lift. rewrite (getheader_missing r no_location). reflexivity.
Qed.

Hypothesis has_length : is_Some (HTTPResponse.length r).
Hypothesis has_headers : HTTPResponse.msg r ≠ ∅.

Lemma copytolocal_key_error (source_path target_path : string) (w : world) :
  server E (control self "GET" (copytolocal_url source_path)) = Reply r ->
  fst (copytolocal E self source_path target_path w) = Raise (KeyError "location").
Proof.
  intros H. unfold copytolocal, namenode.
  rewrite (with_reply E _ _ _ _ _ _ w r H). cbn [fst].
  rewrite (redirected_true r has_length has_headers).
  unfold bind, lift. rewrite (getheader_missing r no_location). reflexivity.
Qed.

Lemma readfile_key_error (source_path : string) (offset length buffersize : Z)
  (w : world) :
  server E (control self "GET" (readfile_url source_path offset length buffersize))
    = Reply r ->
  fst (readfile E self source_path offset length buffersize w)
  = Raise (KeyError "location").
Proof.
  intros H. unfold readfile, namenode.
  rewrite (with_reply E _ _ _ _ _ _ w r H). cbn [fst].
  rewrite (redirected_true r has_length has_headers).
  unfold bind, lift. rewrite (getheader_missing r no_location). reflexivity.
Qed.

End MissingLocation.

(** C10.  When the NameNode answers with a body length and with headers
    none of which is [location], [copyfromlocal], [copytolocal] and
    [readfile] all end in the [KeyError] of the header lookup: not in the
    exception of [parse_url], and not in a result. *)
Theorem missing_location_is_a_key_error
  (E : env) (self : WebHDFS) (r : HTTPResponse.t)
  (local_path hdfs_path : string) (replication : Z) (overwrite : bool)
  (offset length buffersize : Z) (fs : gmap string string) :
  HTTPResponse.msg r !! "location" = None ->
  is_Some (HTTPResponse.length r) ->
  HTTPResponse.msg r ≠ ∅ ->
  server E (control self "PUT" (copyfromlocal_url hdfs_path overwrite)) = Reply r ->
  server E (control self "GET" (copytolocal_url hdfs_path)) = Reply r ->
  server E (control self "GET" (readfile_url hdfs_path offset length buffersize))
    = Reply r ->
  fst (copyfromlocal E self local_path hdfs_path replication overwrite (initial fs))
    = Raise (KeyError "location")
  /\ fst (copytolocal E self hdfs_path local_path (initial fs))
    = Raise (KeyError "location")
  /\ fst (readfile E self hdfs_path offset length buffersize (initial fs))
    = Raise (KeyError "location").
Proof.
  intros Hloc Hlen Hmsg H1 H2 H3. repeat split.
  - apply (copyfromlocal_key_error E self r Hloc); assumption.
  - apply (copytolocal_key_error E self r Hloc Hlen Hmsg); assumption.
  - apply (readfile_key_error E self r Hloc Hlen Hmsg); assumption.
Qed.

Lemma missing_location_is_a_key_error_witness :
  fst (copyfromlocal (Demo.cluster Demo.not_found Refused) Demo.hdfs
         "/tmp/upload.txt" "/data/up.txt" 1 true (initial Demo.local_files))
  = Raise (KeyError "location")
  /\ fst (copytolocal (Demo.cluster Demo.not_found Refused) Demo.hdfs
            "/data/up.txt" "/tmp/upload.txt" (initial Demo.local_files))
     = Raise (KeyError "location")
  /\ fst (readfile (Demo.cluster Demo.not_found Refused) Demo.hdfs
            "/data/up.txt" 0 10000 10000 (initial Demo.local_files))
     = Raise (KeyError "location").
Proof.
  apply (missing_location_is_a_key_error
           (Demo.cluster Demo.not_found Refused) Demo.hdfs Demo.not_found).
  - vm_compute. reflexivity.
  - exists 2%Z. reflexivity.
  - intros H. apply (f_equal (fun m => m !! "content-length")) in H.
    vm_compute in H. discriminate.
  - reflexivity.
  - reflexivity.
  - reflexivity.
Defined.

(** ** The signal of an empty file *)

Section EmptyFile.

Variables (E : env) (self : WebHDFS) (r : HTTPResponse.t).
Hypothesis no_length : HTTPResponse.length r = None.

Lemma requests_entered (rq : request) (w : world) :
  requests (entered rq w) = (requests w ++ [rq])%list.
Proof. unfold entered. rewrite requests_sent. reflexivity. Qed.

(** [copytolocal] writes an empty file and contacts no DataNode. *)
Lemma copytolocal_empty (source_path target_path : string) (w : world) :
  server E (control self "GET" (copytolocal_url source_path)) = Reply r ->
  writable E target_path = true ->
  let w' := snd (copytolocal E self source_path target_path w) in
  fst (copytolocal E self source_path target_path w) = Ok (HTTPResponse.status r)
  /\ requests w'
     = (requests w ++ [control self "GET" (copytolocal_url source_path)])%list
  /\ files w' = <[target_path := ""]> (files w).
Proof.
  intros H Hw. unfold copytolocal, namenode.
  rewrite (with_reply E _ _ _ _ _ _ w r H). cbn [fst snd].
  rewrite (redirected_no_length r no_length).
  unfold bind, write_file, ret. rewrite Hw. cbn [fst snd].
  rewrite requests_closed. repeat split.
  apply (requests_entered _ w).
Qed.

(** [readfile] contacts no DataNode either; it reaches the end of the
    function and returns [None]. *)
Lemma readfile_empty (source_path : string) (offset length buffersize : Z)
  (w : world) :
  server E (control self "GET" (readfile_url source_path offset length buffersize))
    = Reply r ->
  let w' := snd (readfile E self source_path offset length buffersize w) in
  fst (readfile E self source_path offset length buffersize w) = Ok None
  /\ requests w'
     = (requests w
        ++ [control self "GET" (readfile_url source_path offset length buffersize)])%list.
Proof.
  intros H. unfold readfile, namenode.
  rewrite (with_reply E _ _ _ _ _ _ w r H). cbn [fst snd].
  rewrite (redirected_no_length r no_length).
  unfold ret. cbn [fst snd]. rewrite requests_closed. split; [reflexivity|].
  apply (requests_entered _ w).
Qed.

End EmptyFile.

(** C5 (the code departs from the claim).  When the NameNode signals an
    empty file (no body length, no [location] header), [copytolocal]
    sends the one control-plane request, writes the local file with no
    bytes in it and returns the status; [readfile] also sends only the
    control-plane request, but what it returns is Python's [None], not an
    empty string. *)
Theorem empty_file_readfile_returns_none
  (E : env) (self : WebHDFS) (r : HTTPResponse.t)
  (hdfs_path local_path : string) (offset length buffersize : Z)
  (fs : gmap string string) :
  HTTPResponse.length r = None ->
  HTTPResponse.msg r !! "location" = None ->
  server E (control self "GET" (copytolocal_url hdfs_path)) = Reply r ->
  server E (control self "GET" (readfile_url hdfs_path offset length buffersize))
    = Reply r ->
  writable E local_path = true ->
  (fst (copytolocal E self hdfs_path local_path (initial fs))
     = Ok (HTTPResponse.status r)
   /\ requests (snd (copytolocal E self hdfs_path local_path (initial fs)))
      = [control self "GET" (copytolocal_url hdfs_path)]
   /\ files (snd (copytolocal E self hdfs_path local_path (initial fs))) !! local_path
      = Some "")
  /\ (fst (readfile E self hdfs_path offset length buffersize (initial fs)) = Ok None
      /\ requests (snd (readfile E self hdfs_path offset length buffersize (initial fs)))
         = [control self "GET" (readfile_url hdfs_path offset length buffersize)]).
Proof.
  intros Hlen _ H1 H2 Hw. split.
  - destruct (copytolocal_empty E self r Hlen hdfs_path local_path (initial fs) H1 Hw)
      as (Hr & Hq & Hf).
    rewrite Hr, Hq, Hf. repeat split. apply lookup_insert_eq.
  - destruct (readfile_empty E self r Hlen hdfs_path offset length buffersize
                (initial fs) H2) as (Hr & Hq).
    rewrite Hr, Hq. split; reflexivity.
Qed.

Lemma empty_file_readfile_returns_none_witness :
  (fst (copytolocal (Demo.cluster Demo.empty_file (Reply (Demo.ok "abc"))) Demo.hdfs
          "/data/empty.log" "/tmp/out" (initial ∅))
   = Ok 200%Z
   /\ requests
        (snd (copytolocal (Demo.cluster Demo.empty_file (Reply (Demo.ok "abc")))
                Demo.hdfs "/data/empty.log" "/tmp/out" (initial ∅)))
      = [control Demo.hdfs "GET" (copytolocal_url "/data/empty.log")]
   /\ files
        (snd (copytolocal (Demo.cluster Demo.empty_file (Reply (Demo.ok "abc")))
                Demo.hdfs "/data/empty.log" "/tmp/out" (initial ∅)))
      !! "/tmp/out" = Some "")
  /\ (fst (readfile (Demo.cluster Demo.empty_file (Reply (Demo.ok "abc"))) Demo.hdfs
             "/data/empty.log" 0 10000 10000 (initial ∅))
      = Ok None
      /\ requests
           (snd (readfile (Demo.cluster Demo.empty_file (Reply (Demo.ok "abc")))
                   Demo.hdfs "/data/empty.log" 0 10000 10000 (initial ∅)))
         = [control Demo.hdfs "GET" (readfile_url "/data/empty.log" 0 10000 10000)]).
Proof.
  apply (empty_file_readfile_returns_none
           (Demo.cluster Demo.empty_file (Reply (Demo.ok "abc"))) Demo.hdfs
           Demo.empty_file "/data/empty.log" "/tmp/out" 0 10000 10000 ∅);
    reflexivity.
Defined.

(** ** The log only grows *)

Create HintDb grows discriminated.

Section Grows.

Variable E : env.

Ltac same_trace := intros w; exists []; rewrite app_nil_r.

Lemma grows_ret {A} (a : A) : grows (ret a).
Proof. same_trace. reflexivity. Qed.

Lemma grows_lift {A} (r : result A) : grows (lift r).
Proof. same_trace. reflexivity. Qed.

Lemma grows_bind {A B} (m : M A) (k : A -> M B) :
  grows m -> (forall a, grows (k a)) -> grows (bind m k).
Proof.
  intros Hm Hk w. unfold bind. destruct (Hm w) as [t Ht].
  destruct (m w) as [[a|e] w1]; simpl in *.
  - destruct (Hk a w1) as [t' Ht']. exists (t ++ t')%list.
    rewrite Ht', Ht. symmetry. apply app_assoc.
  - exists t. exact Ht.
Qed.

Lemma grows_emit (e : event) : grows (emit e).
Proof. intros w. exists [e]. reflexivity. Qed.

Lemma grows_HTTPConnection (host : string) (port : Z) : grows (HTTPConnection host port).
Proof. same_trace. reflexivity. Qed.

Lemma grows_request (c : connection) (method url : string) (body : option string) :
  grows (request_ E c method url body).
Proof.
  unfold request_. destruct (server E _); auto using grows_lift, grows_emit.
Qed.

Lemma grows_getresponse (c : connection) : grows (getresponse E c).
Proof.
  same_trace. unfold getresponse.
  destruct (sent_on _ _); [destruct (server E _)|]; reflexivity.
Qed.

Lemma grows_close (c : connection) : grows (close c).
Proof. apply grows_emit. Qed.

Lemma grows_read_file (path : string) : grows (read_file path).
Proof. same_trace. unfold read_file. destruct (files w !! path); reflexivity. Qed.

Lemma grows_write_file (path data : string) : grows (write_file E path data).
Proof. same_trace. unfold write_file. destruct (writable E path); reflexivity. Qed.

Lemma grows_loads (s : string) : grows (loads E s).
Proof. apply grows_lift. Qed.

Lemma grows_client (http_method url_path host : string) (port : Z) (user : string) :
  grows (NameNodeHTTPClient E http_method url_path host port user).
Proof.
  unfold NameNodeHTTPClient.
  repeat (apply grows_bind; [|intros ?]);
    auto using grows_HTTPConnection, grows_request, grows_ret.
Qed.

Lemma grows_with {A} (mgr : M connection) (body : HTTPResponse.t -> M A) :
  grows mgr -> (forall r, grows (body r)) -> grows (with_ E mgr body).
Proof.
  intros Hm Hb w. unfold with_. destruct (Hm w) as [t Ht].
  destruct (mgr w) as [[c|e] w1]; simpl in *; [|exists t; exact Ht].
  destruct (grows_getresponse c w1) as [t1 Ht1]. unfold enter.
  destruct (getresponse E c w1) as [[r|e] w2]; simpl in *.
  - destruct (Hb r w2) as [t2 Ht2].
    destruct (body r w2) as [res w3]; simpl in *.
    exists (t ++ t1 ++ t2 ++ [Closed (conn_id c)])%list.
    rewrite Ht2, Ht1, Ht. rewrite <- !app_assoc. reflexivity.
  - exists (t ++ t1)%list. rewrite Ht1, Ht. symmetry. apply app_assoc.
Qed.

End Grows.

#[export] Hint Resolve grows_ret grows_lift grows_emit grows_HTTPConnection
  grows_request grows_getresponse grows_close grows_read_file grows_write_file
  grows_loads grows_client : grows.

(** Splits a computation into its steps and closes each of them. *)
Ltac grows :=
  repeat first
    [ progress auto with grows
    | apply grows_with
    | apply grows_bind
    | match goal with
      | |- forall _, _ => intros ?
      | |- grows (match ?p with _ => _ end) => destruct p
      end ].

(** ** The control-plane request *)

Section ControlPlane.

Variable E : env.

Lemma requests_grow (w w' : world) (t : list event) :
  trace w' = (trace w ++ t)%list ->
  exists rest, requests w' = (requests w ++ rest)%list.
Proof.
  intros H. unfold requests. rewrite H, omap_app. eauto.
Qed.

Lemma with_no_response {A} (http_method url_path host : string) (port : Z)
  (user : string) (body : HTTPResponse.t -> M A) (w : world) :
  let rq := {| req_host := host; req_port := port; req_method := http_method;
               req_url := url_path ++ "&user.name=" ++ user; req_body := None |} in
  server E rq = NoResponse ->
  with_ E (NameNodeHTTPClient E http_method url_path host port user) body w
  = (Raise SocketError, entered rq w).
Proof.
  intros rq H.
  unfold with_, NameNodeHTTPClient, bind, HTTPConnection, ret, enter.
  set (c := {| conn_id := conns w; conn_host := host; conn_port := port |}).
  set (w0 := {| trace := trace w; files := files w; conns := S (conns w) |}).
  assert (Hs : request_ E c http_method (url_path ++ "&user.name=" ++ user) None w0
               = (Ok tt, entered rq w)).
  { apply request_sent. cbn [conn_host conn_port c]. fold rq. rewrite H. discriminate. }
  rewrite Hs.
  assert (Hg : getresponse E c (entered rq w) = (Raise SocketError, entered rq w)).
  { apply (getresponse_none E c rq w0 H). }
  rewrite Hg. reflexivity.
Qed.

(** Whatever the body of a [with] block does, the request of the block is
    sent before anything else, unless the connection is refused. *)
Lemma with_first_request {A} (http_method url_path host : string) (port : Z)
  (user : string) (body : HTTPResponse.t -> M A) (w : world) :
  let rq := {| req_host := host; req_port := port; req_method := http_method;
               req_url := url_path ++ "&user.name=" ++ user; req_body := None |} in
  (forall r, grows (body r)) ->
  server E rq <> Refused ->
  exists rest,
    requests (snd (with_ E (NameNodeHTTPClient E http_method url_path host port user)
                     body w))
    = (requests w ++ rq :: rest)%list.
Proof.
  intros rq Hb H. destruct (server E rq) as [| |r] eqn:Hs; [congruence| |].
  - rewrite (with_no_response _ _ _ _ _ body w Hs). cbn [snd].
    exists []. apply requests_entered.
  - rewrite (with_reply E _ _ _ _ _ body w r Hs). cbn [snd]. fold rq.
    rewrite requests_closed.
    destruct (Hb r (entered rq w)) as [t Ht].
    destruct (requests_grow _ _ _ Ht) as [rest Hrest].
    exists rest. rewrite Hrest, requests_entered, <- app_assoc. reflexivity.
Qed.

(** The first request of [copyfromlocal], for either value of
    [overwrite]. *)
Lemma copyfromlocal_first_request (self : WebHDFS) (source_path target_path : string)
  (replication : Z) (overwrite : bool) (fs : gmap string string) :
  server E (control self "PUT" (copyfromlocal_url target_path overwrite)) <> Refused ->
  exists rest,
    requests (snd (copyfromlocal E self source_path target_path replication overwrite
                     (initial fs)))
    = control self "PUT" (copyfromlocal_url target_path overwrite) :: rest.
Proof.
  intros H. unfold copyfromlocal, namenode.
  apply (with_first_request "PUT" _ _ _ _ _ (initial fs)); [|exact H].
  grows.
Qed.

End ControlPlane.

Example copyfromlocal_url_true :
  copyfromlocal_url "/data/up.txt" true = "/webhdfs/v1/data/up.txt?op=CREATE&overwrite=true".
Proof. reflexivity. Qed.

(** C1 (the code departs from the claim).  With [overwrite] false the
    path of the control-plane request is the text "false" alone, for
    every target path: the request that [copyfromlocal] sends to the
    NameNode is [PUT false&user.name=<username>], which names neither the
    file nor [op=CREATE] nor [overwrite=false]. *)
Theorem copyfromlocal_overwrite_false_request
  (E : env) (self : WebHDFS) (source_path target_path : string) (replication : Z)
  (fs : gmap string string) :
  server E {| req_host := namenode_host self; req_port := namenode_port self;
              req_method := "PUT"; req_url := "false&user.name=" ++ username self;
              req_body := None |} <> Refused ->
  exists rest,
    requests (snd (copyfromlocal E self source_path target_path replication false
                     (initial fs)))
    = {| req_host := namenode_host self; req_port := namenode_port self;
         req_method := "PUT"; req_url := "false&user.name=" ++ username self;
         req_body := None |} :: rest.
Proof.
  intros H.
  apply (copyfromlocal_first_request E self source_path target_path replication
           false fs H).
Qed.

Lemma copyfromlocal_overwrite_false_request_witness :
  exists rest,
    requests (snd (copyfromlocal
                     (Demo.cluster (Demo.redirect Demo.location) (Reply (Demo.ok "{}")))
                     Demo.hdfs "/tmp/upload.txt" "/data/up.txt" 3 false
                     (initial Demo.local_files)))
    = {| req_host := "namenode.hadoop.staging.corp"; req_port := 50070;
         req_method := "PUT"; req_url := "false&user.name=hadoop_user";
         req_body := None |} :: rest.
Proof.
  apply (copyfromlocal_overwrite_false_request
           (Demo.cluster (Demo.redirect Demo.location) (Reply (Demo.ok "{}")))
           Demo.hdfs "/tmp/upload.txt" "/data/up.txt" 3 Demo.local_files).
  vm_compute. discriminate.
Defined.

(** ** The data-plane request *)

Section DataPlane.

Variables (E : env) (self : WebHDFS) (r : HTTPResponse.t).
Variables (location host : string) (port : Z) (path query : string).
Hypothesis has_location : HTTPResponse.msg r !! "location" = Some location.
Hypothesis parsed : parse_url location = Ok (host, port, path, query).

(** The upload goes to the redirect target, with the replication factor
    added to the query of the redirect. *)
Lemma copyfromlocal_requests (source_path target_path : string) (replication : Z)
  (overwrite : bool) (fs : gmap string string) (data : string) :
  let rq := {| req_host := host; req_port := port; req_method := "PUT";
               req_url := path ++ "?" ++ query ++ "&replication=" ++ Py.str replication;
               req_body := Some data |} in
  server E (control self "PUT" (copyfromlocal_url target_path overwrite)) = Reply r ->
  fs !! source_path = Some data ->
  server E rq <> Refused ->
  requests (snd (copyfromlocal E self source_path target_path replication overwrite
                   (initial fs)))
  = [control self "PUT" (copyfromlocal_url target_path overwrite); rq].
Proof.
  intros rq H Hdata Hrq. unfold copyfromlocal, namenode.
  rewrite (with_reply E _ _ _ _ _ _ (initial fs) r H). cbn [fst snd].
  rewrite requests_closed.
  unfold bind at 1, lift at 1. rewrite (getheader_location r location has_location).
  unfold bind at 1, lift at 1. rewrite parsed.
  unfold bind at 1, HTTPConnection at 1.
  unfold bind at 1, read_file at 1. cbn [files entered record initial].
  rewrite Hdata.
  unfold bind at 1. rewrite request_sent; cbn [conn_host conn_port]; fold rq;
    [|exact Hrq].
  unfold bind at 1.
  match goal with
  | |- context [getresponse E ?c (record (Sent _ rq) ?w)] =>
      destruct (server E rq) as [| |r2] eqn:Hs; [congruence | |];
      [ rewrite (getresponse_none E c rq w Hs)
      | rewrite (getresponse_reply E c rq w r2 Hs) ]
  end.
  - cbn [snd]. rewrite requests_sent. reflexivity.
  - unfold bind, close, emit, loads, lift. cbn [snd].
    rewrite requests_closed, requests_sent. reflexivity.
Qed.

(** The download of [copytolocal] goes to the path and query of the
    redirect. *)
Lemma copytolocal_requests (source_path target_path : string)
  (fs : gmap string string) :
  let rq := {| req_host := host; req_port := port; req_method := "GET";
               req_url := path ++ "?" ++ query; req_body := None |} in
  server E (control self "GET" (copytolocal_url source_path)) = Reply r ->
  redirected r = true ->
  server E rq <> Refused ->
  requests (snd (copytolocal E self source_path target_path (initial fs)))
  = [control self "GET" (copytolocal_url source_path); rq].
Proof.
  intros rq H Hred Hrq. unfold copytolocal, namenode.
  rewrite (with_reply E _ _ _ _ _ _ (initial fs) r H). cbn [fst snd].
  rewrite requests_closed, Hred.
  unfold bind at 1. unfold bind at 1, lift at 1.
  rewrite (getheader_location r location has_location).
  unfold bind at 1, lift at 1. rewrite parsed.
  unfold bind at 1, HTTPConnection at 1.
  unfold bind at 1. rewrite request_sent; cbn [conn_host conn_port]; fold rq;
    [|exact Hrq].
  unfold bind at 1.
  match goal with
  | |- context [getresponse E ?c (record (Sent _ rq) ?w)] =>
      destruct (server E rq) as [| |r2] eqn:Hs; [congruence | |];
      [ rewrite (getresponse_none E c rq w Hs)
      | rewrite (getresponse_reply E c rq w r2 Hs) ]
  end.
  - cbn [snd]. rewrite requests_sent. reflexivity.
  - unfold bind, write_file, close, emit, ret.
    destruct (writable E target_path); cbn [snd].
    + rewrite requests_closed. reflexivity.
    + rewrite requests_sent. reflexivity.
Qed.

(** The second request of [readfile] goes to the host and port of the
    redirect, but with the path and query of the control-plane request,
    user name included. *)
Lemma readfile_requests (source_path : string) (offset length buffersize : Z)
  (fs : gmap string string) :
  let url_path := readfile_url source_path offset length buffersize in
  let rq := {| req_host := host; req_port := port; req_method := "GET";
               req_url := url_path ++ "&user.name=" ++ username self;
               req_body := None |} in
  server E (control self "GET" url_path) = Reply r ->
  redirected r = true ->
  server E rq <> Refused ->
  requests (snd (readfile E self source_path offset length buffersize (initial fs)))
  = [control self "GET" url_path; rq].
Proof.
  intros url_path rq H Hred Hrq. unfold readfile, namenode. fold url_path.
  rewrite (with_reply E _ _ _ _ _ _ (initial fs) r H). cbn [fst snd].
  rewrite requests_closed, Hred.
  unfold bind at 1, lift at 1. rewrite (getheader_location r location has_location).
  unfold bind at 1, lift at 1. rewrite parsed.
  destruct (server E rq) as [| |r2] eqn:Hs; [congruence | |].
  - rewrite (with_no_response E _ _ _ _ _ _ _ Hs). cbn [snd].
    rewrite requests_entered. reflexivity.
  - rewrite (with_reply E _ _ _ _ _ _ _ r2 Hs). cbn [snd].
    rewrite requests_closed.
    destruct (Py.endswith source_path ".gz").
    + unfold bind, lift, ret.
      destruct (Zlib.decompress _ _ _ _); cbn [snd]; rewrite requests_entered; reflexivity.
    + unfold ret. cbn [snd]. rewrite requests_entered. reflexivity.
Qed.

End DataPlane.

(** C7.  When the answer of the NameNode to [copyfromlocal] carries a
    redirect, the request that goes to the DataNode is a [PUT] whose path
    is the path of the redirect, ["?"], the query of the redirect and
    then ["&replication=<n>"], with the local file as its body. *)
Theorem copyfromlocal_appends_replication
  (E : env) (self : WebHDFS) (source_path target_path : string) (replication : Z)
  (overwrite : bool) (fs : gmap string string) (r : HTTPResponse.t)
  (location host : string) (port : Z) (path query data : string) :
  server E (control self "PUT" (copyfromlocal_url target_path overwrite)) = Reply r ->
  HTTPResponse.msg r !! "location" = Some location ->
  parse_url location = Ok (host, port, path, query) ->
  fs !! source_path = Some data ->
  server E {| req_host := host; req_port := port; req_method := "PUT";
              req_url := path ++ "?" ++ query ++ "&replication=" ++ Py.str replication;
              req_body := Some data |} <> Refused ->
  requests (snd (copyfromlocal E self source_path target_path replication overwrite
                   (initial fs)))
  = [ control self "PUT" (copyfromlocal_url target_path overwrite);
      {| req_host := host; req_port := port; req_method := "PUT";
         req_url := path ++ "?" ++ query ++ "&replication=" ++ Py.str replication;
         req_body := Some data |} ].
Proof.
  intros H Hloc Hparse Hdata Hrq.
  apply (copyfromlocal_requests E self r location host port path query Hloc Hparse
           source_path target_path replication overwrite fs data H Hdata Hrq).
Qed.

Lemma copyfromlocal_appends_replication_witness :
  requests (snd (copyfromlocal
                   (Demo.cluster (Demo.redirect Demo.location) (Reply (Demo.ok "{}")))
                   Demo.hdfs "/tmp/upload.txt" "/data/up.txt" 3 true
                   (initial Demo.local_files)))
  = [ {| req_host := "namenode.hadoop.staging.corp"; req_port := 50070;
         req_method := "PUT";
         req_url := "/webhdfs/v1/data/up.txt?op=CREATE&overwrite=true&user.name=hadoop_user";
         req_body := None |};
      {| req_host := "datanode1.hadoop.staging.corp"; req_port := 50075;
         req_method := "PUT";
         req_url := "webhdfs/v1/data/product/file.log?op=OPEN&offset=0&replication=3";
         req_body := Some "payload" |} ].
Proof.
  apply (copyfromlocal_appends_replication
           (Demo.cluster (Demo.redirect Demo.location) (Reply (Demo.ok "{}")))
           Demo.hdfs "/tmp/upload.txt" "/data/up.txt" 3 true Demo.local_files
           (Demo.redirect Demo.location) Demo.location
           "datanode1.hadoop.staging.corp" 50075
           "webhdfs/v1/data/product/file.log" "op=OPEN&offset=0" "payload").
  - reflexivity.
  - vm_compute. reflexivity.
  - vm_compute. reflexivity.
  - vm_compute. reflexivity.
  - vm_compute. discriminate.
Defined.

(** C2 (the code departs from the claim).  When the answer of the
    NameNode to [readfile] carries a redirect, the follow-up [GET] goes to
    the host and port of the redirect but asks for the path and query of
    the control-plane request, with the user name added once more; the
    path and the query of the redirect are computed and not used. *)
Theorem readfile_replays_control_url
  (E : env) (self : WebHDFS) (source_path : string) (offset length buffersize : Z)
  (fs : gmap string string) (r : HTTPResponse.t)
  (location host : string) (port : Z) (path query : string) :
  server E (control self "GET" (readfile_url source_path offset length buffersize))
    = Reply r ->
  redirected r = true ->
  HTTPResponse.msg r !! "location" = Some location ->
  parse_url location = Ok (host, port, path, query) ->
  server E {| req_host := host; req_port := port; req_method := "GET";
              req_url := readfile_url source_path offset length buffersize
                         ++ "&user.name=" ++ username self;
              req_body := None |} <> Refused ->
  requests (snd (readfile E self source_path offset length buffersize (initial fs)))
  = [ control self "GET" (readfile_url source_path offset length buffersize);
      {| req_host := host; req_port := port; req_method := "GET";
         req_url := readfile_url source_path offset length buffersize
                    ++ "&user.name=" ++ username self;
         req_body := None |} ].
Proof.
  intros H Hred Hloc Hparse Hrq.
  apply (readfile_requests E self r location host port path query Hloc Hparse
           source_path offset length buffersize fs H Hred Hrq).
Qed.

Lemma readfile_replays_control_url_witness :
  parse_url Demo.location
  = Ok ("datanode1.hadoop.staging.corp", 50075%Z,
        "webhdfs/v1/data/product/file.log", "op=OPEN&offset=0")
  /\ requests (snd (readfile
                      (Demo.cluster (Demo.redirect Demo.location) (Reply (Demo.ok "abc")))
                      Demo.hdfs "/data/product/file.log" 0 10000 10000 (initial ∅)))
     = [ {| req_host := "namenode.hadoop.staging.corp"; req_port := 50070;
            req_method := "GET";
            req_url := "/webhdfs/v1/data/product/file.log?op=OPEN&offset=0&length=10000&buffersize=10000&user.name=hadoop_user";
            req_body := None |};
         {| req_host := "datanode1.hadoop.staging.corp"; req_port := 50075;
            req_method := "GET";
            req_url := "/webhdfs/v1/data/product/file.log?op=OPEN&offset=0&length=10000&buffersize=10000&user.name=hadoop_user";
            req_body := None |} ].
Proof.
  split; [vm_compute; reflexivity|].
  apply (readfile_replays_control_url
           (Demo.cluster (Demo.redirect Demo.location) (Reply (Demo.ok "abc")))
           Demo.hdfs "/data/product/file.log" 0 10000 10000 ∅
           (Demo.redirect Demo.location) Demo.location
           "datanode1.hadoop.staging.corp" 50075
           "webhdfs/v1/data/product/file.log" "op=OPEN&offset=0").
  - reflexivity.
  - vm_compute. reflexivity.
  - vm_compute. reflexivity.
  - vm_compute. reflexivity.
  - vm_compute. discriminate.
Defined.

Example copytolocal_follows_redirect :
  requests (snd (copytolocal
                   (Demo.cluster (Demo.redirect Demo.location) (Reply (Demo.ok "abc")))
                   Demo.hdfs "/data/product/file.log" "/tmp/out" (initial ∅)))
  = [ {| req_host := "namenode.hadoop.staging.corp"; req_port := 50070;
         req_method := "GET";
         req_url := "/webhdfs/v1/data/product/file.log?op=OPEN&overwrite=true&user.name=hadoop_user";
         req_body := None |};
      {| req_host := "datanode1.hadoop.staging.corp"; req_port := 50075;
         req_method := "GET";
         req_url := "webhdfs/v1/data/product/file.log?op=OPEN&offset=0";
         req_body := None |} ].
Proof. vm_compute. reflexivity. Qed.

(** ** Connections left open *)

(** C9 (the code departs from the claim).  [copytolocal] closes the
    connection to the DataNode by a plain call after the local file is
    written: when the local file cannot be opened for writing the call
    ends in [IOError] with that connection (number 1) still open.  In the
    same way [copyfromlocal] leaves it open when the DataNode sends no
    response, and no connection is closed when the NameNode itself sends
    no response, since [__exit__] runs only after [__enter__] returned. *)
Theorem data_connection_left_open :
  let redirecting := Demo.redirect Demo.location in
  (let w := copytolocal (Demo.cluster redirecting (Reply (Demo.ok "abc")))
              Demo.hdfs "/data/product/file.log" "/readonly/out" (initial ∅) in
   fst w = Raise (IOError "/readonly/out") /\ open_conns (snd w) = [1])
  /\ (let w := copyfromlocal (Demo.cluster redirecting NoResponse)
                 Demo.hdfs "/tmp/upload.txt" "/data/up.txt" 1 true
                 (initial Demo.local_files) in
      fst w = Raise SocketError /\ open_conns (snd w) = [1])
  /\ (let w := mkdir {| server := fun _ => NoResponse; json_loads := Demo.decoder;
                        writable := fun _ => true; int_max := Demo.INT_MAX |}
                 Demo.hdfs "/data/new" (initial ∅) in
      fst w = Raise SocketError /\ open_conns (snd w) = [0]).
Proof. repeat split; vm_compute; reflexivity. Qed.

(** ** Directory listings *)

Section Listing.

Lemma listdir_entry_file_status (e : json) (t : string * json * string) :
  file_status e t.1.1 t.1.2 t.2 -> listdir_entry e = Ok (triple t).
Proof.
  destruct t as [[name len] type_]. intros (fields & -> & Hn & Hl & Ht).
  unfold listdir_entry, Json.getitem. simpl in Hn, Hl, Ht.
  rewrite Ht, Hn, Hl. reflexivity.
Qed.

(** The loop appends one triple per entry, in the order of the entries. *)
Lemma listdir_loop_file_statuses (entries : list json)
  (ts : list (string * json * string)) :
  Forall2 (fun e t => file_status e t.1.1 t.1.2 t.2) entries ts ->
  forall files, listdir_loop entries files = Ok (files ++ map triple ts)%list.
Proof.
  induction 1 as [|e t entries ts He _ IH]; intros files; simpl.
  - rewrite app_nil_r. reflexivity.
  - rewrite (listdir_entry_file_status e t He), IH, <- app_assoc. reflexivity.
Qed.

(** A value that can be indexed by a key is a mapping, and the logging
    call before the loop prints a mapping without raising. *)
Lemma str_of_indexed (v : json) (key : string) (x : json) :
  Json.getitem v key = Ok x -> Json.str v = Ok tt.
Proof. destruct v; simpl; intros H; try discriminate; reflexivity. Qed.

(** An entry without one of the three fields ends the listing in
    [KeyError]. *)
Example listdir_entry_without_length :
  listdir_entry (JDict [("pathSuffix", JStr "a.txt"); ("type", JStr "FILE")])
  = Raise (KeyError "length").
Proof. reflexivity. Qed.

End Listing.

(** C8.  When the body of the answer to [listdir] decodes to a mapping
    whose [FileStatuses.FileStatus] is an array of file status objects,
    the result is the list of their (pathSuffix, length, type) triples:
    one per object, in the order of the array, and nothing else of the
    objects. *)
Theorem listdir_returns_triples
  (E : env) (self : WebHDFS) (path : string) (fs : gmap string string)
  (r : HTTPResponse.t) (data_dict statuses : json) (entries : list json)
  (ts : list (string * json * string)) :
  server E (control self "GET" (listdir_url path)) = Reply r ->
  json_loads E (HTTPResponse.read r) = Some data_dict ->
  Json.getitem data_dict "FileStatuses" = Ok statuses ->
  Json.getitem statuses "FileStatus" = Ok (JList entries) ->
  Forall2 (fun e t => file_status e t.1.1 t.1.2 t.2) entries ts ->
  fst (listdir E self path (initial fs)) = Ok (map triple ts).
Proof.
  intros H Hjson Hst Hfs Hall. unfold listdir, namenode.
  rewrite (with_reply E _ _ _ _ _ _ (initial fs) r H). cbn [fst].
  unfold bind, loads, lift.
  rewrite Hjson, (str_of_indexed _ _ _ Hst), Hst, Hfs. cbn [Json.iter fst].
  rewrite (listdir_loop_file_statuses entries ts Hall []). reflexivity.
Qed.

Lemma listdir_returns_triples_witness :
  fst (listdir (Demo.cluster (Demo.ok Demo.listing_text) Refused) Demo.hdfs "/data"
         (initial ∅))
  = Ok [ (JStr "a.txt", JInt 10, JStr "FILE"); (JStr "sub", JInt 0, JStr "DIRECTORY") ].
Proof.
  apply (listdir_returns_triples
           (Demo.cluster (Demo.ok Demo.listing_text) Refused) Demo.hdfs "/data" ∅
           (Demo.ok Demo.listing_text) Demo.listing
           (JDict [("FileStatus",
                    JList [JDict [("pathSuffix", JStr "a.txt"); ("length", JInt 10);
                                  ("type", JStr "FILE"); ("owner", JStr "hdfs")];
                           JDict [("pathSuffix", JStr "sub"); ("length", JInt 0);
                                  ("type", JStr "DIRECTORY"); ("owner", JStr "hdfs")]])])
           [JDict [("pathSuffix", JStr "a.txt"); ("length", JInt 10);
                   ("type", JStr "FILE"); ("owner", JStr "hdfs")];
            JDict [("pathSuffix", JStr "sub"); ("length", JInt 0);
                   ("type", JStr "DIRECTORY"); ("owner", JStr "hdfs")]]
           [("a.txt", JInt 10, "FILE"); ("sub", JInt 0, "DIRECTORY")]).
  - reflexivity.
  - reflexivity.
  - reflexivity.
  - reflexivity.
  - repeat constructor; eexists; repeat split; reflexivity.
Defined.

(** ** Decompression *)

Section Decompression.

Lemma length_string_of_list_ascii (l : list ascii) :
  String.length (string_of_list_ascii l) = List.length l.
Proof. induction l as [|c l IH]; simpl; congruence. Qed.

(** A positive [max_length] bounds what [decompress] returns. *)
Lemma decompress_bound (int_max wbits : Z) (data : string) (max_length : Z)
  (out : string) :
  Zlib.decompress int_max wbits data max_length = Ok out ->
  (0 < max_length)%Z ->
  (Z.of_nat (String.length out) <= max_length)%Z.
Proof.
  unfold Zlib.decompress. intros H Hpos.
  destruct (Zlib.inflateInit2 wbits) as [[w wb]|]; [|discriminate].
  destruct ((max_length <? - int_max - 1) || (int_max <? max_length))%Z;
    [discriminate|].
  destruct (Z.ltb_spec max_length 0); [discriminate|].
  destruct (Zlib.inflate w wb (list_ascii_of_string data)) as [o st].
  destruct (Zlib.needs_room (List.length o) st max_length) eqn:Hroom.
  - injection H as <-. rewrite length_string_of_list_ascii, length_firstn. lia.
  - unfold Zlib.needs_room in Hroom.
    destruct (Z.ltb_spec 0 max_length); [|lia].
    destruct (Z.ltb_spec max_length (Z.of_nat (List.length o))); [discriminate|].
    destruct st; try discriminate; injection H as <-;
      rewrite length_string_of_list_ascii; lia.
Qed.

(** The test on the range of [max_length]. *)
Lemma in_range (int_max max_length : Z) :
  (- int_max - 1 <= max_length <= int_max)%Z ->
  ((max_length <? - int_max - 1) || (int_max <? max_length))%Z = false.
Proof.
  intros H. apply orb_false_iff. split; apply Z.ltb_ge; lia.
Qed.

Lemma out_of_range (int_max max_length : Z) :
  (max_length < - int_max - 1 \/ int_max < max_length)%Z ->
  ((max_length <? - int_max - 1) || (int_max <? max_length))%Z = true.
Proof.
  intros H. apply orb_true_iff. destruct H; [left|right]; apply Z.ltb_lt; lia.
Qed.

(** A [max_length] that does not fit the C integer is refused first. *)
Lemma decompress_overflow (int_max : Z) (data : string) (max_length : Z) :
  (max_length < - int_max - 1 \/ int_max < max_length)%Z ->
  Zlib.decompress int_max ZLIB_WBITS data max_length = Raise OverflowError.
Proof.
  intros H. unfold Zlib.decompress. change (Zlib.inflateInit2 ZLIB_WBITS)
    with (Some (Zlib.Gzip, 0%Z)).
  cbv iota beta. rewrite (out_of_range _ _ H). reflexivity.
Qed.

(** A negative [max_length] that fits is refused before anything is
    decoded. *)
Lemma decompress_negative (int_max : Z) (data : string) (max_length : Z) :
  (- int_max - 1 <= max_length < 0)%Z ->
  Zlib.decompress int_max ZLIB_WBITS data max_length
  = Raise (ValueError "max_length must be greater than zero").
Proof.
  intros H. unfold Zlib.decompress. change (Zlib.inflateInit2 ZLIB_WBITS)
    with (Some (Zlib.Gzip, 0%Z)).
  cbv iota beta.
  destruct (Z.ltb_spec max_length (- int_max - 1)) as [|_]; [lia|].
  destruct (Z.ltb_spec int_max max_length) as [|_]; [lia|].
  destruct (Z.ltb_spec max_length 0); [reflexivity | lia].
Qed.

Variables (E : env) (self : WebHDFS) (r r2 : HTTPResponse.t).
Variables (location host : string) (port : Z) (path query : string).
Variables (source_path : string) (offset length buffersize : Z).
Hypothesis control_reply :
  server E (control self "GET" (readfile_url source_path offset length buffersize))
  = Reply r.
Hypothesis is_redirect : redirected r = true.
Hypothesis has_location : HTTPResponse.msg r !! "location" = Some location.
Hypothesis parsed : parse_url location = Ok (host, port, path, query).
Hypothesis data_reply :
  server E {| req_host := host; req_port := port; req_method := "GET";
              req_url := readfile_url source_path offset length buffersize
                         ++ "&user.name=" ++ username self;
              req_body := None |} = Reply r2.

(** What [readfile] returns once the DataNode has answered. *)
Lemma readfile_result (w : world) :
  fst (readfile E self source_path offset length buffersize w)
  = if Py.endswith source_path ".gz"
    then match Zlib.decompress (int_max E) ZLIB_WBITS (HTTPResponse.read r2) length with
         | Ok plain => Ok (Some plain)
         | Raise e => Raise e
         end
    else Ok (Some (HTTPResponse.read r2)).
Proof.
  unfold readfile, namenode.
  rewrite (with_reply E _ _ _ _ _ _ w r control_reply). cbn [fst].
  rewrite is_redirect.
  unfold bind at 1, lift at 1. rewrite (getheader_location r location has_location).
  unfold bind at 1, lift at 1. rewrite parsed.
  rewrite (with_reply E _ _ _ _ _ _ _ r2 data_reply). cbn [fst].
  destruct (Py.endswith source_path ".gz"); [|reflexivity].
  unfold bind, lift, ret.
  destruct (Zlib.decompress _ _ _ _); reflexivity.
Qed.

End Decompression.

Example window_bits_select_gzip : Zlib.inflateInit2 ZLIB_WBITS = Some (Zlib.Gzip, 0%Z).
Proof. reflexivity. Qed.

Example hello_deflate_is_raw_deflate :
  Zlib.decompress Demo.INT_MAX (-15) Demo.hello_deflate 10000 = Ok "hello world".
Proof. vm_compute. reflexivity. Qed.

Example hello_gzip_decompresses :
  Zlib.decompress Demo.INT_MAX ZLIB_WBITS Demo.hello_gzip 10000 = Ok "hello world".
Proof. vm_compute. reflexivity. Qed.

Example stored_block :
  Zlib.decompress Demo.INT_MAX ZLIB_WBITS Demo.stored_gzip 10000 = Ok "stored".
Proof. vm_compute. reflexivity. Qed.

Example dynamic_block :
  Zlib.decompress Demo.INT_MAX ZLIB_WBITS Demo.rose_gzip 10000 = Ok Demo.rose.
Proof. vm_compute. reflexivity. Qed.

(** The check value is compared once the whole output fits the limit;
    with a smaller limit the engine never gets as far. *)
Example damaged_check_value :
  Zlib.decompress Demo.INT_MAX ZLIB_WBITS Demo.damaged_gzip 10000
    = Raise (ZlibError "incorrect data check")
  /\ Zlib.decompress Demo.INT_MAX ZLIB_WBITS Demo.damaged_gzip 10 = Ok "hello worl".
Proof. split; vm_compute; reflexivity. Qed.

Example hello_gzip_cut_at_five :
  Zlib.decompress Demo.INT_MAX ZLIB_WBITS Demo.hello_gzip 5 = Ok "hello".
Proof. vm_compute. reflexivity. Qed.

(** C6, the claim as it is written fails twice.  The payload is not read
    as a raw deflate stream: the raw deflate stream of "hello world" makes
    [readfile] raise the zlib error "incorrect header check", however
    generous [length] is.  And [length] does not always bound the output:
    with [length = 0] the gzip stream of "hello world" comes back whole,
    eleven bytes. *)
Lemma readfile_gz_counterexample :
  Zlib.decompress Demo.INT_MAX (-15) Demo.hello_deflate 10000 = Ok "hello world"
  /\ fst (readfile (Demo.datanode Demo.hello_deflate) Demo.hdfs
            "/data/product/file.log.gz" 0 10000 10000 (initial ∅))
     = Raise (ZlibError "incorrect header check")
  /\ fst (readfile (Demo.datanode Demo.hello_gzip) Demo.hdfs
            "/data/product/file.log.gz" 0 0 10000 (initial ∅))
     = Ok (Some "hello world")
  /\ ~ (Z.of_nat (String.length "hello world") <= 0)%Z.
Proof.
  repeat split; try (vm_compute; reflexivity).
  vm_compute. intros H. apply H. reflexivity.
Qed.

(** C6, amended.  Once the DataNode has answered [readfile] with payload
    [p]: when the source path ends in ".gz" the result is what zlib makes
    of [p] with window bits 16, that is as a gzip stream, the limit on the
    output being [length]: a [length] that does not fit the C integer of
    the interpreter raises [OverflowError], a negative [length] that fits
    raises [ValueError], and a value that is returned has at most
    [length] bytes when [length] is positive; when the path does not end
    in ".gz" the result is [p] itself. *)
Theorem readfile_payload
  (E : env) (self : WebHDFS) (source_path : string) (offset length buffersize : Z)
  (fs : gmap string string) (r r2 : HTTPResponse.t)
  (location host : string) (port : Z) (path query : string) :
  server E (control self "GET" (readfile_url source_path offset length buffersize))
    = Reply r ->
  redirected r = true ->
  HTTPResponse.msg r !! "location" = Some location ->
  parse_url location = Ok (host, port, path, query) ->
  server E {| req_host := host; req_port := port; req_method := "GET";
              req_url := readfile_url source_path offset length buffersize
                         ++ "&user.name=" ++ username self;
              req_body := None |} = Reply r2 ->
  let p := HTTPResponse.read r2 in
  let result := fst (readfile E self source_path offset length buffersize (initial fs)) in
  (Py.endswith source_path ".gz" = true ->
   Zlib.inflateInit2 ZLIB_WBITS = Some (Zlib.Gzip, 0%Z)
   /\ result = match Zlib.decompress (int_max E) ZLIB_WBITS p length with
               | Ok plain => Ok (Some plain)
               | Raise e => Raise e
               end
   /\ ((length < - int_max E - 1 \/ int_max E < length)%Z ->
       result = Raise OverflowError)
   /\ ((- int_max E - 1 <= length < 0)%Z ->
       result = Raise (ValueError "max_length must be greater than zero"))
   /\ forall plain, result = Ok (Some plain) -> (0 < length)%Z ->
                    (Z.of_nat (String.length plain) <= length)%Z)
  /\ (Py.endswith source_path ".gz" = false -> result = Ok (Some p)).
Proof.
  intros H Hred Hloc Hparse Hdata p result.
  pose proof (readfile_result E self r r2 location host port path query source_path
                offset length buffersize H Hred Hloc Hparse Hdata (initial fs)) as Hres.
  fold result in Hres. fold p in Hres. split; intros Hgz; rewrite Hgz in Hres.
  - split; [reflexivity|]. split; [exact Hres|].
    split; [|split].
    + intros Hout. rewrite Hres, (decompress_overflow _ _ _ Hout). reflexivity.
    + intros Hneg. rewrite Hres, (decompress_negative _ _ _ Hneg). reflexivity.
    + intros plain Hplain Hpos. rewrite Hplain in Hres.
      destruct (Zlib.decompress (int_max E) ZLIB_WBITS p length) as [out|e] eqn:Hd;
        [|discriminate].
      injection Hres as ->. exact (decompress_bound _ _ _ _ _ Hd Hpos).
  - exact Hres.
Qed.

Lemma readfile_payload_witness :
  fst (readfile (Demo.datanode Demo.hello_gzip) Demo.hdfs "/data/product/file.log.gz"
         0 10000 10000 (initial ∅))
  = Ok (Some "hello world")
  /\ (forall plain,
        fst (readfile (Demo.datanode Demo.hello_gzip) Demo.hdfs
               "/data/product/file.log.gz" 0 10000 10000 (initial ∅))
        = Ok (Some plain) ->
        (Z.of_nat (String.length plain) <= 10000)%Z).
Proof.
  destruct (readfile_payload (Demo.datanode Demo.hello_gzip) Demo.hdfs "/data/product/file.log.gz" 0 10000 10000 ∅
              (Demo.redirect Demo.location) (Demo.ok Demo.hello_gzip) Demo.location
              "datanode1.hadoop.staging.corp" 50075
              "webhdfs/v1/data/product/file.log" "op=OPEN&offset=0")
    as [Hgz _]; try (vm_compute; reflexivity).
  destruct Hgz as (_ & Hres & _ & _ & Hbound); [vm_compute; reflexivity|].
  split.
  - exact Hres.
  - intros plain Hplain. apply (Hbound plain Hplain). reflexivity.
Defined.

(** One more than the largest C [int] is refused as a [length]. *)
Example readfile_length_overflow :
  fst (readfile (Demo.datanode Demo.hello_gzip) Demo.hdfs "/data/product/file.log.gz"
         0 2147483648 10000 (initial ∅))
  = Raise OverflowError.
Proof. vm_compute. reflexivity. Qed.

Example readfile_plain_payload :
  fst (readfile (Demo.cluster (Demo.redirect Demo.location) (Reply (Demo.ok "abc")))
         Demo.hdfs "/data/product/file.log" 0 10000 10000 (initial ∅))
  = Ok (Some "abc").
Proof. vm_compute. reflexivity. Qed.

(** ** Connections on normal return *)

(** Runs a call step by step, splitting on everything the environment
    decides. *)
Ltac run_step :=
  match goal with
  | H : ?x = _ |- context [match ?x with _ => _ end] => rewrite H
  | |- context [match ?x with _ => _ end] =>
      lazymatch x with
      | context [match _ with _ => _ end] => fail
      | _ => destruct x eqn:?
      end
  end.

Ltac run_call :=
  unfold mkdir, rmdir, copyfromlocal, copytolocal, readfile, listdir, getfilestatus,
    namenode, with_, NameNodeHTTPClient, bind, ret, lift, HTTPConnection, request_,
    enter, exit, getresponse, close, emit, read_file, write_file, loads, record,
    initial, sent_on;
  cbn -[String.append copyfromlocal_url copytolocal_url readfile_url listdir_url
        parse_url HTTPResponse.getheader redirected Zlib.decompress Py.endswith
        Py.str listdir_loop Json.getitem Json.iter Json.get];
  repeat (run_step;
          cbn -[String.append copyfromlocal_url copytolocal_url readfile_url
                listdir_url parse_url HTTPResponse.getheader redirected
                Zlib.decompress Py.endswith Py.str listdir_loop Json.getitem
                Json.iter Json.get]);
  try discriminate; try reflexivity.

Section NormalReturn.

Variables (E : env) (self : WebHDFS) (fs : gmap string string).

(** A call that returns has closed every connection it opened. *)
Lemma mkdir_closes (path : string) (v : json) :
  fst (mkdir E self path (initial fs)) = Ok v ->
  open_conns (snd (mkdir E self path (initial fs))) = [].
Proof. run_call. Qed.

Lemma rmdir_closes (path : string) (v : json) :
  fst (rmdir E self path (initial fs)) = Ok v ->
  open_conns (snd (rmdir E self path (initial fs))) = [].
Proof. run_call. Qed.

Lemma copyfromlocal_closes (source_path target_path : string) (replication : Z)
  (overwrite : bool) (v : json) :
  fst (copyfromlocal E self source_path target_path replication overwrite (initial fs))
    = Ok v ->
  open_conns (snd (copyfromlocal E self source_path target_path replication overwrite
                     (initial fs))) = [].
Proof. run_call. Qed.

Lemma copytolocal_closes (source_path target_path : string) (v : Z) :
  fst (copytolocal E self source_path target_path (initial fs)) = Ok v ->
  open_conns (snd (copytolocal E self source_path target_path (initial fs))) = [].
Proof. run_call. Qed.

Lemma readfile_closes (source_path : string) (offset length buffersize : Z)
  (v : option string) :
  fst (readfile E self source_path offset length buffersize (initial fs)) = Ok v ->
  open_conns (snd (readfile E self source_path offset length buffersize (initial fs)))
  = [].
Proof. run_call. Qed.

Lemma listdir_closes (path : string) (v : list (json * json * json)) :
  fst (listdir E self path (initial fs)) = Ok v ->
  open_conns (snd (listdir E self path (initial fs))) = [].
Proof. run_call. Qed.

Lemma getfilestatus_closes (path : string) (v : json) :
  fst (getfilestatus E self path (initial fs)) = Ok v ->
  open_conns (snd (getfilestatus E self path (initial fs))) = [].
Proof. run_call. Qed.

End NormalReturn.


(** * Further properties of the client *)

(** ** The scoped connection of [_NameNodeHTTPClient] *)

Section Scoped.

Variable E : env.

Lemma is_closed_last (c : nat) (t : list event) :
  is_closed c (t ++ [Closed c]) = true.
Proof.
  unfold is_closed. rewrite existsb_app. simpl. rewrite Nat.eqb_refl.
  apply orb_true_r.
Qed.

End Scoped.

(** X1.  Once the response of a [with] block has arrived, the block gives
    what its body gives, result or exception, and the connection of the
    block is closed when the block is left, in both cases. *)
Theorem with_closes_its_connection {A : Type}
  (E : env) (http_method url_path host : string) (port : Z) (user : string)
  (body : HTTPResponse.t -> M A) (w : world) (r : HTTPResponse.t) :
  server E {| req_host := host; req_port := port; req_method := http_method;
              req_url := url_path ++ "&user.name=" ++ user; req_body := None |}
    = Reply r ->
  let block := with_ E (NameNodeHTTPClient E http_method url_path host port user) body w in
  fst block
  = fst (body r (entered {| req_host := host; req_port := port;
                            req_method := http_method;
                            req_url := url_path ++ "&user.name=" ++ user;
                            req_body := None |} w))
  /\ is_closed (conns w) (trace (snd block)) = true.
Proof.
  intros H block. unfold block.
  rewrite (with_reply E _ _ _ _ _ body w r H). cbn [fst snd record trace].
  split; [reflexivity | apply is_closed_last].
Qed.

Lemma with_closes_its_connection_witness :
  fst (with_ (Demo.answering Demo.not_found None)
         (NameNodeHTTPClient (Demo.answering Demo.not_found None) "GET" "/webhdfs/v1/x?op=OPEN"
            "namenode.hadoop.staging.corp" 50070 "hadoop_user")
         (fun _ => lift (Raise TypeError : result unit)) (initial ∅))
  = Raise TypeError
  /\ is_closed 0
       (trace (snd (with_ (Demo.answering Demo.not_found None)
                      (NameNodeHTTPClient (Demo.answering Demo.not_found None) "GET"
                         "/webhdfs/v1/x?op=OPEN" "namenode.hadoop.staging.corp" 50070
                         "hadoop_user")
                      (fun _ => lift (Raise TypeError : result unit)) (initial ∅))))
     = true.
Proof.
  apply (with_closes_its_connection (Demo.answering Demo.not_found None) "GET"
           "/webhdfs/v1/x?op=OPEN" "namenode.hadoop.staging.corp" 50070 "hadoop_user"
           (fun _ => lift (Raise TypeError : result unit)) (initial ∅) Demo.not_found).
  reflexivity.
Defined.

(** ** Operations that end at the NameNode *)

Section Metadata.

Variables (E : env) (self : WebHDFS) (r : HTTPResponse.t).

(** A [with] block that decodes the body of the answer. *)
Lemma with_loads (http_method url_path : string) (w : world) :
  server E (control self http_method url_path) = Reply r ->
  with_ E (namenode E self http_method url_path)
    (fun response => loads E (HTTPResponse.read response)) w
  = (decoded E (HTTPResponse.body r),
     record (Closed (conns w)) (entered (control self http_method url_path) w)).
Proof.
  intros H. unfold namenode.
  rewrite (with_reply E _ _ _ _ _ _ w r H). reflexivity.
Qed.

Lemma open_conns_one_block (rq : request) (fs : gmap string string) :
  open_conns (record (Closed 0) (entered rq (initial fs))) = [].
Proof. reflexivity. Qed.

Lemma requests_one_block (rq : request) (fs : gmap string string) :
  requests (record (Closed 0) (entered rq (initial fs))) = [rq].
Proof. reflexivity. Qed.

End Metadata.

(** X2.  [mkdir] sends one [PUT ...?op=MKDIRS] to the NameNode and
    returns the decoded body of the answer, or raises [ValueError] when
    the body is not JSON; the status of the answer plays no part, and
    the connection is closed either way. *)
Theorem mkdir_returns_decoded_body
  (E : env) (self : WebHDFS) (path : string) (fs : gmap string string)
  (r : HTTPResponse.t) :
  server E (mkdir_request self path) = Reply r ->
  fst (mkdir E self path (initial fs)) = decoded E (HTTPResponse.body r)
  /\ requests (snd (mkdir E self path (initial fs))) = [mkdir_request self path]
  /\ open_conns (snd (mkdir E self path (initial fs))) = [].
Proof.
  intros H. unfold mkdir.
  rewrite (with_loads E self r "PUT" _ (initial fs) H).
  repeat split.
Qed.

Lemma mkdir_returns_decoded_body_witness :
  fst (mkdir (Demo.answering (Demo.failed "{'RemoteException':...}")
                (Some Demo.remote_exception))
         Demo.hdfs "/data/none/new" (initial ∅))
  = Ok Demo.remote_exception
  /\ requests (snd (mkdir (Demo.answering (Demo.failed "{'RemoteException':...}")
                             (Some Demo.remote_exception))
                      Demo.hdfs "/data/none/new" (initial ∅)))
     = [ {| req_host := "namenode.hadoop.staging.corp"; req_port := 50070;
            req_method := "PUT";
            req_url := "/webhdfs/v1/data/none/new?op=MKDIRS&user.name=hadoop_user";
            req_body := None |} ]
  /\ open_conns (snd (mkdir (Demo.answering (Demo.failed "{'RemoteException':...}")
                               (Some Demo.remote_exception))
                        Demo.hdfs "/data/none/new" (initial ∅)))
     = [].
Proof.
  apply (mkdir_returns_decoded_body
           (Demo.answering (Demo.failed "{'RemoteException':...}")
              (Some Demo.remote_exception))
           Demo.hdfs "/data/none/new" ∅ (Demo.failed "{'RemoteException':...}")).
  reflexivity.
Defined.

(** X3.  [rmdir] sends one [DELETE ...?op=DELETE&recursive=true] to the
    NameNode, so the deletion is always recursive, and returns the decoded
    body of the answer, or raises [ValueError] when the body is not JSON;
    the connection is closed either way. *)
Theorem rmdir_returns_decoded_body
  (E : env) (self : WebHDFS) (path : string) (fs : gmap string string)
  (r : HTTPResponse.t) :
  server E (rmdir_request self path) = Reply r ->
  fst (rmdir E self path (initial fs)) = decoded E (HTTPResponse.body r)
  /\ requests (snd (rmdir E self path (initial fs))) = [rmdir_request self path]
  /\ open_conns (snd (rmdir E self path (initial fs))) = [].
Proof.
  intros H. unfold rmdir.
  rewrite (with_loads E self r "DELETE" _ (initial fs) H).
  repeat split.
Qed.

Lemma rmdir_returns_decoded_body_witness :
  fst (rmdir (Demo.answering (Demo.ok "not json") None) Demo.hdfs "/data/old"
         (initial ∅))
  = Raise (ValueError "No JSON object could be decoded")
  /\ requests (snd (rmdir (Demo.answering (Demo.ok "not json") None) Demo.hdfs
                      "/data/old" (initial ∅)))
     = [ {| req_host := "namenode.hadoop.staging.corp"; req_port := 50070;
            req_method := "DELETE";
            req_url := "/webhdfs/v1/data/old?op=DELETE&recursive=true&user.name=hadoop_user";
            req_body := None |} ]
  /\ open_conns (snd (rmdir (Demo.answering (Demo.ok "not json") None) Demo.hdfs
                        "/data/old" (initial ∅)))
     = [].
Proof.
  apply (rmdir_returns_decoded_body (Demo.answering (Demo.ok "not json") None)
           Demo.hdfs "/data/old" ∅ (Demo.ok "not json")).
  reflexivity.
Defined.

(** X4.  [getfilestatus] returns the [FileStatus] entry of the decoded
    body; when the body is a mapping without that key it returns [None]
    and raises nothing; when the body is not a mapping it raises
    [AttributeError], except that a body which is one string with a
    character beyond ASCII raises [UnicodeEncodeError] in the logging
    call before that.  The connection is closed in every case. *)
Theorem getfilestatus_result
  (E : env) (self : WebHDFS) (path : string) (fs : gmap string string)
  (r : HTTPResponse.t) (data_dict : json) :
  server E (getfilestatus_request self path) = Reply r ->
  json_loads E (HTTPResponse.body r) = Some data_dict ->
  fst (getfilestatus E self path (initial fs))
  = match data_dict with
    | JDict fields =>
        match Json.lookup "FileStatus" fields with
        | Some status => Ok status
        | None => Ok JNull
        end
    | JStr s => if Py.is_ascii s then Raise AttributeError else Raise UnicodeEncodeError
    | _ => Raise AttributeError
    end
  /\ open_conns (snd (getfilestatus E self path (initial fs))) = [].
Proof.
  intros H Hjson.
  unfold getfilestatus, namenode, bind, loads, lift, ret, HTTPResponse.read.
  unfold getfilestatus_request in H.
  rewrite (with_reply E _ _ _ _ _ _ (initial fs) r H), Hjson.
  destruct data_dict as [ |b|n|s|items|fields]; cbn [Json.str Json.get fst snd];
    try (split; reflexivity).
  destruct (Py.is_ascii s); split; reflexivity.
Qed.

Lemma getfilestatus_result_witness :
  fst (getfilestatus (Demo.answering (Demo.failed "{'RemoteException':...}")
                        (Some Demo.remote_exception))
         Demo.hdfs "/data/none" (initial ∅))
  = Ok JNull
  /\ open_conns (snd (getfilestatus
                        (Demo.answering (Demo.failed "{'RemoteException':...}")
                           (Some Demo.remote_exception))
                        Demo.hdfs "/data/none" (initial ∅)))
     = [].
Proof.
  apply (getfilestatus_result
           (Demo.answering (Demo.failed "{'RemoteException':...}")
              (Some Demo.remote_exception))
           Demo.hdfs "/data/none" ∅ (Demo.failed "{'RemoteException':...}")
           Demo.remote_exception);
    reflexivity.
Defined.

(** ** Listings that are not listings *)

Section BadListing.

(** The loop stops at the first entry it cannot read and gives up what
    it has collected. *)
Lemma listdir_loop_first_bad (good : list json) (ts : list (string * json * string))
  (bad : json) (err : exn) (rest : list json) :
  Forall2 (fun e t => file_status e t.1.1 t.1.2 t.2) good ts ->
  listdir_entry bad = Raise err ->
  forall files, listdir_loop (good ++ bad :: rest) files = Raise err.
Proof.
  intros Hgood Hbad. induction Hgood as [|e t good ts He _ IH]; intros files; simpl.
  - rewrite Hbad. reflexivity.
  - rewrite (listdir_entry_file_status e t He). apply IH.
Qed.

End BadListing.

(** X5.  When the body of the answer to [listdir] is a mapping without the
    key [FileStatuses], as the error answers of the service are, [listdir]
    raises [KeyError] for that key; the connection is closed. *)
Theorem listdir_without_listing_raises_key_error
  (E : env) (self : WebHDFS) (path : string) (fs : gmap string string)
  (r : HTTPResponse.t) (fields : list (string * json)) :
  server E (listdir_request self path) = Reply r ->
  json_loads E (HTTPResponse.body r) = Some (JDict fields) ->
  Json.lookup "FileStatuses" fields = None ->
  fst (listdir E self path (initial fs)) = Raise (KeyError "FileStatuses")
  /\ open_conns (snd (listdir E self path (initial fs))) = [].
Proof.
  intros H Hjson Hkey. unfold listdir, namenode.
  rewrite (with_reply E _ _ _ _ _ _ (initial fs) r H). cbn [fst snd].
  unfold bind, loads, lift, HTTPResponse.read. rewrite Hjson.
  unfold Json.getitem. rewrite Hkey. cbn [fst snd]. split; reflexivity.
Qed.

Lemma listdir_without_listing_raises_key_error_witness :
  fst (listdir (Demo.answering (Demo.failed "{'RemoteException':...}")
                  (Some Demo.remote_exception))
         Demo.hdfs "/data/none" (initial ∅))
  = Raise (KeyError "FileStatuses")
  /\ open_conns (snd (listdir (Demo.answering (Demo.failed "{'RemoteException':...}")
                                 (Some Demo.remote_exception))
                        Demo.hdfs "/data/none" (initial ∅)))
     = [].
Proof.
  apply (listdir_without_listing_raises_key_error
           (Demo.answering (Demo.failed "{'RemoteException':...}")
              (Some Demo.remote_exception))
           Demo.hdfs "/data/none" ∅ (Demo.failed "{'RemoteException':...}")
           [("RemoteException",
             JDict [("exception", JStr "FileNotFoundException");
                    ("message", JStr "File /data/none does not exist.")])]);
    reflexivity.
Defined.

(** X6.  [listdir] gives all the triples or none: when some entry of the
    array cannot be read as a file status object, the call raises the
    exception of the first such entry, whatever the entries before and
    after it are; the connection is closed. *)
Theorem listdir_fails_on_first_bad_entry
  (E : env) (self : WebHDFS) (path : string) (fs : gmap string string)
  (r : HTTPResponse.t) (data_dict statuses : json)
  (good : list json) (ts : list (string * json * string))
  (bad : json) (err : exn) (rest : list json) :
  server E (listdir_request self path) = Reply r ->
  json_loads E (HTTPResponse.body r) = Some data_dict ->
  Json.getitem data_dict "FileStatuses" = Ok statuses ->
  Json.getitem statuses "FileStatus" = Ok (JList (good ++ bad :: rest)) ->
  Forall2 (fun e t => file_status e t.1.1 t.1.2 t.2) good ts ->
  listdir_entry bad = Raise err ->
  fst (listdir E self path (initial fs)) = Raise err
  /\ open_conns (snd (listdir E self path (initial fs))) = [].
Proof.
  intros H Hjson Hst Hfs Hgood Hbad. unfold listdir, namenode.
  rewrite (with_reply E _ _ _ _ _ _ (initial fs) r H). cbn [fst snd].
  unfold bind, loads, lift, HTTPResponse.read.
  rewrite Hjson, (str_of_indexed _ _ _ Hst), Hst, Hfs.
  cbn [Json.iter]. rewrite (listdir_loop_first_bad good ts bad err rest Hgood Hbad).
  cbn [fst snd]. split; reflexivity.
Qed.

Lemma listdir_fails_on_first_bad_entry_witness :
  fst (listdir
         (Demo.answering (Demo.ok "{...}")
            (Some (JDict [("FileStatuses",
                           JDict [("FileStatus",
                                   JList [JDict [("pathSuffix", JStr "a.txt");
                                                 ("length", JInt 10);
                                                 ("type", JStr "FILE")];
                                          JDict [("pathSuffix", JStr "b.txt");
                                                 ("type", JStr "FILE")];
                                          JDict [("pathSuffix", JStr "sub");
                                                 ("length", JInt 0);
                                                 ("type", JStr "DIRECTORY")]])])])))
         Demo.hdfs "/data" (initial ∅))
  = Raise (KeyError "length")
  /\ open_conns
       (snd (listdir
               (Demo.answering (Demo.ok "{...}")
                  (Some (JDict [("FileStatuses",
                                 JDict [("FileStatus",
                                         JList [JDict [("pathSuffix", JStr "a.txt");
                                                       ("length", JInt 10);
                                                       ("type", JStr "FILE")];
                                                JDict [("pathSuffix", JStr "b.txt");
                                                       ("type", JStr "FILE")];
                                                JDict [("pathSuffix", JStr "sub");
                                                       ("length", JInt 0);
                                                       ("type", JStr "DIRECTORY")]])])])))
               Demo.hdfs "/data" (initial ∅)))
     = [].
Proof.
  eapply (listdir_fails_on_first_bad_entry _ Demo.hdfs "/data" ∅ (Demo.ok "{...}") _ _
            [JDict [("pathSuffix", JStr "a.txt"); ("length", JInt 10);
                    ("type", JStr "FILE")]]
            [("a.txt", JInt 10, "FILE")]
            (JDict [("pathSuffix", JStr "b.txt"); ("type", JStr "FILE")])
            (KeyError "length")
            [JDict [("pathSuffix", JStr "sub"); ("length", JInt 0);
                    ("type", JStr "DIRECTORY")]]).
  - reflexivity.
  - reflexivity.
  - reflexivity.
  - reflexivity.
  - repeat constructor; eexists; repeat split; reflexivity.
  - reflexivity.
Defined.

(** ** The local files *)

Create HintDb files discriminated.

Section LocalFiles.

Variable E : env.

Ltac same_files := intros w; try reflexivity.

Lemma keeps_ret {A} (a : A) : keeps_files (ret a).
Proof. same_files. Qed.

Lemma keeps_lift {A} (r : result A) : keeps_files (lift r).
Proof. same_files. Qed.

Lemma keeps_bind {A B} (m : M A) (k : A -> M B) :
  keeps_files m -> (forall a, keeps_files (k a)) -> keeps_files (bind m k).
Proof.
  intros Hm Hk w. unfold bind. specialize (Hm w).
  destruct (m w) as [[a|e] w1]; simpl in *; [|exact Hm].
  rewrite (Hk a w1). exact Hm.
Qed.

Lemma keeps_emit (e : event) : keeps_files (emit e).
Proof. same_files. Qed.

Lemma keeps_HTTPConnection (host : string) (port : Z) :
  keeps_files (HTTPConnection host port).
Proof. same_files. Qed.

Lemma keeps_request (c : connection) (method url : string) (body : option string) :
  keeps_files (request_ E c method url body).
Proof. unfold request_. destruct (server E _); same_files. Qed.

Lemma keeps_getresponse (c : connection) : keeps_files (getresponse E c).
Proof.
  intros w. unfold getresponse.
  destruct (sent_on _ _); [destruct (server E _)|]; reflexivity.
Qed.

Lemma keeps_close (c : connection) : keeps_files (close c).
Proof. same_files. Qed.

Lemma keeps_read_file (path : string) : keeps_files (read_file path).
Proof. intros w. unfold read_file. destruct (files w !! path); reflexivity. Qed.

Lemma keeps_loads (s : string) : keeps_files (loads E s).
Proof. same_files. Qed.

Lemma keeps_client (http_method url_path host : string) (port : Z) (user : string) :
  keeps_files (NameNodeHTTPClient E http_method url_path host port user).
Proof.
  unfold NameNodeHTTPClient.
  repeat (apply keeps_bind; [|intros ?]);
    auto using keeps_HTTPConnection, keeps_request, keeps_ret.
Qed.

Lemma keeps_with {A} (mgr : M connection) (body : HTTPResponse.t -> M A) :
  keeps_files mgr -> (forall r, keeps_files (body r)) -> keeps_files (with_ E mgr body).
Proof.
  intros Hm Hb w. unfold with_. specialize (Hm w).
  destruct (mgr w) as [[c|e] w1]; simpl in *; [|exact Hm].
  pose proof (keeps_getresponse c w1) as Hg. unfold enter.
  destruct (getresponse E c w1) as [[r|e] w2]; simpl in *; [|congruence].
  specialize (Hb r w2). destruct (body r w2) as [res w3]; simpl in *. congruence.
Qed.

End LocalFiles.

#[export] Hint Resolve keeps_ret keeps_lift keeps_emit keeps_HTTPConnection
  keeps_request keeps_getresponse keeps_close keeps_read_file keeps_loads
  keeps_client : files.

(** Splits a computation into its steps, none of which writes a file. *)
Ltac keeps_files :=
  repeat first
    [ progress auto with files
    | apply keeps_with
    | apply keeps_bind
    | match goal with
      | |- forall _, _ => intros ?
      | |- keeps_files (match ?p with _ => _ end) => destruct p
      end ].

(** X7.  Only [copytolocal] writes local files: [mkdir], [rmdir],
    [copyfromlocal], [readfile], [listdir] and [getfilestatus] leave the
    local files as they were, in every environment and however they
    end. *)
Theorem only_copytolocal_writes_files
  (E : env) (self : WebHDFS) (path local_path : string) (replication : Z)
  (overwrite : bool) (offset length buffersize : Z) :
  keeps_files (mkdir E self path)
  /\ keeps_files (rmdir E self path)
  /\ keeps_files (copyfromlocal E self local_path path replication overwrite)
  /\ keeps_files (readfile E self path offset length buffersize)
  /\ keeps_files (listdir E self path)
  /\ keeps_files (getfilestatus E self path).
Proof.
  unfold mkdir, rmdir, copyfromlocal, readfile, listdir, getfilestatus, namenode.
  repeat split; keeps_files.
Qed.

(** ** Downloads and uploads *)

(** Runs a call like [run_call], keeping the local files as a map. *)
Ltac run_world :=
  unfold mkdir, rmdir, copyfromlocal, copytolocal, readfile, listdir, getfilestatus,
    namenode, with_, NameNodeHTTPClient, bind, ret, lift, HTTPConnection, request_,
    enter, exit, getresponse, close, emit, read_file, write_file, loads, record,
    entered, initial, sent_on, control in *;
  cbn -[String.append copyfromlocal_url copytolocal_url readfile_url listdir_url
        parse_url HTTPResponse.getheader redirected Zlib.decompress Py.endswith
        Py.str listdir_loop Json.getitem Json.iter Json.get lookup insert] in *;
  repeat (run_step;
          cbn -[String.append copyfromlocal_url copytolocal_url readfile_url
                listdir_url parse_url HTTPResponse.getheader redirected
                Zlib.decompress Py.endswith Py.str listdir_loop Json.getitem
                Json.iter Json.get lookup insert] in *);
  try discriminate; try reflexivity.

Section Transfers.

Variables (E : env) (self : WebHDFS) (r : HTTPResponse.t).
Variables (location host : string) (port : Z) (path query : string).
Hypothesis is_redirect : redirected r = true.
Hypothesis has_location : HTTPResponse.msg r !! "location" = Some location.
Hypothesis parsed : parse_url location = Ok (host, port, path, query).

(** [copytolocal] when both nodes answer. *)
Lemma copytolocal_run (source_path target_path : string) (fs : gmap string string)
  (r2 : HTTPResponse.t) :
  let rq0 := control self "GET" (copytolocal_url source_path) in
  let rq := {| req_host := host; req_port := port; req_method := "GET";
               req_url := path ++ "?" ++ query; req_body := None |} in
  server E rq0 = Reply r ->
  server E rq = Reply r2 ->
  copytolocal E self source_path target_path (initial fs)
  = if writable E target_path
    then (Ok (HTTPResponse.status r2),
          {| trace := [Sent 0 rq0; Sent 1 rq; Closed 1; Closed 0];
             files := <[target_path := HTTPResponse.body r2]> fs;
             conns := 2 |})
    else (Raise (IOError target_path),
          {| trace := [Sent 0 rq0; Sent 1 rq; Closed 0]; files := fs; conns := 2 |}).
Proof.
  intros rq0 rq H Hrq.
  pose proof (getheader_location r location has_location) as Hget.
  subst rq0 rq. run_world.
Qed.

End Transfers.

(** X8.  A download that goes well: when the NameNode redirects, the
    DataNode answers and the local path can be written, [copytolocal]
    makes the local file hold exactly the body of the DataNode's answer,
    leaves every other local file alone, returns the status of the
    DataNode's answer (not the NameNode's) and closes both connections. *)
Theorem copytolocal_downloads
  (E : env) (self : WebHDFS) (source_path target_path : string)
  (fs : gmap string string) (r r2 : HTTPResponse.t)
  (location host : string) (port : Z) (path query : string) :
  server E (control self "GET" (copytolocal_url source_path)) = Reply r ->
  redirected r = true ->
  HTTPResponse.msg r !! "location" = Some location ->
  parse_url location = Ok (host, port, path, query) ->
  server E {| req_host := host; req_port := port; req_method := "GET";
              req_url := path ++ "?" ++ query; req_body := None |} = Reply r2 ->
  writable E target_path = true ->
  fst (copytolocal E self source_path target_path (initial fs))
    = Ok (HTTPResponse.status r2)
  /\ files (snd (copytolocal E self source_path target_path (initial fs)))
     = <[target_path := HTTPResponse.body r2]> fs
  /\ open_conns (snd (copytolocal E self source_path target_path (initial fs))) = [].
Proof.
  intros H Hred Hloc Hparse Hrq Hw.
  rewrite (copytolocal_run E self r location host port path query Hred Hloc Hparse
             source_path target_path fs r2 H Hrq).
  rewrite Hw. repeat split.
Qed.

Lemma copytolocal_downloads_witness :
  fst (copytolocal (Demo.cluster (Demo.redirect Demo.location) (Reply (Demo.failed "gone")))
         Demo.hdfs "/data/product/file.log" "/tmp/upload.txt" (initial Demo.local_files))
  = Ok 404%Z
  /\ files (snd (copytolocal
                   (Demo.cluster (Demo.redirect Demo.location) (Reply (Demo.failed "gone")))
                   Demo.hdfs "/data/product/file.log" "/tmp/upload.txt"
                   (initial Demo.local_files)))
     = <[ "/tmp/upload.txt" := "gone" ]> Demo.local_files
  /\ open_conns (snd (copytolocal
                        (Demo.cluster (Demo.redirect Demo.location)
                           (Reply (Demo.failed "gone")))
                        Demo.hdfs "/data/product/file.log" "/tmp/upload.txt"
                        (initial Demo.local_files)))
     = [].
Proof.
  apply (copytolocal_downloads
           (Demo.cluster (Demo.redirect Demo.location) (Reply (Demo.failed "gone")))
           Demo.hdfs "/data/product/file.log" "/tmp/upload.txt" Demo.local_files
           (Demo.redirect Demo.location) (Demo.failed "gone") Demo.location
           "datanode1.hadoop.staging.corp" 50075
           "webhdfs/v1/data/product/file.log" "op=OPEN&offset=0");
    vm_compute; reflexivity.
Defined.




(** X10.  [copytolocal] never touches a local file other than its
    target, in any environment and however it ends. *)
Theorem copytolocal_writes_only_target
  (E : env) (self : WebHDFS) (source_path target_path : string)
  (fs : gmap string string) (other : string) :
  other <> target_path ->
  files (snd (copytolocal E self source_path target_path (initial fs))) !! other
  = fs !! other.
Proof.
  intros Hne. run_world; apply lookup_insert_ne; congruence.
Qed.

Lemma copytolocal_writes_only_target_witness :
  files (snd (copytolocal (Demo.datanode "abc") Demo.hdfs "/data/product/file.log"
                "/tmp/out" (initial Demo.local_files)))
    !! "/tmp/upload.txt"
  = Demo.local_files !! "/tmp/upload.txt".
Proof.
  apply (copytolocal_writes_only_target (Demo.datanode "abc") Demo.hdfs
           "/data/product/file.log" "/tmp/out" Demo.local_files "/tmp/upload.txt").
  discriminate.
Defined.



(** ** A NameNode that cannot be reached *)

(** X12.  When the NameNode refuses the connection, every operation
    raises the error of the transport at once: nothing has been sent, no
    DataNode is contacted and the local files are as they were, also the
    target of [copytolocal]. *)
Theorem namenode_refuses
  (E : env) (self : WebHDFS) (path local_path : string) (replication : Z)
  (overwrite : bool) (offset length buffersize : Z) (fs : gmap string string) :
  (forall rq, req_host rq = namenode_host self -> server E rq = Refused) ->
  refused_at_once (mkdir E self path (initial fs)) fs
  /\ refused_at_once (rmdir E self path (initial fs)) fs
  /\ refused_at_once
       (copyfromlocal E self local_path path replication overwrite (initial fs)) fs
  /\ refused_at_once (copytolocal E self path local_path (initial fs)) fs
  /\ refused_at_once (readfile E self path offset length buffersize (initial fs)) fs
  /\ refused_at_once (listdir E self path (initial fs)) fs
  /\ refused_at_once (getfilestatus E self path (initial fs)) fs.
Proof.
  intros Hdown. unfold refused_at_once.
  pose proof (fun m u => Hdown (control self m u) eq_refl) as Hc.
  pose proof (Hc "PUT" (WEBHDFS_CONTEXT_ROOT ++ path ++ "?op=MKDIRS")) as H1.
  pose proof (Hc "DELETE" (WEBHDFS_CONTEXT_ROOT ++ path ++ "?op=DELETE&recursive=true"))
    as H2.
  pose proof (Hc "PUT" (copyfromlocal_url path overwrite)) as H3.
  pose proof (Hc "GET" (copytolocal_url path)) as H4.
  pose proof (Hc "GET" (readfile_url path offset length buffersize)) as H5.
  pose proof (Hc "GET" (listdir_url path)) as H6.
  pose proof (Hc "GET" (WEBHDFS_CONTEXT_ROOT ++ path ++ "?op=GETFILESTATUS")) as H7.
  clear Hdown Hc.
  repeat split; run_world.
Qed.

Lemma namenode_refuses_witness :
  refused_at_once
    (copytolocal {| server := fun _ => Refused; json_loads := Demo.decoder;
                    writable := fun _ => true; int_max := Demo.INT_MAX |}
       Demo.hdfs "/data/product/file.log" "/tmp/upload.txt" (initial Demo.local_files))
    Demo.local_files.
Proof.
  apply (namenode_refuses {| server := fun _ => Refused; json_loads := Demo.decoder;
                             writable := fun _ => true; int_max := Demo.INT_MAX |}
           Demo.hdfs "/data/product/file.log" "/tmp/upload.txt" 1 true 0 10000 10000
           Demo.local_files).
  intros rq _. reflexivity.
Defined.

(** ** How many requests, and where to *)

(** X13.  Whatever the environment does, an operation that ends at the
    NameNode sends at most one request and each of [copyfromlocal],
    [copytolocal] and [readfile] at most two; the first request of every
    operation goes to the host and port of the NameNode. *)
Theorem requests_start_at_namenode
  (E : env) (self : WebHDFS) (path local_path : string) (replication : Z)
  (overwrite : bool) (offset length buffersize : Z) (fs : gmap string string) :
  starts_at_namenode self 1 (snd (mkdir E self path (initial fs)))
  /\ starts_at_namenode self 1 (snd (rmdir E self path (initial fs)))
  /\ starts_at_namenode self 1 (snd (listdir E self path (initial fs)))
  /\ starts_at_namenode self 1 (snd (getfilestatus E self path (initial fs)))
  /\ starts_at_namenode self 2
       (snd (copyfromlocal E self local_path path replication overwrite (initial fs)))
  /\ starts_at_namenode self 2 (snd (copytolocal E self path local_path (initial fs)))
  /\ starts_at_namenode self 2
       (snd (readfile E self path offset length buffersize (initial fs))).
Proof.
  unfold starts_at_namenode, requests.
  repeat split; run_world; cbn [omap list_omap]; auto; repeat split; lia.
Qed.


(** ** Connections, once more *)

(** X14.  In every environment, an operation that returns a value has
    closed every connection it opened. *)
Theorem connections_closed_on_return
  (E : env) (self : WebHDFS) (path local_path : string) (replication : Z)
  (overwrite : bool) (offset length buffersize : Z) (fs : gmap string string) :
  closed_on_return (mkdir E self path (initial fs))
  /\ closed_on_return (rmdir E self path (initial fs))
  /\ closed_on_return
       (copyfromlocal E self local_path path replication overwrite (initial fs))
  /\ closed_on_return (copytolocal E self path local_path (initial fs))
  /\ closed_on_return (readfile E self path offset length buffersize (initial fs))
  /\ closed_on_return (listdir E self path (initial fs))
  /\ closed_on_return (getfilestatus E self path (initial fs)).
Proof.
  unfold closed_on_return.
  repeat split;
    match goal with
    | |- match fst ?x with _ => _ end => destruct (fst x) eqn:Hr; [|exact I]
    end.
  - exact (mkdir_closes E self fs path a Hr).
  - exact (rmdir_closes E self fs path a Hr).
  - exact (copyfromlocal_closes E self fs local_path path replication overwrite a Hr).
  - exact (copytolocal_closes E self fs path local_path a Hr).
  - exact (readfile_closes E self fs path offset length buffersize a Hr).
  - exact (listdir_closes E self fs path a Hr).
  - exact (getfilestatus_closes E self fs path a Hr).
Qed.

Example upload_returns_and_closes :
  let E := Demo.cluster (Demo.redirect Demo.location) (Reply (Demo.last_answer "{}")) in
  fst (copyfromlocal E Demo.hdfs "/tmp/upload.txt" "/data/up.txt" 1 true
         (initial Demo.local_files))
  = Ok (JDict [])
  /\ open_conns (snd (copyfromlocal E Demo.hdfs "/tmp/upload.txt" "/data/up.txt" 1 true
                        (initial Demo.local_files)))
     = [].
Proof. split; vm_compute; reflexivity. Qed.

(** The same upload to a DataNode that keeps the connection alive: the
    file is sent, but the body of the answer is read after [close()] and
    is empty by then. *)
Example upload_kept_alive_raises :
  let E := Demo.datanode "{}" in
  fst (copyfromlocal E Demo.hdfs "/tmp/upload.txt" "/data/up.txt" 1 true
         (initial Demo.local_files))
  = Raise (ValueError "No JSON object could be decoded")
  /\ List.length (requests (snd (copyfromlocal E Demo.hdfs "/tmp/upload.txt"
                                   "/data/up.txt" 1 true (initial Demo.local_files))))
     = 2.
Proof. split; vm_compute; reflexivity. Qed.



(** ** What [parse_url] can return *)

Section ParseUrlShape.
Import Py.

Lemma span_spec (p : ascii -> bool) (s : string) :
  forall_chars p (fst (span p s)) = true /\ s = fst (span p s) ++ snd (span p s).
Proof.
  induction s as [|c s [IH1 IH2]]; simpl; [split; reflexivity|].
  destruct (p c) eqn:Hc; [|split; reflexivity].
  destruct (span p s) as [a b]; simpl in *. rewrite Hc, IH1. split; [reflexivity|].
  change (String c s = String c (a ++ b)). f_equal. exact IH2.
Qed.

Lemma forall_chars_take (p : ascii -> bool) (n : nat) (s : string) :
  forall_chars p s = true -> forall_chars p (take n s) = true.
Proof.
  revert n. induction s as [|c s IH]; intros [|n] H; simpl in *; try reflexivity.
  apply andb_true_iff in H as [Hc Hs]. rewrite Hc, (IH n Hs). reflexivity.
Qed.

Lemma length_take (n : nat) (s : string) :
  String.length (take n s) = Nat.min n (String.length s).
Proof.
  revert n. induction s as [|c s IH]; intros [|n]; simpl; try reflexivity.
  rewrite IH. reflexivity.
Qed.

(** What the two groups of a match hold. *)
Lemma match_netloc_groups (netloc host digits : string) :
  Re.match_netloc netloc = Some (host, Some digits) ->
  host <> ""
  /\ forall_chars Re.host_char host = true
  /\ forall_chars is_digit digits = true
  /\ 2 <= String.length digits <= 5.
Proof.
  unfold Re.match_netloc.
  pose proof (span_spec Re.host_char netloc) as [Hh _].
  destruct (span Re.host_char netloc) as [h rest]; simpl in Hh.
  destruct (String.eqb_spec h ""); [discriminate|].
  set (rest' := match rest with String ":" r => r | _ => rest end).
  pose proof (span_spec is_digit rest') as [Hd _].
  destruct (span is_digit rest') as [d tl]; simpl in Hd.
  destruct (Nat.leb_spec 2 (String.length d)); [|discriminate].
  remember (take 5 d) as td eqn:Htd.
  intros [= <- <-]. subst td. repeat split; try assumption.
  - apply forall_chars_take. exact Hd.
  - rewrite length_take. lia.
  - rewrite length_take. lia.
Qed.

Lemma digit_value_range (c : ascii) :
  is_digit c = true -> (0 <= digit_value c <= 9)%Z.
Proof.
  unfold is_digit, digit_value. intros H.
  apply andb_true_iff in H as [H1 H2].
  apply N.leb_le in H1, H2. lia.
Qed.

(** [int] of [n] digits lies below the [n]-th power of ten. *)
Lemma int_of_digits_fold (s : string) :
  forall acc,
    forall_chars is_digit s = true -> (0 <= acc)%Z ->
    (acc * 10 ^ Z.of_nat (String.length s)
     <= fold_left (fun a c => 10 * a + digit_value c) (list_ascii_of_string s) acc
     < (acc + 1) * 10 ^ Z.of_nat (String.length s))%Z.
Proof.
  induction s as [|c s IH]; intros acc H Hacc.
  - simpl. lia.
  - simpl in H. apply andb_true_iff in H as [Hc Hs].
    apply digit_value_range in Hc.
    cbn [list_ascii_of_string fold_left String.length].
    specialize (IH (10 * acc + digit_value c)%Z Hs ltac:(lia)).
    rewrite Nat2Z.inj_succ, Z.pow_succ_r by lia.
    assert (0 < 10 ^ Z.of_nat (String.length s))%Z by (apply Z.pow_pos_nonneg; lia).
    nia.
Qed.

Lemma int_of_digits_range (s : string) :
  forall_chars is_digit s = true ->
  (0 <= int_of_digits s < 10 ^ Z.of_nat (String.length s))%Z.
Proof.
  intros H. unfold int_of_digits.
  pose proof (int_of_digits_fold s 0%Z H ltac:(lia)). lia.
Qed.

Lemma lstrip_head (c : ascii) (s rest : string) : lstrip c s <> String c rest.
Proof.
  induction s as [|x s IH]; simpl; [discriminate|].
  destruct (ascii_eqb x c) eqn:Hx; [exact IH|].
  intros [= -> _]. unfold ascii_eqb in Hx. rewrite Ascii.eqb_refl in Hx. discriminate.
Qed.

Lemma rstrip_head (c : ascii) (s : string) :
  (forall rest, s <> String c rest) -> forall rest, rstrip c s <> String c rest.
Proof.
  intros H rest. destruct s as [|x s]; simpl; [discriminate|].
  assert (Hx : x <> c) by (intros ->; exact (H s eq_refl)).
  destruct (rstrip c s); [destruct (ascii_eqb x c)|]; congruence.
Qed.

Lemma rstrip_last (c : ascii) (s : string) :
  forall front, rstrip c s <> front ++ String c "".
Proof.
  induction s as [|x s IH]; intros front; simpl.
  - destruct front; discriminate.
  - destruct (rstrip c s) as [|y r] eqn:Hr.
    + destruct (ascii_eqb x c) eqn:Hx.
      * destruct front; discriminate.
      * destruct front as [|f front].
        -- intros [= ->]. unfold ascii_eqb in Hx.
           rewrite Ascii.eqb_refl in Hx. discriminate.
        -- change (String x "" <> String f (front ++ String c "")).
           intros [= _ H]. destruct front; discriminate.
    + destruct front as [|f front].
      * discriminate.
      * change (String x (String y r) <> String f (front ++ String c "")).
        intros [= _ H]. exact (IH front H).
Qed.

End ParseUrlShape.

(** X16.  Whatever [parse_url] returns has this shape: the host is not
    empty and made of letters, digits, ['-'] and ['.'] only; the port lies
    between 0 and 99999; the path neither begins nor ends with a slash. *)
Theorem parse_url_result_shape (url host : string) (port : Z) (path query : string) :
  parse_url url = Ok (host, port, path, query) ->
  host <> ""
  /\ Py.forall_chars Re.host_char host = true
  /\ (0 <= port <= 99999)%Z
  /\ (forall rest, path <> String "/" rest)
  /\ (forall front, path <> front ++ "/").
Proof.
  unfold parse_url.
  destruct (Urlparse.urlparse url) as [[[[[[scheme netloc] upath] params] uquery] frag]|];
    [|discriminate].
  destruct (Re.match_netloc netloc) as [[h [digits|]]|] eqn:Hm; try discriminate.
  intros [= <- <- <- <-].
  destruct (match_netloc_groups netloc h digits Hm) as (Hne & Hh & Hd & Hlen).
  repeat split; try assumption.
  - apply (int_of_digits_range digits Hd).
  - pose proof (int_of_digits_range digits Hd) as [_ Hlt].
    assert (10 ^ Z.of_nat (String.length digits) <= 10 ^ 5)%Z
      by (apply Z.pow_le_mono_r; lia).
    lia.
  - apply rstrip_head. intros rest. apply lstrip_head.
  - apply rstrip_last.
Qed.

Lemma parse_url_result_shape_witness :
  "dn1" <> ""
  /\ Py.forall_chars Re.host_char "dn1" = true
  /\ (0 <= 99999 <= 99999)%Z
  /\ (forall rest, "webhdfs/v1/f" <> String "/" rest)
  /\ (forall front, "webhdfs/v1/f" <> front ++ "/").
Proof.
  apply (parse_url_result_shape "http://dn1:99999//webhdfs/v1/f/?op=OPEN"
           "dn1" 99999 "webhdfs/v1/f" "op=OPEN").
  vm_compute. reflexivity.
Defined.

(** ** Well-formed redirects *)

Section RoundTrip.
Import Py.

Lemma string_app_assoc (a b c : string) : (a ++ b) ++ c = a ++ (b ++ c).
Proof.
  induction a as [|x a IH]; [reflexivity|].
  change (String x ((a ++ b) ++ c) = String x (a ++ (b ++ c))). f_equal. exact IH.
Qed.

Lemma forall_chars_app (p : ascii -> bool) (a b : string) :
  forall_chars p (a ++ b) = forall_chars p a && forall_chars p b.
Proof.
  induction a as [|x a IH]; [reflexivity|].
  change (p x && forall_chars p (a ++ b) = p x && forall_chars p a && forall_chars p b).
  rewrite IH. apply andb_assoc.
Qed.

Lemma forall_chars_impl (p q : ascii -> bool) (s : string) :
  (forall c, p c = true -> q c = true) ->
  forall_chars p s = true -> forall_chars q s = true.
Proof.
  intros Hpq. induction s as [|x s IH]; simpl; [reflexivity|].
  intros H. apply andb_true_iff in H as [Hx Hs].
  rewrite (Hpq x Hx), (IH Hs). reflexivity.
Qed.

(** A character outside [p] does not occur in a text made of [p]. *)
Lemma not_contained (p : ascii -> bool) (c : ascii) (s : string) :
  p c = false -> forall_chars p s = true -> contains c s = false.
Proof.
  intros Hc. induction s as [|x s IH]; simpl; [reflexivity|].
  intros H. apply andb_true_iff in H as [Hx Hs]. rewrite (IH Hs).
  unfold ascii_eqb. destruct (Ascii.eqb_spec x c) as [->|]; [congruence|reflexivity].
Qed.

Lemma split_once_none (c : ascii) (s : string) :
  contains c s = false -> split_once c s = None.
Proof.
  induction s as [|x s IH]; simpl; [reflexivity|].
  intros H. apply orb_false_iff in H as [Hx Hs]. rewrite Hx, (IH Hs). reflexivity.
Qed.

Lemma split_once_app (c : ascii) (a b : string) :
  contains c a = false -> split_once c (a ++ String c b) = Some (a, b).
Proof.
  induction a as [|x a IH]; intros H.
  - change (split_once c (String c b) = Some ("", b)). simpl.
    unfold ascii_eqb. rewrite Ascii.eqb_refl. reflexivity.
  - simpl in H. apply orb_false_iff in H as [Hx Ha].
    change (split_once c (String x (a ++ String c b)) = Some (String x a, b)).
    simpl. rewrite Hx, (IH Ha). reflexivity.
Qed.

Lemma contains_app (c : ascii) (a b : string) :
  contains c (a ++ b) = contains c a || contains c b.
Proof.
  induction a as [|x a IH]; [reflexivity|].
  change (ascii_eqb x c || contains c (a ++ b)
          = ascii_eqb x c || contains c a || contains c b).
  rewrite IH. apply orb_assoc.
Qed.

Lemma netloc_char_plain (c : ascii) :
  netloc_char c = true -> negb (contains c "/?#") = true.
Proof.
  destruct c as [[] [] [] [] [] [] [] []]; vm_compute; intros; congruence.
Qed.

Lemma host_is_netloc (c : ascii) : Re.host_char c = true -> netloc_char c = true.
Proof. unfold netloc_char. intros ->. reflexivity. Qed.

Lemma digit_is_netloc (c : ascii) : is_digit c = true -> netloc_char c = true.
Proof.
  destruct c as [[] [] [] [] [] [] [] []]; vm_compute; intros; congruence.
Qed.

(** [urlparse] of an [http] address made of a network location of host
    and port characters, a path and a query. *)
Lemma urlparse_http (netloc p q : string) :
  forall_chars netloc_char netloc = true ->
  contains "?" p = false -> contains "#" p = false -> contains ";" p = false ->
  contains "#" q = false ->
  Urlparse.urlparse ("http://" ++ netloc ++ "/" ++ p ++ "?" ++ q)
  = Ok ("http", netloc, "/" ++ p, "", q, "").
Proof.
  intros Hn Hp1 Hp2 Hp3 Hq.
  unfold Urlparse.urlparse, Urlparse.urlsplit.
  change (Urlparse.split_scheme ("http://" ++ netloc ++ "/" ++ p ++ "?" ++ q))
    with ("http", "//" ++ netloc ++ "/" ++ p ++ "?" ++ q).
  cbv iota beta.
  change (take 2 ("//" ++ netloc ++ "/" ++ p ++ "?" ++ q)) with "//".
  change (String.eqb "//" "//") with true. cbv iota.
  change (Urlparse.splitnetloc ("//" ++ netloc ++ "/" ++ p ++ "?" ++ q))
    with (span (fun c => negb (contains c "/?#")) (netloc ++ "/" ++ p ++ "?" ++ q)).
  rewrite (span_app _ netloc ("/" ++ p ++ "?" ++ q));
    [| exact (forall_chars_impl _ _ _ netloc_char_plain Hn) | reflexivity ].
  cbv iota beta.
  rewrite (not_contained netloc_char "[" netloc eq_refl Hn).
  rewrite (not_contained netloc_char "]" netloc eq_refl Hn).
  cbv iota beta. change (false && _ || false && _) with false. cbv iota.
  assert (Hhash : contains "#" ("/" ++ p ++ "?" ++ q) = false).
  { change (contains "#" (String "/" (p ++ String "?" q)) = false).
    simpl. rewrite contains_app. simpl. rewrite Hp2, Hq. reflexivity. }
  rewrite (split_once_none "#" _ Hhash). cbn [Urlparse.or_whole].
  assert (Hquery : split_once "?" ("/" ++ p ++ "?" ++ q) = Some ("/" ++ p, q)).
  { change (split_once "?" (String "/" p ++ String "?" q) = Some (String "/" p, q)).
    apply split_once_app. simpl. exact Hp1. }
  rewrite Hquery. cbn [Urlparse.or_whole].
  assert (Hsemi : contains ";" ("/" ++ p) = false) by (simpl; exact Hp3).
  rewrite Hsemi, andb_false_r. reflexivity.
Qed.

End RoundTrip.

(** X17.  A redirect as the service writes it is taken apart into what it
    was made of: for a host of host characters, a port of two to five
    digits, a path without ['?'], ['#'] and [';'] and a query without
    ['#'], [parse_url] of [http://host:port/path?query] returns the host,
    the number the port spells, the path without its outer slashes and
    the query unchanged. *)
Theorem parse_url_round_trip (host port path query : string) :
  host <> "" ->
  Py.forall_chars Re.host_char host = true ->
  Py.forall_chars Py.is_digit port = true ->
  2 <= String.length port <= 5 ->
  Py.contains "?" path = false ->
  Py.contains "#" path = false ->
  Py.contains ";" path = false ->
  Py.contains "#" query = false ->
  parse_url ("http://" ++ host ++ ":" ++ port ++ "/" ++ path ++ "?" ++ query)
  = Ok (host, Py.int_of_digits port, Py.strip "/" path, query).
Proof.
  intros Hne Hh Hd Hlen Hp1 Hp2 Hp3 Hq.
  assert (Hre : "http://" ++ host ++ ":" ++ port ++ "/" ++ path ++ "?" ++ query
                = "http://" ++ (host ++ ":" ++ port) ++ "/" ++ path ++ "?" ++ query).
  { change ("http://" ++ host ++ ":" ++ port ++ "/" ++ path ++ "?" ++ query)
      with ("http://" ++ (host ++ (":" ++ (port ++ ("/" ++ path ++ "?" ++ query))))).
    rewrite <- (string_app_assoc ":" port), <- (string_app_assoc host). reflexivity. }
  rewrite Hre.
  assert (Hn : Py.forall_chars netloc_char (host ++ ":" ++ port) = true).
  { rewrite forall_chars_app.
    rewrite (forall_chars_impl _ _ _ host_is_netloc Hh).
    change (":" ++ port) with (String ":" port). simpl.
    rewrite (forall_chars_impl _ _ _ digit_is_netloc Hd). reflexivity. }
  pose proof (urlparse_http (host ++ ":" ++ port) path query Hn Hp1 Hp2 Hp3 Hq) as Hu.
  rewrite (parse_url_host_port _ _ _ _ _ _ host port Hu Hne Hh Hd Hlen).
  reflexivity.
Qed.

Lemma parse_url_round_trip_witness :
  parse_url ("http://" ++ "datanode1.hadoop.staging.corp" ++ ":" ++ "50075" ++ "/"
             ++ "webhdfs/v1/data/product/file.log/" ++ "?"
             ++ "op=OPEN&namenoderpcaddress=nn:8020&offset=0")
  = Ok ("datanode1.hadoop.staging.corp", Py.int_of_digits "50075",
        Py.strip "/" "webhdfs/v1/data/product/file.log/",
        "op=OPEN&namenoderpcaddress=nn:8020&offset=0").
Proof.
  apply (parse_url_round_trip "datanode1.hadoop.staging.corp" "50075"
           "webhdfs/v1/data/product/file.log/"
           "op=OPEN&namenoderpcaddress=nn:8020&offset=0");
    try reflexivity; [discriminate | simpl; lia].
Defined.

Example port_and_path_of_the_witness :
  Py.int_of_digits "50075" = 50075%Z
  /\ Py.strip "/" "webhdfs/v1/data/product/file.log/" = "webhdfs/v1/data/product/file.log".
Proof. split; reflexivity. Qed.

(** ** Reading with a negative length *)



(** ** A redirect that cannot be used *)



(** ** A payload that is no gzip member *)

Section GzipMagic.

Lemma bits_byte (c : ascii) (rest : list bool) :
  Zlib.bits 8 (Zlib.bits_of_byte c ++ rest)%list = Zlib.Got (N_of_ascii c) rest.
Proof. destruct c as [[] [] [] [] [] [] [] []]; reflexivity. Qed.

Lemma bits_byte_then (c : ascii) (k : nat) (rest : list bool) :
  Zlib.bits (8 + k) (Zlib.bits_of_byte c ++ rest)%list
  = match Zlib.bits k rest with
    | Zlib.Got v rest' => Zlib.Got (N_of_ascii c + 256 * v)%N rest'
    | Zlib.Short => Zlib.Short
    | Zlib.Bad msg => Zlib.Bad msg
    end.
Proof.
  destruct c as [a0 a1 a2 a3 a4 a5 a6 a7].
  cbn [Zlib.bits_of_byte app Nat.add Zlib.bits].
  destruct (Zlib.bits k rest) as [v rest'| |msg]; [|reflexivity..].
  f_equal. destruct a0, a1, a2, a3, a4, a5, a6, a7;
    cbn [N_of_ascii N_of_digits N.b2n]; lia.
Qed.

Lemma bits_two_bytes (a b : ascii) (rest : list ascii) :
  Zlib.bits 16 (Zlib.bits_of (a :: b :: rest))
  = Zlib.Got (N_of_ascii a + 256 * N_of_ascii b)%N (Zlib.bits_of rest).
Proof.
  unfold Zlib.bits_of. cbn [flat_map].
  rewrite (bits_byte_then a 8), bits_byte. reflexivity.
Qed.

Lemma magic_of_bytes (a b : ascii) :
  (N_of_ascii a + 256 * N_of_ascii b)%N = Zlib.gzip_magic ->
  a = ascii_of_N 0x1f /\ b = ascii_of_N 0x8b.
Proof.
  unfold Zlib.gzip_magic. intros H.
  pose proof (N_ascii_bounded a) as Ha. pose proof (N_ascii_bounded b) as Hb.
  assert (N_of_ascii a = 0x1f%N /\ N_of_ascii b = 0x8b%N) as [Ea Eb] by lia.
  rewrite <- (ascii_N_embedding a), <- (ascii_N_embedding b), Ea, Eb. split; reflexivity.
Qed.

(** With window bits 16 the decompressor takes gzip members only: data of
    two bytes or more that does not begin with the bytes 1f 8b is refused,
    whatever the limit on the output. *)
Lemma decompress_no_magic (int_max : Z) (a b : ascii) (rest : string)
  (max_length : Z) :
  a <> ascii_of_N 0x1f \/ b <> ascii_of_N 0x8b ->
  (0 <= max_length <= int_max)%Z ->
  Zlib.decompress int_max ZLIB_WBITS (String a (String b rest)) max_length
  = Raise (ZlibError "incorrect header check").
Proof.
  intros Hmagic Hmax. unfold Zlib.decompress.
  change (Zlib.inflateInit2 ZLIB_WBITS) with (Some (Zlib.Gzip, 0%Z)). cbv iota beta.
  rewrite in_range by lia.
  destruct (Z.ltb_spec max_length 0) as [|_]; [lia|].
  unfold Zlib.inflate, Zlib.header, Zlib.bind at 1.
  cbn [list_ascii_of_string]. rewrite bits_two_bytes.
  destruct (N.eqb_spec (N_of_ascii a + 256 * N_of_ascii b) Zlib.gzip_magic) as [Heq|_].
  - apply magic_of_bytes in Heq as [-> ->]. destruct Hmagic as [H|H]; contradiction H; reflexivity.
  - unfold Zlib.fail, Zlib.needs_room. cbn [List.length].
    destruct (Z.ltb_spec max_length (Z.of_nat 0)) as [|_]; [lia|].
    rewrite andb_false_r, orb_false_r, andb_false_r. reflexivity.
Qed.

End GzipMagic.

(** X20.  [readfile] of a path that ends in ".gz" takes the payload for a
    gzip member: when the DataNode answers with two bytes or more that do
    not begin with the gzip magic 1f 8b (a plain text, a raw deflate
    stream, a zlib stream), the call raises the zlib error "incorrect
    header check", for every [length] from 0 to the largest C integer of
    the interpreter. *)
Theorem readfile_gz_requires_gzip_magic
  (E : env) (self : WebHDFS) (source_path : string) (offset length buffersize : Z)
  (fs : gmap string string) (r r2 : HTTPResponse.t)
  (location host : string) (port : Z) (path query : string)
  (a b : ascii) (rest : string) :
  server E (control self "GET" (readfile_url source_path offset length buffersize))
    = Reply r ->
  redirected r = true ->
  HTTPResponse.msg r !! "location" = Some location ->
  parse_url location = Ok (host, port, path, query) ->
  server E {| req_host := host; req_port := port; req_method := "GET";
              req_url := readfile_url source_path offset length buffersize
                         ++ "&user.name=" ++ username self;
              req_body := None |} = Reply r2 ->
  Py.endswith source_path ".gz" = true ->
  HTTPResponse.read r2 = String a (String b rest) ->
  a <> ascii_of_N 0x1f \/ b <> ascii_of_N 0x8b ->
  (0 <= length <= int_max E)%Z ->
  fst (readfile E self source_path offset length buffersize (initial fs))
  = Raise (ZlibError "incorrect header check").
Proof.
  intros H Hred Hloc Hparse Hdata Hgz Hbody Hmagic Hlen.
  rewrite (readfile_result E self r r2 location host port path query source_path
             offset length buffersize H Hred Hloc Hparse Hdata (initial fs)).
  rewrite Hgz, Hbody, (decompress_no_magic _ a b rest length Hmagic Hlen).
  reflexivity.
Qed.

Lemma readfile_gz_requires_gzip_magic_witness :
  fst (readfile (Demo.datanode "plain text, not compressed") Demo.hdfs
         "/data/product/file.log.gz" 0 10000 10000 (initial ∅))
  = Raise (ZlibError "incorrect header check").
Proof.
  apply (readfile_gz_requires_gzip_magic (Demo.datanode "plain text, not compressed")
           Demo.hdfs "/data/product/file.log.gz" 0 10000 10000 ∅
           (Demo.redirect Demo.location) (Demo.ok "plain text, not compressed")
           Demo.location "datanode1.hadoop.staging.corp" 50075
           "webhdfs/v1/data/product/file.log" "op=OPEN&offset=0"
           "p"%char "l"%char "ain text, not compressed");
    try (vm_compute; reflexivity); [left; discriminate | vm_compute; split; discriminate].
Defined.

(** ** What an upload returns *)

(** X21.  [copyfromlocal] reads the body of the DataNode's answer after it
    has closed the connection to the DataNode.  When the answer ended the
    connection by itself, the body is still there and the call returns it
    decoded; when the connection was kept alive, closing it has closed
    the answer too, the body reads as the empty string and the call gives
    what [json.loads] makes of the empty string, although the file has
    been sent.  No connection stays open. *)
Theorem copyfromlocal_reads_after_close
  (E : env) (self : WebHDFS) (source_path target_path : string) (replication : Z)
  (overwrite : bool) (fs : gmap string string) (r r2 : HTTPResponse.t)
  (location host : string) (port : Z) (path query data : string) :
  server E (control self "PUT" (copyfromlocal_url target_path overwrite)) = Reply r ->
  HTTPResponse.msg r !! "location" = Some location ->
  parse_url location = Ok (host, port, path, query) ->
  fs !! source_path = Some data ->
  server E {| req_host := host; req_port := port; req_method := "PUT";
              req_url := path ++ "?" ++ query ++ "&replication="
                         ++ Py.str replication;
              req_body := Some data |} = Reply r2 ->
  let out := copyfromlocal E self source_path target_path replication overwrite
               (initial fs) in
  fst out
  = decoded E (if HTTPResponse.will_close r2 then HTTPResponse.body r2 else "")
  /\ open_conns (snd out) = [].
Proof.
  intros H Hloc Hparse Hfile Hdata out. subst out. unfold decoded.
  pose proof (getheader_location r location Hloc) as Hget.
  assert (Hread : HTTPResponse.read (HTTPResponse.after_close r2)
                  = if HTTPResponse.will_close r2 then HTTPResponse.body r2 else "").
  { unfold HTTPResponse.after_close, HTTPResponse.read.
    destruct (HTTPResponse.will_close r2); reflexivity. }
  rewrite <- Hread. clear Hread.
  split; run_world; congruence.
Qed.

Lemma copyfromlocal_reads_after_close_witness :
  fst (copyfromlocal (Demo.datanode "{}") Demo.hdfs "/tmp/upload.txt" "/data/up.txt"
         3 true (initial Demo.local_files))
  = Raise (ValueError "No JSON object could be decoded")
  /\ open_conns (snd (copyfromlocal (Demo.datanode "{}") Demo.hdfs "/tmp/upload.txt"
                        "/data/up.txt" 3 true (initial Demo.local_files)))
     = [].
Proof.
  apply (copyfromlocal_reads_after_close (Demo.datanode "{}") Demo.hdfs
           "/tmp/upload.txt" "/data/up.txt" 3 true Demo.local_files
           (Demo.redirect Demo.location) (Demo.ok "{}") Demo.location
           "datanode1.hadoop.staging.corp" 50075
           "webhdfs/v1/data/product/file.log" "op=OPEN&offset=0" "payload");
    vm_compute; reflexivity.
Defined.

(** ** A listing that is no mapping *)

(** X22.  When the body of the answer to [listdir] decodes to something
    that is not a mapping, the call raises [TypeError] at the first
    lookup, except that a body which is one string with a character
    beyond ASCII raises [UnicodeEncodeError] in the logging call before
    the lookup.  The connection is closed. *)
Theorem listdir_body_not_a_mapping
  (E : env) (self : WebHDFS) (path : string) (fs : gmap string string)
  (r : HTTPResponse.t) (data_dict : json) :
  server E (listdir_request self path) = Reply r ->
  json_loads E (HTTPResponse.body r) = Some data_dict ->
  (forall fields, data_dict <> JDict fields) ->
  fst (listdir E self path (initial fs))
  = match data_dict with
    | JStr s => if Py.is_ascii s then Raise TypeError else Raise UnicodeEncodeError
    | _ => Raise TypeError
    end
  /\ open_conns (snd (listdir E self path (initial fs))) = [].
Proof.
  intros H Hjson Hnot. unfold listdir, namenode.
  unfold listdir_request in H.
  rewrite (with_reply E _ _ _ _ _ _ (initial fs) r H). cbn [fst snd].
  unfold bind, loads, lift, HTTPResponse.read. rewrite Hjson.
  destruct data_dict as [ |b|n|s|items|fields];
    cbn [Json.str Json.getitem fst snd]; try (split; reflexivity).
  - destruct (Py.is_ascii s); split; reflexivity.
  - contradiction (Hnot fields). reflexivity.
Qed.

Lemma listdir_body_not_a_mapping_witness :
  fst (listdir (Demo.answering (Demo.ok "'caf\u00e9'")
                  (Some (JStr (String "c" (String "a" (String "f"
                           (String (ascii_of_N 233) EmptyString)))))))
         Demo.hdfs "/data" (initial ∅))
  = Raise UnicodeEncodeError
  /\ open_conns (snd (listdir (Demo.answering (Demo.ok "'caf\u00e9'")
                          (Some (JStr (String "c" (String "a" (String "f"
                                   (String (ascii_of_N 233) EmptyString)))))))
                        Demo.hdfs "/data" (initial ∅)))
     = [].
Proof.
  apply (listdir_body_not_a_mapping
           (Demo.answering (Demo.ok "'caf\u00e9'")
              (Some (JStr (String "c" (String "a" (String "f"
                       (String (ascii_of_N 233) EmptyString)))))))
           Demo.hdfs "/data" ∅ (Demo.ok "'caf\u00e9'")
           (JStr (String "c" (String "a" (String "f"
                    (String (ascii_of_N 233) EmptyString)))))).
  - reflexivity.
  - reflexivity.
  - intros fields. discriminate.
Defined.
